(** * MedInsight backend: document ingestion and analysis pipeline

    A shallow embedding of the Flask backend (BACKEND.txt): text extraction,
    the two Gemini analyzers with their tiered reply parsing, the session
    document context and the three routes, followed by the properties the
    specification states about them.

    Conventions.
    - A Python [str] is the list of its code points ([pystr]).
    - Code that may raise runs in the monad [M]: a computation maps a
      [world] (the Flask session and the trace of observable effects) to an
      [outcome] (a value or a raised exception) and the new world.  A raised
      exception keeps the effects that happened before it, as in Python.
    - Library calls whose result depends on the outside (Gemini, the PDF,
      DOCX, XLSX, OpenCV, Tesseract and PIL libraries, the file system,
      [json.loads]) are the fields of the record [Env]. *)

From Stdlib Require Import ZArith NArith String Ascii List Bool Lia.
From stdpp Require Import base option strings list gmap.

Open Scope N_scope.
Set Warnings "-register-all,-clear-no-such-hyp".

(* ================================================================== *)
(** ** Python strings *)

Abbreviation pystr := (list N).

(** A literal: the code points of an ASCII string. *)
Fixpoint py (s : string) : pystr :=
  match s with
  | EmptyString => []
  | String a s' => N_of_ascii a :: py s'
  end.

(** The quotation mark, written by its code. *)
Definition dq : string := String (ascii_of_N 34) EmptyString.
(** The line feed. *)
Definition nl : string := String (ascii_of_N 10) EmptyString.

(** [str.isspace] on one code point, which is also what [\s] matches in
    a [str] pattern (Unicode white space). *)
Definition isspace (c : N) : bool :=
  ((9 <=? c) && (c <=? 13)) || ((28 <=? c) && (c <=? 32))
  || (c =? 133) || (c =? 160) || (c =? 5760)
  || ((8192 <=? c) && (c <=? 8202))
  || (c =? 8232) || (c =? 8233) || (c =? 8239) || (c =? 8287) || (c =? 12288).

Fixpoint lstrip (s : pystr) : pystr :=
  match s with
  | c :: s' => if isspace c then lstrip s' else s
  | [] => []
  end.

Definition rstrip (s : pystr) : pystr := rev (lstrip (rev s)).

(** [s.strip()] *)
Definition strip (s : pystr) : pystr := rstrip (lstrip s).

(** Truth value of a [str]: non-empty. *)
Definition truthy (s : pystr) : bool :=
  match s with [] => false | _ :: _ => true end.

Definition pystr_eqb (a b : pystr) : bool := bool_decide (a = b).

Fixpoint is_prefix (p s : pystr) : bool :=
  match p, s with
  | [], _ => true
  | a :: p', b :: s' => (a =? b) && is_prefix p' s'
  | _ :: _, [] => false
  end.

(** [needle in haystack] for two strings. *)
Fixpoint substring_in (needle hay : pystr) : bool :=
  is_prefix needle hay ||
  match hay with
  | [] => false
  | _ :: hay' => substring_in needle hay'
  end.

(** [sep.join(parts)] *)
Fixpoint join (sep : pystr) (parts : list pystr) : pystr :=
  match parts with
  | [] => []
  | [p] => p
  | p :: rest => p ++ sep ++ join sep rest
  end.

(** [len(s)] as an integer. *)
Definition len (s : pystr) : Z := Z.of_nat (length s).

(** [s[:n]] for a non-negative bound. *)
Definition slice_to (n : Z) (s : pystr) : pystr := take (Z.to_nat n) s.

(* ================================================================== *)
(** ** The regular expression of the analyzers

    The fragment of Python's [re] the pattern needs, matched the way the
    backtracking engine does: alternatives in order, a greedy star longest
    first, a lazy star shortest first. *)

Inductive cclass :=
| CAny     (* [.] under re.DOTALL *)
| CSpace.  (* [\s] *)

Definition cmatch (cl : cclass) (c : N) : bool :=
  match cl with
  | CAny => true
  | CSpace => isspace c
  end.

Inductive regex :=
| RLit (s : pystr)
| RStar (cl : cclass)               (* cl*  *)
| RLazy (cl : cclass)               (* cl*? *)
| RSeq (r1 r2 : regex)
| RAlt (r1 r2 : regex)
| RGroup (n : nat) (r : regex).

(** Captured groups of a match; a group that took no part is absent. *)
Abbreviation caps := (gmap nat pystr).

Fixpoint star_greedy (cl : cclass) (k : pystr -> option caps) (s : pystr)
  : option caps :=
  match s with
  | c :: s' =>
      if cmatch cl c then
        match star_greedy cl k s' with
        | Some m => Some m
        | None => k s
        end
      else k s
  | [] => k s
  end.

Fixpoint star_lazy (cl : cclass) (k : pystr -> option caps) (s : pystr)
  : option caps :=
  match k s with
  | Some m => Some m
  | None =>
      match s with
      | c :: s' => if cmatch cl c then star_lazy cl k s' else None
      | [] => None
      end
  end.

(** [rmatch r s c k]: match [r] at the head of [s] with the groups [c] so
    far, then the rest of the pattern [k] on what is left. *)
Fixpoint rmatch (r : regex) (s : pystr) (c : caps)
  (k : pystr -> caps -> option caps) : option caps :=
  match r with
  | RLit l => if is_prefix l s then k (drop (length l) s) c else None
  | RStar cl => star_greedy cl (fun s' => k s' c) s
  | RLazy cl => star_lazy cl (fun s' => k s' c) s
  | RSeq r1 r2 => rmatch r1 s c (fun s' c' => rmatch r2 s' c' k)
  | RAlt r1 r2 =>
      match rmatch r1 s c k with
      | Some m => Some m
      | None => rmatch r2 s c k
      end
  | RGroup n r1 =>
      rmatch r1 s c
        (fun s' c' => k s' (<[n := take (length s - length s') s]> c'))
  end.

(** [re.search(r, s)]: the first start position with a match. *)
Fixpoint re_search (r : regex) (s : pystr) : option caps :=
  match rmatch r s ∅ (fun _ c => Some c) with
  | Some m => Some m
  | None =>
      match s with
      | [] => None
      | _ :: s' => re_search r s'
      end
  end.

(** [\{.*?\}] *)
Definition braces : regex :=
  RSeq (RLit (py "{")) (RSeq (RLazy CAny) (RLit (py "}"))).

(** The pattern of both analyzers,
    [```json\s*(\{.*?\})\s*```|(\{.*?\})] with [re.DOTALL]. *)
Definition json_pattern : regex :=
  RAlt
    (RSeq (RLit (py "```json"))
       (RSeq (RStar CSpace)
          (RSeq (RGroup 1 braces)
             (RSeq (RStar CSpace) (RLit (py "```"))))))
    (RGroup 2 braces).

(** [m.group(n)] *)
Definition group (m : caps) (n : nat) : option pystr := m !! n.

(** [json_match.group(2) or json_match.group(1)] *)
Definition group2_or_group1 (m : caps) : option pystr :=
  match group m 2 with
  | Some g => if truthy g then Some g else group m 1
  | None => group m 1
  end.


(* ================================================================== *)
(** ** Exceptions, Python values and the world *)

(** The exception classes the handlers tell apart; every one is a subclass
    of [Exception]. *)
Inductive exn_class :=
| AttributeError
| IndexError
| TypeError
| JSONDecodeError
| OtherError.

Global Instance exn_class_eq_dec : EqDecision exn_class.
Proof. solve_decision. Defined.

(** An exception: its class and [str(e)]. *)
Record exn := Exn { exn_cls : exn_class; exn_str : pystr }.

Inductive outcome (A : Type) :=
| Ret (a : A)
| Raise (e : exn).
Arguments Ret {A} a.
Arguments Raise {A} e.

(** A Python value as [json.loads] builds it and as the routes return it.
    A number keeps its numeral; a dict keeps its items in insertion order,
    each key once. *)
Inductive json :=
| JNull
| JBool (b : bool)
| JNum (numeral : pystr)
| JStr (s : pystr)
| JList (items : list json)
| JDict (items : list (pystr * json)).

Abbreviation bytes := (list Byte.byte).

(** What [generate_content] is called with: a prompt, or an image part and
    a prompt. *)
Inductive request :=
| ReqText (prompt : pystr)
| ReqParts (mime_type : pystr) (data : bytes) (prompt : pystr).

(** The logging calls the specification refers to (the other calls only
    report progress and are left out). *)
Inductive log_record :=
| WarnPdfMinimalText (filename : pystr)        (* extract_text, minimal text *)
| WarnUnsupportedType (ext : pystr)            (* extract_text, unknown type *)
| ErrorExtracting (filename : pystr) (e : exn) (* extract_text, handler *)
| WarnTruncatingText (length limit : Z)        (* analyze_text_with_gemini *)
| WarnTruncatingChat (length limit : Z)        (* chat_api *)
| ErrorRawText (raw : json).                   (* analyze_report *)

(** Observable effects, in the order they happen. *)
Inductive event :=
| EvLog (r : log_record)
| EvGenerate (r : request)          (* gemini_model.generate_content(r) *)
| EvSave (path : pystr)             (* file.save(path) succeeded *)
| EvSessionPop (k : string)         (* session.pop(k, None) *)
| EvSessionSet (k : string) (v : pystr).  (* session[k] = v *)

Record world := World {
  session : gmap string pystr;
  trace : list event
}.

(** Computations: state passing with exceptions. *)
Definition M (A : Type) : Type := world -> outcome A * world.

Definition ret {A} (a : A) : M A := fun w => (Ret a, w).
Definition raise {A} (e : exn) : M A := fun w => (Raise e, w).
Definition bind {A B} (m : M A) (k : A -> M B) : M B :=
  fun w =>
    match m w with
    | (Ret a, w') => k a w'
    | (Raise e, w') => (Raise e, w')
    end.

Global Instance M_ret : MRet M := @ret.

Declare Scope prog_scope.
Delimit Scope prog_scope with prog.
Notation "x ← y ; z" := (bind y (fun x => z))
  (at level 20, y at level 100, z at level 200, only parsing) : prog_scope.
Notation "x ;; z" := (bind x (fun _ => z))
  (at level 100, z at level 200, only parsing, right associativity) : prog_scope.
Open Scope prog_scope.

(** The result of a library call or of an attribute read. *)
Definition lift {A} (o : outcome A) : M A := fun w => (o, w).

(** [try: m  except Exception as e: h e] *)
Definition try_except {A} (m : M A) (h : exn -> M A) : M A :=
  fun w =>
    match m w with
    | (Ret a, w') => (Ret a, w')
    | (Raise e, w') => h e w'
    end.

(** [try: m  except (c1, c2, ...) as e: h e] *)
Definition try_except_of {A} (cs : list exn_class) (m : M A)
  (h : exn -> M A) : M A :=
  fun w =>
    match m w with
    | (Ret a, w') => (Ret a, w')
    | (Raise e, w') =>
        if bool_decide (exn_cls e ∈ cs) then h e w' else (Raise e, w')
    end.

Definition emit (e : event) : M unit :=
  fun w => (Ret tt, World (session w) (trace w ++ [e])).

Definition log (r : log_record) : M unit := emit (EvLog r).

(** [session.pop(k, None)] *)
Definition session_pop (k : string) : M unit :=
  fun w => (Ret tt, World (delete k (session w)) (trace w ++ [EvSessionPop k])).

(** [session[k] = v] *)
Definition session_set (k : string) (v : pystr) : M unit :=
  fun w => (Ret tt, World (<[k := v]> (session w)) (trace w ++ [EvSessionSet k v])).

(** [session.get(k)] *)
Definition session_get (k : string) : M (option pystr) :=
  fun w => (Ret (session w !! k), w).

(** [hasattr(obj, name)], for the attribute read [o]: false on
    AttributeError, any other exception goes on. *)
Definition hasattr {A} (o : outcome A) : M bool :=
  match o with
  | Ret _ => ret true
  | Raise e => if bool_decide (exn_cls e = AttributeError) then ret false else raise e
  end.

(** [getattr(obj, name, default)] *)
Definition getattr_default {A} (o : outcome A) (default : A) : M A :=
  match o with
  | Ret a => ret a
  | Raise e => if bool_decide (exn_cls e = AttributeError) then ret default else raise e
  end.

(** *** Operations on Python values *)

Definition type_name (v : json) : pystr :=
  match v with
  | JNull => py "NoneType"
  | JBool _ => py "bool"
  | JNum n =>
      if existsb (fun c => bool_decide (c ∈ py ".eEaI")) n
      then py "float" else py "int"
  | JStr _ => py "str"
  | JList _ => py "list"
  | JDict _ => py "dict"
  end.

(** [{}.get(k)] on the items of a dict. *)
Fixpoint dict_lookup (k : pystr) (d : list (pystr * json)) : option json :=
  match d with
  | [] => None
  | (k', v) :: d' => if pystr_eqb k' k then Some v else dict_lookup k d'
  end.

(** [d[k] = v]: the key keeps its place when it is there already. *)
Fixpoint dict_set (k : pystr) (v : json) (d : list (pystr * json))
  : list (pystr * json) :=
  match d with
  | [] => [(k, v)]
  | (k', v') :: d' =>
      if pystr_eqb k' k then (k', v) :: d' else (k', v') :: dict_set k v d'
  end.

(** [s in v] for a string [s]: a key of a dict, an item of a list, a
    substring of a string; TypeError on the other values. *)
Definition py_in (s : pystr) (v : json) : M bool :=
  match v with
  | JDict d => ret (bool_decide (is_Some (dict_lookup s d)))
  | JList l =>
      ret (existsb (fun x => match x with JStr t => pystr_eqb s t | _ => false end) l)
  | JStr t => ret (substring_in s t)
  | _ =>
      raise (Exn TypeError
               (py "argument of type '" ++ type_name v ++ py "' is not iterable"))
  end.

(** [v.get(k, default)]: a dict method only. *)
Definition py_get (v : json) (k : pystr) (default : json) : M json :=
  match v with
  | JDict d => ret (match dict_lookup k d with Some x => x | None => default end)
  | _ =>
      raise (Exn AttributeError
               (py "'" ++ type_name v ++ py "' object has no attribute 'get'"))
  end.

(* ================================================================== *)
(** ** [json.loads]

    The decoder of Python's [json] module (the scanner of [_json]): JSON
    white space is space, tab, line feed and carriage return; strings are
    decoded in strict mode; [NaN], [Infinity] and [-Infinity] are accepted;
    what follows the value must be white space.  Recursion is on a budget
    of calls; running out of it is kept apart from a decode error. *)

Inductive parsed (A : Type) :=
| POk (a : A) (rest : pystr)
| PBad (msg : string)       (* JSONDecodeError(msg, ...) *)
| PDeep.                    (* out of budget *)
Arguments POk {A} a rest.
Arguments PBad {A} msg.
Arguments PDeep {A}.

Definition is_ws (c : N) : bool :=
  (c =? 32) || (c =? 9) || (c =? 10) || (c =? 13).

Fixpoint skip_ws (s : pystr) : pystr :=
  match s with
  | c :: s' => if is_ws c then skip_ws s' else s
  | [] => []
  end.

Definition is_digit (c : N) : bool := (48 <=? c) && (c <=? 57).

Definition hex_val (c : N) : option N :=
  if is_digit c then Some (c - 48)
  else if (97 <=? c) && (c <=? 102) then Some (c - 87)
  else if (65 <=? c) && (c <=? 70) then Some (c - 55)
  else None.

Definition hex4 (a b c d : N) : option N :=
  match hex_val a, hex_val b, hex_val c, hex_val d with
  | Some a, Some b, Some c, Some d => Some (((a * 16 + b) * 16 + c) * 16 + d)
  | _, _, _, _ => None
  end.

(** The character a one-letter escape stands for. *)
Definition unescape (c : N) : option N :=
  if c =? 34 then Some 34          (* quotation mark *)
  else if c =? 92 then Some 92     (* backslash *)
  else if c =? 47 then Some 47     (* slash *)
  else if c =? 98 then Some 8      (* b *)
  else if c =? 102 then Some 12    (* f *)
  else if c =? 110 then Some 10    (* n *)
  else if c =? 114 then Some 13    (* r *)
  else if c =? 116 then Some 9     (* t *)
  else None.

Definition is_high_surrogate (u : N) : bool := (55296 <=? u) && (u <=? 56319).
Definition is_low_surrogate (u : N) : bool := (56320 <=? u) && (u <=? 57343).

(** The low surrogate escape at the head of [s], if there is one. *)
Definition low_escape (s : pystr) : option N :=
  match s with
  | b :: u :: h1 :: h2 :: h3 :: h4 :: _ =>
      if (b =? 92) && (u =? 117) then
        match hex4 h1 h2 h3 h4 with
        | Some u2 => if is_low_surrogate u2 then Some u2 else None
        | None => None
        end
      else None
  | _ => None
  end.

(** [scanstring]: the text after the opening quotation mark, up to the
    closing one; [acc] is what was decoded so far, last character first. *)
Fixpoint scanstring (s : pystr) (acc : pystr) : parsed pystr :=
  match s with
  | [] => PBad "Unterminated string starting at"
  | c :: s' =>
      if c =? 34 then POk (rev acc) s'
      else if c =? 92 then
        match s' with
        | [] => PBad "Unterminated string starting at"
        | e :: s'' =>
            if e =? 117 then
              match s'' with
              | h1 :: h2 :: h3 :: h4 :: rest =>
                  match hex4 h1 h2 h3 h4 with
                  | None => PBad "Invalid \uXXXX escape"
                  | Some u =>
                      match rest with
                      | _ :: _ :: _ :: _ :: _ :: _ :: rest2 =>
                          match (if is_high_surrogate u then low_escape rest else None) with
                          | Some u2 =>
                              scanstring rest2
                                (65536 + (u - 55296) * 1024 + (u2 - 56320) :: acc)
                          | None =>
                              scanstring rest (u :: acc)
                          end
                      | _ => scanstring rest (u :: acc)
                      end
                  end
              | _ => PBad "Invalid \uXXXX escape"
              end
            else
              match unescape e with
              | Some x => scanstring s'' (x :: acc)
              | None => PBad "Invalid \escape"
              end
        end
      else if c <=? 31 then PBad "Invalid control character at"
      else scanstring s' (c :: acc)
  end.

Fixpoint span_digits (s : pystr) : pystr * pystr :=
  match s with
  | c :: s' =>
      if is_digit c then (let (d, r) := span_digits s' in (c :: d, r)) else ([], s)
  | [] => ([], [])
  end.

(** A numeral at the head of [s]: an optional minus sign; a zero, or a
    digit from 1 to 9 and more digits; a fraction, if a digit follows the
    point; an exponent, if a digit follows [e] or [E] and its sign. *)
Definition match_number (s : pystr) : option (pystr * pystr) :=
  let (sign, s1) :=
    match s with
    | c :: s' => if c =? 45 then ([c], s') else ([], s)
    | [] => ([], s)
    end in
  match s1 with
  | [] => None
  | c :: s2 =>
      let int_part :=
        if (49 <=? c) && (c <=? 57)
        then (let (d, r) := span_digits s2 in Some (c :: d, r))
        else if c =? 48 then Some ([c], s2) else None in
      match int_part with
      | None => None
      | Some (ip, s3) =>
          let (frac, s4) :=
            match s3 with
            | p :: s' =>
                if p =? 46 then
                  match span_digits s' with
                  | ([], _) => ([], s3)
                  | (d, r) => (p :: d, r)
                  end
                else ([], s3)
            | [] => ([], s3)
            end in
          let (ex, s5) :=
            match s4 with
            | e :: s' =>
                if (e =? 101) || (e =? 69) then
                  let (sg, s'') :=
                    match s' with
                    | x :: t => if (x =? 43) || (x =? 45) then ([x], t) else ([], s')
                    | [] => ([], s')
                    end in
                  match span_digits s'' with
                  | ([], _) => ([], s4)
                  | (d, r) => (e :: sg ++ d, r)
                  end
                else ([], s4)
            | [] => ([], s4)
            end in
          Some (sign ++ ip ++ frac ++ ex, s5)
      end
  end.

(** A literal word [w] at the head of [s]. *)
Definition word (w : string) (v : json) (s : pystr) : option (parsed json) :=
  if is_prefix (py w) s then Some (POk v (drop (length (py w)) s)) else None.

(** [scan_once] at the first character of a value, with the object and
    array loops; [acc] holds the items read so far. *)
Fixpoint parse_value (fuel : nat) (s : pystr) : parsed json :=
  match fuel with
  | O => PDeep
  | S f =>
      match s with
      | [] => PBad "Expecting value"
      | c :: s' =>
          if c =? 34 then
            match scanstring s' [] with
            | POk str r => POk (JStr str) r
            | PBad m => PBad m
            | PDeep => PDeep
            end
          else if c =? 123 then
            match skip_ws s' with
            | c1 :: r1 =>
                if c1 =? 125 then POk (JDict []) r1
                else parse_members f (c1 :: r1) []
            | [] => PBad "Expecting property name enclosed in double quotes"
            end
          else if c =? 91 then
            match skip_ws s' with
            | c1 :: r1 =>
                if c1 =? 93 then POk (JList []) r1
                else parse_elements f (c1 :: r1) []
            | [] => PBad "Expecting value"
            end
          else
            match word "null" JNull s with
            | Some p => p
            | None =>
            match word "true" (JBool true) s with
            | Some p => p
            | None =>
            match word "false" (JBool false) s with
            | Some p => p
            | None =>
            match word "NaN" (JNum (py "NaN")) s with
            | Some p => p
            | None =>
            match word "Infinity" (JNum (py "Infinity")) s with
            | Some p => p
            | None =>
            match word "-Infinity" (JNum (py "-Infinity")) s with
            | Some p => p
            | None =>
            match match_number s with
            | Some (numeral, r) => POk (JNum numeral) r
            | None => PBad "Expecting value"
            end end end end end end end
      end
  end
with parse_members (fuel : nat) (s : pystr) (acc : list (pystr * json))
  : parsed json :=
  match fuel with
  | O => PDeep
  | S f =>
      match s with
      | [] => PBad "Expecting property name enclosed in double quotes"
      | c :: s' =>
          if c =? 34 then
            match scanstring s' [] with
            | PBad m => PBad m
            | PDeep => PDeep
            | POk k r =>
                match skip_ws r with
                | [] => PBad "Expecting ':' delimiter"
                | c2 :: r2 =>
                    if c2 =? 58 then
                      match parse_value f (skip_ws r2) with
                      | PBad m => PBad m
                      | PDeep => PDeep
                      | POk v r3 =>
                          match skip_ws r3 with
                          | [] => PBad "Expecting ',' delimiter"
                          | c3 :: r4 =>
                              if c3 =? 125 then POk (JDict (dict_set k v acc)) r4
                              else if c3 =? 44
                              then parse_members f (skip_ws r4) (dict_set k v acc)
                              else PBad "Expecting ',' delimiter"
                          end
                      end
                    else PBad "Expecting ':' delimiter"
                end
            end
          else PBad "Expecting property name enclosed in double quotes"
      end
  end
with parse_elements (fuel : nat) (s : pystr) (acc : list json) : parsed json :=
  match fuel with
  | O => PDeep
  | S f =>
      match parse_value f s with
      | PBad m => PBad m
      | PDeep => PDeep
      | POk v r =>
          match skip_ws r with
          | [] => PBad "Expecting ',' delimiter"
          | c :: r1 =>
              if c =? 93 then POk (JList (acc ++ [v])) r1
              else if c =? 44 then parse_elements f (skip_ws r1) (acc ++ [v])
              else PBad "Expecting ',' delimiter"
          end
      end
  end.

(** [json.loads(s)]; [str(e)] of a decode error is its message without
    the position. *)
Definition py_json_loads (s : pystr) : outcome json :=
  if is_prefix [65279] s
  then Raise (Exn JSONDecodeError (py "Unexpected UTF-8 BOM (decode using utf-8-sig)"))
  else
    match parse_value (2 * length s + 2) (skip_ws s) with
    | POk v r =>
        match skip_ws r with
        | [] => Ret v
        | _ :: _ => Raise (Exn JSONDecodeError (py "Extra data"))
        end
    | PBad m => Raise (Exn JSONDecodeError (py m))
    | PDeep => Raise (Exn OtherError (py "out of budget"))
    end.

(* ================================================================== *)
(** ** The outside: Gemini's reply and the library calls *)

(** [response.candidates[i]]: each field is the outcome of reading it. *)
Record Candidate := {
  cand_finish_reason : outcome pystr;    (* candidate.finish_reason *)
  cand_safety_ratings : outcome json;    (* candidate.safety_ratings *)
  cand_text : outcome pystr              (* candidate.content.parts[0].text *)
}.

(** [response.prompt_feedback] *)
Record Feedback := {
  fb_block_reason : outcome pystr;
  fb_safety_ratings : outcome json
}.

(** The object [generate_content] returns. *)
Record Response := {
  resp_text : outcome pystr;                  (* response.text *)
  resp_candidates : outcome (list Candidate); (* response.candidates *)
  resp_prompt_feedback : outcome Feedback     (* response.prompt_feedback *)
}.

(** The library calls.  A call that raises gives [Raise]; the PDF, DOCX
    and XLSX readers stand for the whole expression the source evaluates
    (open, read every page, paragraph or sheet, close). *)
Record Env := {
  (* google.generativeai and json *)
  generate_content : request -> outcome Response;
  json_loads : pystr -> outcome json;
  (* fitz: page.get_text("text") of every page *)
  fitz_page_texts : pystr -> outcome (list pystr);
  (* pdfplumber: page.extract_text() of every page, None for no text *)
  pdfplumber_page_texts : pystr -> outcome (list (option pystr));
  (* docx: para.text of every paragraph *)
  docx_paragraphs : pystr -> outcome (list pystr);
  (* pandas: sheet name and frame.to_string() of every sheet *)
  read_excel_sheets : pystr -> outcome (list (pystr * pystr));
  (* cv2 and pytesseract *)
  cv_image : Type;
  cv2_imread : pystr -> outcome (option cv_image);
  cv2_cvtColor_gray : cv_image -> outcome cv_image;
  cv2_medianBlur : cv_image -> outcome cv_image;
  cv2_threshold_otsu : cv_image -> outcome cv_image;
  cv2_dilate : cv_image -> outcome cv_image;
  cv2_erode : cv_image -> outcome cv_image;
  image_to_string : cv_image -> pystr -> outcome pystr;
  (* PIL *)
  pil_image : Type;
  Image_open : bytes -> outcome pil_image;
  image_mode : pil_image -> pystr;
  image_convert_rgb : pil_image -> outcome pil_image;
  image_save_jpeg : pil_image -> outcome bytes;
  (* pathlib, os.path and files *)
  path_suffix_lower : pystr -> pystr;   (* pathlib.Path(p).suffix.lower() *)
  path_basename : pystr -> pystr;       (* os.path.basename(p) *)
  path_exists : pystr -> bool;          (* os.path.exists(p) *)
  upload_path : pystr -> pystr;         (* os.path.join(UPLOAD_FOLDER, name) *)
  file_save : pystr -> bytes -> outcome unit;  (* file.save(path) *)
  read_binary : pystr -> outcome bytes  (* open(p, "rb").read() *)
}.

(** Where a [return] inside a block leaves the function, the block gives
    [Return v]; where it runs to its end, [Next a] with what it computed. *)
Inductive flow (R A : Type) :=
| Return (v : R)
| Next (a : A).
Arguments Return {R A} v.
Arguments Next {R A} a.

(** The lines of a literal, joined by line feeds. *)
Fixpoint unlines (ls : list string) : string :=
  match ls with
  | [] => EmptyString
  | [l] => l
  | l :: rest => l +:+ nl +:+ unlines rest
  end.

(* ================================================================== *)
(** ** The prompts *)

(** analyze_text_with_gemini: the prompt up to the report text. *)
Definition text_prompt_head : pystr :=
  py (unlines
  [EmptyString;
   "        Analyze the following medical report text and extract the information into a structured JSON format.";
   "        Be comprehensive but concise. If information for a field is not present, use `null` or an empty list `[]`.";
   "        Focus *only* on the information present in the text provided. Do not infer or add external knowledge.";
   EmptyString;
   "        JSON Format:";
   "        {";
   "            " +:+ dq +:+ "summary" +:+ dq +:+ ": " +:+ dq +:+ "A concise summary of the main points of the medical report excerpt." +:+ dq +:+ ",";
   "            " +:+ dq +:+ "diagnosis" +:+ dq +:+ ": " +:+ dq +:+ "Primary or potential diagnosis mentioned, or null." +:+ dq +:+ ",";
   "            " +:+ dq +:+ "key_findings" +:+ dq +:+ ": [" +:+ dq +:+ "List key observations, test results, or findings mentioned." +:+ dq +:+ ", " +:+ dq +:+ "Finding 2" +:+ dq +:+ ", " +:+ dq +:+ "..." +:+ dq +:+ "],";
   "            " +:+ dq +:+ "causes" +:+ dq +:+ ": [" +:+ dq +:+ "Possible causes mentioned for the condition, or null." +:+ dq +:+ ", " +:+ dq +:+ "Cause 2" +:+ dq +:+ ", " +:+ dq +:+ "..." +:+ dq +:+ "],";
   "            " +:+ dq +:+ "recommendations" +:+ dq +:+ ": " +:+ dq +:+ "Specific medical recommendations or next steps mentioned, or null." +:+ dq +:+ ",";
   "            " +:+ dq +:+ "precautions" +:+ dq +:+ ": [" +:+ dq +:+ "Any precautions advised in the text." +:+ dq +:+ ", " +:+ dq +:+ "Precaution 2" +:+ dq +:+ ", " +:+ dq +:+ "..." +:+ dq +:+ "],";
   "            " +:+ dq +:+ "remedies" +:+ dq +:+ ": [" +:+ dq +:+ "Mentioned treatments, therapies, or remedies." +:+ dq +:+ ", " +:+ dq +:+ "Remedy 2" +:+ dq +:+ ", " +:+ dq +:+ "..." +:+ dq +:+ "],";
   "            " +:+ dq +:+ "important_notes" +:+ dq +:+ ": " +:+ dq +:+ "Other significant details or notes from the report." +:+ dq +:+ ",";
   "            " +:+ dq +:+ "treatment_plan" +:+ dq +:+ ": " +:+ dq +:+ "Outline of the treatment plan if described." +:+ dq +:+ ",";
   "            " +:+ dq +:+ "lifestyle_changes" +:+ dq +:+ ": [" +:+ dq +:+ "Specific lifestyle changes suggested." +:+ dq +:+ ", " +:+ dq +:+ "Change 2" +:+ dq +:+ ", " +:+ dq +:+ "..." +:+ dq +:+ "],";
   "            " +:+ dq +:+ "urgent_concerns" +:+ dq +:+ ": " +:+ dq +:+ "Any explicitly mentioned urgent concerns or red flags, or null." +:+ dq;
   "        }";
   EmptyString;
   "        Medical Report Text:";
   "        --- START TEXT ---";
   "        "]).

(** analyze_text_with_gemini: the prompt after the report text. *)
Definition text_prompt_tail : pystr :=
  py (unlines
  [EmptyString;
   "        --- END TEXT ---";
   EmptyString;
   "        Provide *only* the JSON object as output, without any introductory text or markdown formatting.";
   "        "]).

(** analyze_image_with_gemini: the prompt. *)
Definition image_prompt : pystr :=
  py (unlines
  [EmptyString;
   "        YOUR **ONLY** OUTPUT MUST BE A VALID JSON OBJECT.";
   "        DO NOT INCLUDE ANY INTRODUCTORY TEXT, EXPLANATIONS, NOTES, OR MARKDOWN FORMATTING (like ```json) BEFORE OR AFTER THE JSON OBJECT.";
   EmptyString;
   "        The JSON object MUST conform EXACTLY to the following format. If you cannot determine a value for a particular field, set it to null or an empty list [] if it's an array.";
   EmptyString;
   "        JSON Format:";
   "        {";
   "            " +:+ dq +:+ "summary" +:+ dq +:+ ": " +:+ dq +:+ "Provide a DETAILED and COMPREHENSIVE summary explaining the primary medical issue or abnormality visible in the image. Synthesize the key findings into a coherent description of the problem. Include observations about location, extent, appearance, and relationship to surrounding structures." +:+ dq +:+ ",";
   "            " +:+ dq +:+ "diagnosis" +:+ dq +:+ ": " +:+ dq +:+ "Potential diagnosis based *only* on the visual evidence in the image, if possible. Set to null if not determinable from the image alone." +:+ dq +:+ ",";
   "            " +:+ dq +:+ "key_findings" +:+ dq +:+ ": [" +:+ dq +:+ "Finding 1" +:+ dq +:+ ", " +:+ dq +:+ "Finding 2" +:+ dq +:+ ", " +:+ dq +:+ "List all significant visual observations" +:+ dq +:+ "],";
   "            " +:+ dq +:+ "precautions" +:+ dq +:+ ": [" +:+ dq +:+ "General precautions potentially relevant to findings, or null." +:+ dq +:+ ", " +:+ dq +:+ "Precaution 2" +:+ dq +:+ "],";
   "            " +:+ dq +:+ "remedies" +:+ dq +:+ ": [" +:+ dq +:+ "Potential remedies/treatments suggested by visual findings, or null." +:+ dq +:+ ", " +:+ dq +:+ "Remedy 2" +:+ dq +:+ "],";
   "            " +:+ dq +:+ "urgent_concerns" +:+ dq +:+ ": " +:+ dq +:+ "Any visually evident urgent concern or null." +:+ dq +:+ ",";
   "            " +:+ dq +:+ "anatomical_structures" +:+ dq +:+ ": [" +:+ dq +:+ "Structure 1" +:+ dq +:+ ", " +:+ dq +:+ "List main visible anatomical structures" +:+ dq +:+ "]";
   "        }";
   EmptyString;
   "        Analyze the provided medical image and generate ONLY the JSON output based on the fields above. Ensure the 'summary' field is thorough.";
   "        "]).

(** chat_api, with a document: the prompt up to the first file name. *)
Definition chat_prompt_1 : pystr :=
  py (unlines
  ["You are a helpful medical AI assistant. You have access to the content of a medical document named '"]).

(** chat_api, with a document: from the first to the second file name. *)
Definition chat_prompt_2 : pystr :=
  py (unlines
  ["'.";
   EmptyString;
   "            **Instructions:**";
   "            1. Answer the user's query below.";
   "            2. **Prioritize using the provided document context** if the query seems related to it. Clearly state if your answer comes from the document.";
   "            3. If the query is *not* related to the document context, answer it using your general medical knowledge.";
   "            4. If you are unsure or the document doesn't contain the answer, state that clearly.";
   "            5. Respond concisely and clearly. Use bullet points if appropriate.";
   EmptyString;
   "            **Document Context ('"]).

(** chat_api, with a document: from the second file name to the context. *)
Definition chat_prompt_3 : pystr :=
  py (unlines
  ["'):**";
   "            --- START CONTEXT ---";
   "            "]).

(** chat_api, with a document: from the context to the user message. *)
Definition chat_prompt_4 : pystr :=
  py (unlines
  [EmptyString;
   "            --- END CONTEXT ---";
   EmptyString;
   "            **User Query:** "]).

(** chat_api, with a document: after the user message. *)
Definition chat_prompt_5 : pystr :=
  py (unlines
  [EmptyString;
   "            "]).

(** chat_api, without a document: the prompt up to the user message. *)
Definition general_prompt_1 : pystr :=
  py (unlines
  ["You are a helpful medical AI assistant.";
   "            Answer the following user query using your general medical knowledge.";
   "            Respond concisely and clearly. Use bullet points if appropriate.";
   EmptyString;
   "            **User Query:** "]).

(** chat_api, without a document: after the user message. *)
Definition general_prompt_2 : pystr :=
  py (unlines
  [EmptyString;
   "            "]).

(* ================================================================== *)
(** ** The program *)

Definition image_exts : list pystr :=
  [py ".png"; py ".jpg"; py ".jpeg"; py ".bmp"; py ".tiff"].

(** The error records: [{"error": msg}], with ["raw_text"] or with
    ["safety_ratings"]. *)
Definition error_record (msg : pystr) : json :=
  JDict [(py "error", JStr msg)].

Definition error_with_raw (msg raw : pystr) : json :=
  JDict [(py "error", JStr msg); (py "raw_text", JStr raw)].

Definition error_with_safety (msg : pystr) (ratings : json) : json :=
  JDict [(py "error", JStr msg); (py "safety_ratings", ratings)].

(** What a route returns: [jsonify(body), status]. *)
Record http_response := Http { body : json; status : Z }.

(** The session keys. *)
Definition k_text : string := "last_analyzed_text".
Definition k_filename : string := "last_analyzed_filename".

Section Backend.

Variable E : Env.

(** [gemini_model.generate_content(r)] *)
Definition generate (r : request) : M Response :=
  emit (EvGenerate r);; lift (generate_content E r).

(** *** Text extraction *)

Definition preprocess_image (image : cv_image E) : M (option (cv_image E)) :=
  try_except
    (gray ← lift (cv2_cvtColor_gray E image);
     gray ← lift (cv2_medianBlur E gray);
     thresh ← lift (cv2_threshold_otsu E gray);
     thresh ← lift (cv2_dilate E thresh);
     thresh ← lift (cv2_erode E thresh);
     mret (Some thresh))
    (fun _ =>
       try_except
         (gray ← lift (cv2_cvtColor_gray E image); mret (Some gray))
         (fun _ => mret None)).

(** The [try] block of [extract_text_from_image]. *)
Definition extract_text_from_image_body (file_path : pystr) : M pystr :=
  image ← lift (cv2_imread E file_path);
  match image with
  | None => mret []
  | Some image =>
      preprocessed_image ← preprocess_image image;
      match preprocessed_image with
      | None => mret []
      | Some preprocessed_image =>
          text ← lift (image_to_string E preprocessed_image (py "--oem 3 --psm 6"));
          let text := strip text in
          if negb (truthy text) then
            text ← lift (image_to_string E preprocessed_image (py "--oem 3 --psm 3"));
            mret (strip text)
          else mret text
      end
  end.

Definition extract_text_from_image (file_path : pystr) : M pystr :=
  try_except (extract_text_from_image_body file_path) (fun _ => mret []).

(** The [try] block of [extract_text]. *)
Definition extract_text_body (file_path : pystr) : M (flow pystr pystr) :=
  let ext := path_suffix_lower E file_path in
  let filename := path_basename E file_path in
  if pystr_eqb ext (py ".pdf") then
    extracted_text ←
      try_except
        (pages ← lift (fitz_page_texts E file_path);
         mret (join (py nl) (map strip (List.filter truthy pages))))
        (fun e_fitz =>
           try_except
             (pages ← lift (pdfplumber_page_texts E file_path);
              mret (join (py nl) (map (default []) pages)))
             (fun e_plumber => mret []));
    (if (len (strip extracted_text) <? 50)%Z
     then log (WarnPdfMinimalText filename) else mret tt);;
    mret (Next extracted_text)
  else if pystr_eqb ext (py ".docx") then
    paragraphs ← lift (docx_paragraphs E file_path);
    mret (Next (join (py nl) (List.filter truthy paragraphs)))
  else if pystr_eqb ext (py ".xlsx") then
    sheets ← lift (read_excel_sheets E file_path);
    mret (Next (join (py (nl +:+ nl))
                  (map (fun sf => py "--- Sheet: " ++ sf.1 ++ py (" ---" +:+ nl) ++ sf.2)
                     sheets)))
  else if bool_decide (ext ∈ image_exts) then
    extracted_text ← extract_text_from_image file_path;
    mret (Next extracted_text)
  else
    log (WarnUnsupportedType ext);;
    mret (Return []).

Definition extract_text (file_path : pystr) : M pystr :=
  let filename := path_basename E file_path in
  r ← try_except
        (extract_text_body file_path)
        (fun e => log (ErrorExtracting filename e);; mret (Return []));
  match r with
  | Return v => mret v
  | Next extracted_text => mret (strip extracted_text)
  end.

(** *** The analyzers *)

(** The parse tiers of [analyze_text_with_gemini] on the stripped reply
    text: the pattern, then [json.loads] on what it found or, when it found
    nothing, on the whole text. *)
Definition parse_text_reply (response_text : pystr) : M json :=
  match re_search json_pattern response_text with
  | Some json_match =>
      match group2_or_group1 json_match with
      | Some ((_ :: _) as json_string) =>
          try_except_of [JSONDecodeError]
            (lift (json_loads E json_string))
            (fun e =>
               mret (error_with_raw
                       (py "AI response could not be parsed as JSON")
                       response_text))
      | _ =>
          mret (error_with_raw
                  (py "Regex matched but failed to extract JSON content.")
                  response_text)
      end
  | None =>
      try_except_of [JSONDecodeError]
        (lift (json_loads E response_text))
        (fun e_direct =>
           mret (error_with_raw (py "No valid JSON found in AI response")
                   response_text))
  end.

(** What [analyze_text_with_gemini] makes of the response object. *)
Definition text_response_result (response : Response) : M json :=
  has_text ← hasattr (resp_text response);
  if has_text then
    response_text ← lift (resp_text response);
    parse_text_reply (strip response_text)
  else
    has_candidates ← hasattr (resp_candidates response);
    candidates ← (if has_candidates then lift (resp_candidates response)
                  else mret []);
    match candidates with
    | candidate :: _ =>
        finish_reason ← lift (cand_finish_reason candidate);
        if negb (pystr_eqb finish_reason (py "STOP")) then
          safety_ratings ←
            getattr_default (cand_safety_ratings candidate) (JStr (py "N/A"));
          mret (error_with_safety
                  (py "AI generation failed or was blocked. Reason: "
                     ++ finish_reason)
                  safety_ratings)
        else
          try_except_of [AttributeError; IndexError]
            (response_text ← lift (cand_text candidate);
             let response_text := strip response_text in
             let json_match := re_search json_pattern response_text in
             mret (error_record
                     (py "AI response structure unexpected, text found but parsing needs check.")))
            (fun _ =>
               mret (error_record
                       (py "No text content received from Gemini for summary.")))
    | [] =>
        mret (error_record
                (py "Unknown error or empty response from Gemini for summary."))
    end.

(** The prompt of [analyze_text_with_gemini] for the report text [text]. *)
Definition text_prompt (text : pystr) : pystr :=
  text_prompt_head ++ text ++ text_prompt_tail.

Definition analyze_text_with_gemini (text : pystr) : M json :=
  try_except
    (let max_chars := 100000%Z in
     text ← (if (max_chars <? len text)%Z
             then log (WarnTruncatingText (len text) max_chars);;
                  mret (slice_to max_chars text)
             else mret text);
     let prompt := text_prompt text in
     response ← generate (ReqText prompt);
     text_response_result response)
    (fun e =>
       mret (error_record (py "Unexpected AI text processing error: " ++ exn_str e))).

(** The parse tiers of [analyze_image_with_gemini] on the stripped reply
    text. *)
Definition parse_image_reply (response_text : pystr) : M json :=
  match re_search json_pattern response_text with
  | Some json_match =>
      match group2_or_group1 json_match with
      | Some ((_ :: _) as json_string) =>
          try_except_of [JSONDecodeError]
            (lift (json_loads E json_string))
            (fun e =>
               mret (error_with_raw
                       (py "AI image response contained invalid JSON structure")
                       (py "See logs for raw text")))
      | _ =>
          mret (error_with_raw
                  (py "Regex matched but failed to extract JSON content.")
                  (py "See logs for raw text"))
      end
  | None =>
      try_except_of [JSONDecodeError]
        (lift (json_loads E response_text))
        (fun e_direct =>
           mret (error_with_raw
                   (py "No valid JSON found in AI image response")
                   (py "See logs for raw text")))
  end.

(** What [analyze_image_with_gemini] makes of the response object. *)
Definition image_response_result (response : Response) : M json :=
  candidates ← lift (resp_candidates response);
  match candidates with
  | [] =>
      try_except
        (feedback ← lift (resp_prompt_feedback response);
         block_reason ←
           getattr_default (fb_block_reason feedback)
             (py "Unknown (No candidates)");
         safety_ratings ← getattr_default (fb_safety_ratings feedback) JNull;
         mret (error_with_safety
                 (py "Image analysis failed. Reason: " ++ block_reason)
                 safety_ratings))
        (fun feedback_err =>
           mret (error_record
                   (py "Image analysis failed (No candidates received).")))
  | candidate :: _ =>
      got ←
        try_except_of [AttributeError; IndexError; TypeError]
          (response_text ← lift (cand_text candidate);
           mret (Next (strip response_text)))
          (fun e =>
             finish_reason ←
               getattr_default (cand_finish_reason candidate) (py "UNKNOWN");
             if negb (pystr_eqb finish_reason (py "STOP")) then
               safety_ratings ←
                 getattr_default (cand_safety_ratings candidate)
                   (JStr (py "N/A"));
               mret (Return
                       (error_with_safety
                          (py "AI generation stopped unexpectedly ("
                             ++ finish_reason
                             ++ py ") before text could be extracted.")
                          safety_ratings))
             else
               mret (Return
                       (error_record
                          (py "Could not parse text content from Gemini response."))));
      match got with
      | Return v => mret v
      | Next response_text => parse_image_reply response_text
      end
  end.

Definition analyze_image_with_gemini (image_data : bytes) : M json :=
  try_except
    (let prompt := image_prompt in
     prepared ←
       try_except
         (image ← lift (Image_open E image_data);
          image ← (if negb (pystr_eqb (image_mode E image) (py "RGB"))
                   then lift (image_convert_rgb E image) else mret image);
          prepared_image_data ← lift (image_save_jpeg E image);
          mret (Next (prepared_image_data, py "image/jpeg")))
         (fun img_err =>
            mret (Return (error_record
                            (py "Failed to process image data: " ++ exn_str img_err))));
     match prepared with
     | Return v => mret v
     | Next (prepared_image_data, image_mime) =>
         try_except
           (response ← generate (ReqParts image_mime prepared_image_data prompt);
            image_response_result response)
           (fun api_err =>
              mret (error_record
                      (py "Gemini API communication error: " ++ exn_str api_err)))
     end)
    (fun e =>
       mret (error_record (py "Unexpected AI image processing error: " ++ exn_str e))).

(** *** The routes *)

(** [v[k]] for a string key [k]: the item of a dict (KeyError, a class the
    handlers do not tell apart, when it has none); TypeError on the other
    values, whose indices are integers if they have any. *)
Definition py_getitem (v : json) (k : pystr) : M json :=
  match v with
  | JDict d =>
      match dict_lookup k d with
      | Some x => ret x
      | None => raise (Exn OtherError (py "'" ++ k ++ py "'"))
      end
  | JList _ => raise (Exn TypeError (py "list indices must be integers or slices, not str"))
  | JStr _ => raise (Exn TypeError (py "string indices must be integers, not 'str'"))
  | _ => raise (Exn TypeError (py "'" ++ type_name v ++ py "' object is not subscriptable"))
  end.

(** [POST /upload]; [file] is the part of the request named "file", its
    file name and content, if there is one. *)
Definition upload_file (file : option (pystr * bytes)) : M http_response :=
  match file with
  | None => mret (Http (error_record (py "No file part")) 400)
  | Some (file_filename, content) =>
      if pystr_eqb file_filename [] then
        mret (Http (error_record (py "No selected file")) 400)
      else
        let filename := file_filename in
        let file_path := upload_path E filename in
        try_except
          (lift (file_save E file_path content);;
           emit (EvSave file_path);;
           session_pop k_text;;
           session_pop k_filename;;
           mret (Http (JDict [(py "message", JStr (py "File uploaded successfully"));
                              (py "file_path", JStr file_path);
                              (py "filename", JStr filename)]) 200))
          (fun e =>
             mret (Http (error_record (py "Failed to save file: " ++ exn_str e)) 500))
  end.

(** The end of [analyze_report]: the status for the analysis result. *)
Definition analysis_response (analysis_result : json) : M http_response :=
  has_error ← py_in (py "error") analysis_result;
  if has_error then
    error ← py_get analysis_result (py "error") (JStr []);
    ai ← py_in (py "AI") error;
    ai_side ← (if ai then mret true
               else error ← py_get analysis_result (py "error") (JStr []);
                    py_in (py "Gemini") error);
    let status_code := if ai_side then 500%Z else 400%Z in
    has_raw ← py_in (py "raw_text") analysis_result;
    (if has_raw
     then raw ← py_getitem analysis_result (py "raw_text");
          log (ErrorRawText raw)
     else mret tt);;
    mret (Http analysis_result status_code)
  else mret (Http analysis_result 200).

(** [POST /analyze]; the two fields of the JSON body, absent or strings. *)
Definition analyze_report (file_path filename : option pystr) : M http_response :=
  match file_path with
  | Some ((_ :: _) as file_path) =>
      if negb (path_exists E file_path) then
        mret (Http (error_record (py "File not found on server")) 400)
      else
        let filename :=
          match filename with
          | Some ((_ :: _) as filename) => filename
          | _ => path_basename E file_path
          end in
        let ext := path_suffix_lower E file_path in
        let is_image := bool_decide (ext ∈ image_exts) in
        session_pop k_text;;
        session_pop k_filename;;
        r ← (if is_image then
               try_except
                 (image_data ← lift (read_binary E file_path);
                  analysis_result ← analyze_image_with_gemini image_data;
                  mret (Next analysis_result))
                 (fun e =>
                    mret (Return (Http (error_record
                                          (py "Image analysis failed: " ++ exn_str e))
                                    500)))
             else
               extracted_text ← extract_text file_path;
               if negb (truthy extracted_text) || negb (truthy (strip extracted_text))
               then
                 mret (Return (Http (error_record
                                       (py "No readable text could be extracted from the document."))
                                 400))
               else
                 session_set k_text extracted_text;;
                 session_set k_filename filename;;
                 analysis_result ← analyze_text_with_gemini extracted_text;
                 mret (Next analysis_result));
        match r with
        | Return response => mret response
        | Next analysis_result => analysis_response analysis_result
        end
  | _ => mret (Http (error_record (py "File not found on server")) 400)
  end.

(** What [chat_api] makes of the response object. *)
Definition chat_response_result (response : Response) : M http_response :=
  has_text ← hasattr (resp_text response);
  if has_text then
    response_text ← lift (resp_text response);
    mret (Http (JDict [(py "response", JStr response_text)]) 200)
  else
    has_candidates ← hasattr (resp_candidates response);
    candidates ← (if has_candidates then lift (resp_candidates response)
                  else mret []);
    match candidates with
    | candidate :: _ =>
        finish_reason ← lift (cand_finish_reason candidate);
        if negb (pystr_eqb finish_reason (py "STOP")) then
          safety_ratings ←
            getattr_default (cand_safety_ratings candidate) (JStr (py "N/A"));
          mret (Http (error_with_safety
                        (py "Chat generation failed or was blocked. Reason: "
                           ++ finish_reason)
                        safety_ratings) 500)
        else
          try_except_of [AttributeError; IndexError]
            (response_text ← lift (cand_text candidate);
             mret (Http (JDict [(py "response", JStr (strip response_text))]) 200))
            (fun _ =>
               mret (Http (error_record
                             (py "No text content received from Gemini for chat."))
                       500))
    | [] =>
        mret (Http (error_record
                      (py "No text content received from Gemini for chat."))
                500)
    end.

(** The prompt of [chat_api] with the document context [context] of the
    file [filename], for the message [user_message]. *)
Definition chat_prompt (filename context user_message : pystr) : pystr :=
  chat_prompt_1 ++ filename ++ chat_prompt_2 ++ filename ++ chat_prompt_3
    ++ context ++ chat_prompt_4 ++ user_message ++ chat_prompt_5.

(** The marker after a context that was cut. *)
Definition truncation_marker : pystr := py (nl +:+ "... [Content Truncated]").

(** [POST /api/chat]; the "message" field of the JSON body. *)
Definition chat_api (message : option pystr) : M http_response :=
  match message with
  | Some ((_ :: _) as user_message) =>
      document_text ← session_get k_text;
      filename ← session_get k_filename;
      let max_context_chars := 50000%Z in
      try_except
        (prompt_for_gemini ←
           match document_text, filename with
           | Some ((_ :: _) as document_text), Some ((_ :: _) as filename) =>
               truncated_context ←
                 (if (max_context_chars <? len document_text)%Z
                  then log (WarnTruncatingChat (len document_text) max_context_chars);;
                       mret (slice_to max_context_chars document_text
                               ++ truncation_marker)
                  else mret document_text);
               mret (chat_prompt filename truncated_context user_message)
           | _, _ => mret (general_prompt_1 ++ user_message ++ general_prompt_2)
           end;
         response ← generate (ReqText prompt_for_gemini);
         chat_response_result response)
        (fun e =>
           mret (Http (error_record
                         (py "An unexpected error occurred during chat: " ++ exn_str e))
                   500))
  | _ => mret (Http (error_record (py "No message provided")) 400)
  end.

End Backend.

(* ================================================================== *)
(** ** The server as a transition system *)

(** One request to one of the three routes. *)
Inductive call :=
| CallUpload (file : option (pystr * bytes))
| CallAnalyze (file_path filename : option pystr)
| CallChat (message : option pystr).

Definition handle (E : Env) (c : call) : M http_response :=
  match c with
  | CallUpload file => upload_file E file
  | CallAnalyze file_path filename => analyze_report E file_path filename
  | CallChat message => chat_api E message
  end.

(** The worlds a session can be in, with the requests that led there: it
    starts empty, and every request is served in the outside [E] of its
    moment. *)
Inductive reachable : list (Env * call) -> world -> Prop :=
| reach_start : reachable [] (World ∅ [])
| reach_call h E c w :
    reachable h w -> reachable (h ++ [(E, c)]) (handle E c w).2.

(** The events a computation adds to the trace of [w]. *)
Definition new_events {A} (m : M A) (w : world) : list event :=
  drop (length (trace w)) (trace (m w).2).

(** The file name [analyze_report] goes by: the one of the request, or
    the last component of the path. *)
Definition request_filename (E : Env) (p : pystr) (filename : option pystr) : pystr :=
  match filename with
  | Some ((_ :: _) as filename) => filename
  | _ => path_basename E p
  end.

(** The document context of the session [s] comes from the request
    [(E, c)]: an analysis of a document that is not an image, for which
    [extract_text] gives the text [t] in [E]; [s] holds the file name the
    analysis went by. *)
Definition context_from (s : gmap string pystr) (t : pystr) (r : Env * call) : Prop :=
  exists p fn,
    r.2 = CallAnalyze (Some p) fn
    /\ (path_suffix_lower r.1 p ∉ image_exts)
    /\ (forall w, (extract_text r.1 p w).1 = Ret t)
    /\ s !! k_filename = Some (request_filename r.1 p fn).

(* ================================================================== *)
(** ** The PDF strategy as the specification words it *)

(** Primary library first; the secondary one when the primary raises; the
    empty text when both raise. *)
Definition pdf_text_spec (E : Env) (p : pystr) : pystr :=
  match fitz_page_texts E p with
  | Ret pages => join (py nl) (map strip (List.filter truthy pages))
  | Raise _ =>
      match pdfplumber_page_texts E p with
      | Ret pages => join (py nl) (map (default []) pages)
      | Raise _ => []
      end
  end.

(** The flag for a PDF that may be image based. *)
Definition pdf_flag (E : Env) (p : pystr) : list event :=
  if (len (strip (pdf_text_spec E p)) <? 50)%Z
  then [EvLog (WarnPdfMinimalText (path_basename E p))] else [].

(** The text the parse tiers hand to [json.loads] for the reply text [s]:
    what the pattern found, or else the whole text. *)
Definition json_candidate (s : pystr) : pystr :=
  match re_search json_pattern s with
  | Some m => default [] (group2_or_group1 m)
  | None => s
  end.

Definition decode_error (o : outcome json) : Prop :=
  exists e, o = Raise e /\ exn_cls e = JSONDecodeError.

(** All parse tiers fail on the reply text [s]: [json.loads] rejects what
    it is handed. *)
Definition unparsable (E : Env) (s : pystr) : Prop :=
  decode_error (json_loads E (json_candidate s)).

(* ================================================================== *)
(** ** A test double of the outside, for the examples *)

Definition unavailable {A} : outcome A := Raise (Exn OtherError (py "unavailable")).

(** The text of [s] before the first [c]. *)
Fixpoint before (c : N) (s : pystr) : pystr :=
  match s with
  | [] => []
  | x :: s' => if x =? c then [] else x :: before c s'
  end.

(** The last component of a path with slashes. *)
Definition mock_basename (p : pystr) : pystr := rev (before 47 (rev p)).

Definition ascii_lower (c : N) : N :=
  if (65 <=? c) && (c <=? 90) then c + 32 else c.

(** The suffix of the last component, from its last dot, when the dot is
    neither its first nor its last character; lower case for ASCII. *)
Definition mock_suffix_lower (p : pystr) : pystr :=
  let name := mock_basename p in
  let after := before 46 (rev name) in
  if ((0 <? length after) && (length after + 1 <? length name))%nat
  then map ascii_lower (46 :: rev after) else [].

(** A reply with the text [s], finished normally. *)
Definition text_reply (s : pystr) : Response :=
  {| resp_text := Ret s;
     resp_candidates :=
       Ret [ {| cand_finish_reason := Ret (py "STOP");
                cand_safety_ratings := Ret (JList []);
                cand_text := Ret s |} ];
     resp_prompt_feedback :=
       Ret {| fb_block_reason := Raise (Exn AttributeError (py "block_reason"));
              fb_safety_ratings := Ret (JList []) |} |}.

(** An outside where Gemini answers by [gemini], the paths [files] exist,
    the two PDF libraries give [fitz] and [plumber], PIL decodes an image
    exactly when [pil_ok], and [json.loads] is the decoder above. *)
Definition mock_env (gemini : request -> outcome Response) (files : list pystr)
  (fitz : outcome (list pystr)) (plumber : outcome (list (option pystr)))
  (pil_ok : bool) : Env :=
  {| generate_content := gemini;
     json_loads := py_json_loads;
     fitz_page_texts := fun _ => fitz;
     pdfplumber_page_texts := fun _ => plumber;
     docx_paragraphs := fun _ => unavailable;
     read_excel_sheets := fun _ => unavailable;
     cv_image := unit;
     cv2_imread := fun _ => Ret None;
     cv2_cvtColor_gray := fun _ => unavailable;
     cv2_medianBlur := fun _ => unavailable;
     cv2_threshold_otsu := fun _ => unavailable;
     cv2_dilate := fun _ => unavailable;
     cv2_erode := fun _ => unavailable;
     image_to_string := fun _ _ => unavailable;
     pil_image := unit;
     Image_open := fun _ =>
       if pil_ok then Ret tt
       else Raise (Exn OtherError (py "cannot identify image file"));
     image_mode := fun _ => py "RGB";
     image_convert_rgb := fun _ => Ret tt;
     image_save_jpeg := fun _ => Ret [];
     path_suffix_lower := mock_suffix_lower;
     path_basename := mock_basename;
     path_exists := fun p => bool_decide (p ∈ files);
     upload_path := fun name => py "uploads/" ++ name;
     file_save := fun _ _ => Ret tt;
     read_binary := fun _ => Ret [] |}.

(** Gemini answers every request with the text [s]. *)
Definition answers (s : pystr) : request -> outcome Response :=
  fun _ => Ret (text_reply s).

(** The empty session with nothing observed yet. *)
Definition w0 : world := World ∅ [].


(** A session that holds the document [text] of the file [name]. *)
Definition with_document (text name : pystr) : world :=
  World (<[k_filename := name]> {[k_text := text]}) [].

(** A JSON object with an object inside:
    [{"summary": "stable", "vitals": {"bp": "120/80"}}]. *)
Definition nested_json : pystr :=
  py ("{" +:+ dq +:+ "summary" +:+ dq +:+ ": " +:+ dq +:+ "stable" +:+ dq +:+ ", "
      +:+ dq +:+ "vitals" +:+ dq +:+ ": {" +:+ dq +:+ "bp" +:+ dq +:+ ": "
      +:+ dq +:+ "120/80" +:+ dq +:+ "}}").

(** The reply that wraps [j] in a fenced code block marked json. *)
Definition fenced (j : pystr) : pystr :=
  py ("```json" +:+ nl) ++ j ++ py (nl +:+ "```").

(* ================================================================== *)
(** ** The vocabulary of the properties *)

Definition raises {A} (o : outcome A) : Prop := exists e, o = Raise e.




(** The report text as [analyze_text_with_gemini] sends it: cut at
    100,000 characters. *)
Definition capped (text : pystr) : pystr :=
  if (100000 <? len text)%Z then slice_to 100000 text else text.

(** The JPEG bytes [analyze_image_with_gemini] makes of the image bytes
    with PIL: open, convert to RGB unless it is RGB, save. *)
Definition prepared_jpeg (E : Env) (data : bytes) : outcome bytes :=
  match Image_open E data with
  | Raise e => Raise e
  | Ret image =>
      match (if negb (pystr_eqb (image_mode E image) (py "RGB"))
             then image_convert_rgb E image else Ret image) with
      | Raise e => Raise e
      | Ret image => image_save_jpeg E image
      end
  end.

(** The error message of the failed parse tier, for each analyzer. *)
Definition text_parse_error (s : pystr) : pystr :=
  match re_search json_pattern s with
  | Some _ => py "AI response could not be parsed as JSON"
  | None => py "No valid JSON found in AI response"
  end.

Definition image_parse_error (s : pystr) : pystr :=
  match re_search json_pattern s with
  | Some _ => py "AI image response contained invalid JSON structure"
  | None => py "No valid JSON found in AI image response"
  end.

(** What [analyze_text_with_gemini] may return once it has read the reply
    text, [s] being the stripped text: a value [json.loads] gave; when
    every parse tier failed with a decode error, the error record with [s]
    as its raw text; when [json.loads] raised anything else, the error
    record of the outer handler. *)
Definition text_outcome (E : Env) (s : pystr) (v : json) : Prop :=
  json_loads E (json_candidate s) = Ret v
  \/ (unparsable E s /\ v = error_with_raw (text_parse_error s) s)
  \/ (exists e, json_loads E (json_candidate s) = Raise e
                /\ exn_cls e <> JSONDecodeError
                /\ v = error_record
                            (py "Unexpected AI text processing error: " ++ exn_str e)).

(** The same for [analyze_image_with_gemini]: the raw text of its error
    records is a fixed string. *)
Definition image_outcome (E : Env) (s : pystr) (v : json) : Prop :=
  json_loads E (json_candidate s) = Ret v
  \/ (unparsable E s
      /\ v = error_with_raw (image_parse_error s) (py "See logs for raw text"))
  \/ (exists e, json_loads E (json_candidate s) = Raise e
                /\ exn_cls e <> JSONDecodeError
                /\ v = error_record
                            (py "Gemini API communication error: " ++ exn_str e)).

(** The world after the two [session.pop] calls. *)
Definition cleared (w : world) : world :=
  World (delete k_filename (delete k_text (session w)))
    ((trace w ++ [EvSessionPop k_text]) ++ [EvSessionPop k_filename]).

(** The world after the two stores of [analyze_report]. *)
Definition stored (text filename : pystr) (w : world) : world :=
  World (<[k_filename := filename]> (<[k_text := text]> (session w)))
    ((trace w ++ [EvSessionSet k_text text]) ++ [EvSessionSet k_filename filename]).

(** The document text as [chat_api] embeds it: cut at 50,000 characters,
    with the marker when it was cut. *)
Definition chat_context (text : pystr) : pystr :=
  if (50000 <? len text)%Z then slice_to 50000 text ++ truncation_marker else text.

(** A JSON text in braces with no closing brace before its last
    character: no object inside, no brace in a string. *)
Definition flat_object (j : pystr) : Prop :=
  exists body, j = 123 :: body ++ [125] /\ 125 ∉ body.

(** *** Properties of computations *)

(** [m] gives a value from every world: it never raises. *)
Definition returns {A} (m : M A) : Prop :=
  forall w, exists a, (m w).1 = Ret a.

(** From [w] to [w'] the session is the same and the trace grew by events
    that satisfy [P]. *)
Definition grows (P : event -> Prop) (w w' : world) : Prop :=
  session w' = session w /\
  exists evs, trace w' = trace w ++ evs /\ Forall P evs.

Definition keeps {A} (P : event -> Prop) (m : M A) : Prop :=
  forall w, grows P w (m w).2.

(** Events that touch neither the session nor the files. *)
Definition is_log (e : event) : Prop :=
  match e with EvLog _ => True | _ => False end.

Definition quiet (e : event) : Prop :=
  match e with EvLog _ | EvGenerate _ => True | _ => False end.

(** The reading of a reply adds no event at all. *)
Definition silent {A} (m : M A) : Prop := keeps (fun _ => False) m.

(** The outcome of [m] is the same from every world. *)
Definition same_result {A} (m : M A) : Prop :=
  forall w w', (m w).1 = (m w').1.

(** What a computation returns, when it returns. *)
Definition gives {A} (Q : A -> Prop) (m : M A) : Prop :=
  forall w a w', m w = (Ret a, w') -> Q a.

(** Events other than a store into the session. *)
Definition no_set (e : event) : Prop :=
  match e with EvSessionSet _ _ => False | _ => True end.

(** A string that does not start with white space. *)
Definition no_lead (s : pystr) : Prop :=
  match s with
  | c :: _ => isspace c = false
  | [] => True
  end.

(** A [return] in the [try] block of [extract_text] returns the empty
    string. *)
Definition returned_is_empty (r : flow pystr pystr) : Prop :=
  match r with Return v => v = [] | Next _ => True end.

(* ================================================================== *)
(** ** More vocabulary: the rest of the program *)

(** The requests to Gemini among some events, in order. *)
Definition gemini_calls (evs : list event) : list request :=
  omap (fun e => match e with EvGenerate r => Some r | _ => None end) evs.

(** The five steps of [preprocess_image], one after the other: gray
    scale, median blur, Otsu threshold, dilation, erosion. *)
Definition threshold_chain (E : Env) (image : cv_image E) : outcome (cv_image E) :=
  match cv2_cvtColor_gray E image with
  | Raise e => Raise e
  | Ret gray =>
      match cv2_medianBlur E gray with
      | Raise e => Raise e
      | Ret gray =>
          match cv2_threshold_otsu E gray with
          | Raise e => Raise e
          | Ret thresh =>
              match cv2_dilate E thresh with
              | Raise e => Raise e
              | Ret thresh => cv2_erode E thresh
              end
          end
      end
  end.

(** The two Tesseract configurations of [extract_text_from_image]. *)
Definition psm6 : pystr := py "--oem 3 --psm 6".
Definition psm3 : pystr := py "--oem 3 --psm 3".

(** The heading line of a sheet in the text of a workbook. *)
Definition sheet_heading (name : pystr) : pystr :=
  py "--- Sheet: " ++ name ++ py " ---".

(** The text of one sheet: its heading and, on the next line, its table. *)
Definition sheet_text (sheet : pystr * pystr) : pystr :=
  sheet_heading sheet.1 ++ py nl ++ sheet.2.

(** The outside [E] with OpenCV and Tesseract taken away: no image is
    read and every call raises. *)
Definition without_ocr (E : Env) : Env :=
  {| generate_content := generate_content E;
     json_loads := json_loads E;
     fitz_page_texts := fitz_page_texts E;
     pdfplumber_page_texts := pdfplumber_page_texts E;
     docx_paragraphs := docx_paragraphs E;
     read_excel_sheets := read_excel_sheets E;
     cv_image := unit;
     cv2_imread := fun _ => unavailable;
     cv2_cvtColor_gray := fun _ => unavailable;
     cv2_medianBlur := fun _ => unavailable;
     cv2_threshold_otsu := fun _ => unavailable;
     cv2_dilate := fun _ => unavailable;
     cv2_erode := fun _ => unavailable;
     image_to_string := fun _ _ => unavailable;
     pil_image := pil_image E;
     Image_open := Image_open E;
     image_mode := image_mode E;
     image_convert_rgb := image_convert_rgb E;
     image_save_jpeg := image_save_jpeg E;
     path_suffix_lower := path_suffix_lower E;
     path_basename := path_basename E;
     path_exists := path_exists E;
     upload_path := upload_path E;
     file_save := file_save E;
     read_binary := read_binary E |}.

(** The message of an error record, if the value is one whose message is
    a string. *)
Definition error_message (v : json) : option pystr :=
  match v with
  | JDict d =>
      match dict_lookup (py "error") d with
      | Some (JStr msg) => Some msg
      | _ => None
      end
  | _ => None
  end.

(** The test of [analyze_report] for an error of the AI side. *)
Definition ai_side (msg : pystr) : bool :=
  substring_in (py "AI") msg || substring_in (py "Gemini") msg.

(** A JSON number, boolean or null. *)
Definition is_scalar (v : json) : Prop :=
  match v with
  | JNull | JBool _ | JNum _ => True
  | _ => False
  end.

(** The prompt of [chat_api] when the session holds no document. *)
Definition general_prompt (user_message : pystr) : pystr :=
  general_prompt_1 ++ user_message ++ general_prompt_2.

(** The session holds a document context [chat_api] can use: a text and a
    file name, neither empty. *)
Definition has_context (w : world) : Prop :=
  exists text filename,
    session w !! k_text = Some text /\ text <> []
    /\ session w !! k_filename = Some filename /\ filename <> [].

(** A request that ends with the document context cleared: an upload that
    is saved, an analysis of an image that exists, an analysis of a
    document that exists and gives no text. *)
Definition clears (E : Env) (c : call) (w : world) : Prop :=
  match c with
  | CallUpload (Some (name, content)) =>
      name <> [] /\ file_save E (upload_path E name) content = Ret tt
  | CallAnalyze (Some p) _ =>
      p <> [] /\ path_exists E p = true
      /\ ((path_suffix_lower E p ∈ image_exts) \/ (extract_text E p w).1 = Ret [])
  | _ => False
  end.

(** *** More test doubles *)

(** An OpenCV image of the examples: the operations it went through. *)
Definition stages : Type := list string.

(** The outside [E] with an OpenCV that reads every image, whose
    operations work except the ones named in [broken], and a Tesseract that
    answers [first] in page segmentation mode 6 and [second] in mode 3. *)
Definition with_ocr (broken : list string) (first second : outcome pystr)
  (E : Env) : Env :=
  let op (name : string) : stages -> outcome stages :=
    fun image =>
      if bool_decide (name ∈ broken) then unavailable else Ret (image ++ [name]) in
  {| generate_content := generate_content E;
     json_loads := json_loads E;
     fitz_page_texts := fitz_page_texts E;
     pdfplumber_page_texts := pdfplumber_page_texts E;
     docx_paragraphs := docx_paragraphs E;
     read_excel_sheets := read_excel_sheets E;
     cv_image := stages;
     cv2_imread := fun _ => Ret (Some []);
     cv2_cvtColor_gray := op "gray";
     cv2_medianBlur := op "blur";
     cv2_threshold_otsu := op "otsu";
     cv2_dilate := op "dilate";
     cv2_erode := op "erode";
     image_to_string := fun _ config =>
       if pystr_eqb config psm6 then first else second;
     pil_image := pil_image E;
     Image_open := Image_open E;
     image_mode := image_mode E;
     image_convert_rgb := image_convert_rgb E;
     image_save_jpeg := image_save_jpeg E;
     path_suffix_lower := path_suffix_lower E;
     path_basename := path_basename E;
     path_exists := path_exists E;
     upload_path := upload_path E;
     file_save := file_save E;
     read_binary := read_binary E |}.

(** The outside [E] with the DOCX and XLSX readers giving [docx] and
    [xlsx]. *)
Definition with_office (docx : outcome (list pystr))
  (xlsx : outcome (list (pystr * pystr))) (E : Env) : Env :=
  {| generate_content := generate_content E;
     json_loads := json_loads E;
     fitz_page_texts := fitz_page_texts E;
     pdfplumber_page_texts := pdfplumber_page_texts E;
     docx_paragraphs := fun _ => docx;
     read_excel_sheets := fun _ => xlsx;
     cv_image := cv_image E;
     cv2_imread := cv2_imread E;
     cv2_cvtColor_gray := cv2_cvtColor_gray E;
     cv2_medianBlur := cv2_medianBlur E;
     cv2_threshold_otsu := cv2_threshold_otsu E;
     cv2_dilate := cv2_dilate E;
     cv2_erode := cv2_erode E;
     image_to_string := image_to_string E;
     pil_image := pil_image E;
     Image_open := Image_open E;
     image_mode := image_mode E;
     image_convert_rgb := image_convert_rgb E;
     image_save_jpeg := image_save_jpeg E;
     path_suffix_lower := path_suffix_lower E;
     path_basename := path_basename E;
     path_exists := path_exists E;
     upload_path := upload_path E;
     file_save := file_save E;
     read_binary := read_binary E |}.

(** The outside [E] with a disk on which saving gives [save] and reading
    gives [read]. *)
Definition with_disk (save : outcome unit) (read : outcome bytes) (E : Env) : Env :=
  {| generate_content := generate_content E;
     json_loads := json_loads E;
     fitz_page_texts := fitz_page_texts E;
     pdfplumber_page_texts := pdfplumber_page_texts E;
     docx_paragraphs := docx_paragraphs E;
     read_excel_sheets := read_excel_sheets E;
     cv_image := cv_image E;
     cv2_imread := cv2_imread E;
     cv2_cvtColor_gray := cv2_cvtColor_gray E;
     cv2_medianBlur := cv2_medianBlur E;
     cv2_threshold_otsu := cv2_threshold_otsu E;
     cv2_dilate := cv2_dilate E;
     cv2_erode := cv2_erode E;
     image_to_string := image_to_string E;
     pil_image := pil_image E;
     Image_open := Image_open E;
     image_mode := image_mode E;
     image_convert_rgb := image_convert_rgb E;
     image_save_jpeg := image_save_jpeg E;
     path_suffix_lower := path_suffix_lower E;
     path_basename := path_basename E;
     path_exists := path_exists E;
     upload_path := upload_path E;
     file_save := fun _ _ => save;
     read_binary := fun _ => read |}.

(** An outside of the examples where Gemini answers [reply], the files
    [files] exist and a PDF reads as the one page [page]. *)
Definition clinic (reply : pystr) (files : list pystr) (page : pystr) : Env :=
  mock_env (answers reply) files (Ret [page]) unavailable true.

(** A reply without a top-level text, whose one candidate holds the text
    [s]: reading [response.text] raises [e]. *)
Definition candidate_reply (e : exn) (s : pystr) : Response :=
  {| resp_text := Raise e;
     resp_candidates :=
       Ret [ {| cand_finish_reason := Ret (py "STOP");
                cand_safety_ratings := Ret (JList []);
                cand_text := Ret s |} ];
     resp_prompt_feedback :=
       Ret {| fb_block_reason := Raise (Exn AttributeError (py "block_reason"));
              fb_safety_ratings := Ret (JList []) |} |}.

(** A reply that was blocked: no candidates, and the feedback [feedback]. *)
Definition blocked_reply (feedback : outcome Feedback) : Response :=
  {| resp_text := Raise (Exn OtherError (py "blocked"));
     resp_candidates := Ret [];
     resp_prompt_feedback := feedback |}.

(** The prompt [chat_api] builds for [user_message] in the world [w]: with
    the document context when the session holds a text and a file name,
    neither empty, the general one otherwise. *)
Definition chat_prompt_in (w : world) (user_message : pystr) : pystr :=
  match session w !! k_text, session w !! k_filename with
  | Some ((_ :: _) as text), Some ((_ :: _) as filename) =>
      chat_prompt filename (chat_context text) user_message
  | _, _ => general_prompt user_message
  end.

(** The paths of the files saved among some events. *)
Definition saved_files (evs : list event) : list pystr :=
  omap (fun e => match e with EvSave path => Some path | _ => None end) evs.

(** The analyzer's result for the file [p] is [v]: what
    [analyze_text_with_gemini] returns for the text of a document, when
    there is one, or [analyze_image_with_gemini] for the bytes of an
    image. *)
Definition analyzed (E : Env) (p : pystr) (w : world) (v : json) : Prop :=
  ((path_suffix_lower E p ∉ image_exts)
   /\ exists t, (extract_text E p w).1 = Ret t /\ t <> []
                /\ (analyze_text_with_gemini E t w).1 = Ret v)
  \/ ((path_suffix_lower E p ∈ image_exts)
      /\ exists data, read_binary E p = Ret data
                      /\ (analyze_image_with_gemini E data w).1 = Ret v).

(** An error record of the AI side: the key "error" with a message that
    contains "AI" or "Gemini", alone or with safety ratings. *)
Definition ai_error (v : json) : Prop :=
  exists msg,
    ai_side msg = true
    /\ (v = error_record msg \/ exists ratings, v = error_with_safety msg ratings).

(* ================================================================== *)
(** ** Reasoning about computations *)

Lemma grows_refl P w : grows P w w.
Proof. split; [done|]. exists []. by rewrite app_nil_r. Qed.

Lemma grows_trans P w1 w2 w3 : grows P w1 w2 -> grows P w2 w3 -> grows P w1 w3.
Proof.
  intros [Hs1 (e1 & Ht1 & Hf1)] [Hs2 (e2 & Ht2 & Hf2)]. split; [congruence|].
  exists (e1 ++ e2). split; [by rewrite Ht2, Ht1, app_assoc|].
  by apply Forall_app.
Qed.

Lemma grows_weaken (P Q : event -> Prop) w w' :
  (forall e, P e -> Q e) -> grows P w w' -> grows Q w w'.
Proof.
  intros HPQ [Hs (evs & Ht & Hf)]. split; [done|]. exists evs. split; [done|].
  eapply Forall_impl; eauto.
Qed.

Section Keeps.

Context {P : event -> Prop}.

Lemma keeps_ret {A} (a : A) : keeps P (mret a).
Proof. intros w. apply grows_refl. Qed.

Lemma keeps_ret' {A} (a : A) : keeps P (ret a).
Proof. intros w. apply grows_refl. Qed.

Lemma keeps_raise {A} e : keeps P (@raise A e).
Proof. intros w. apply grows_refl. Qed.

Lemma keeps_lift {A} (o : outcome A) : keeps P (lift o).
Proof. intros w. apply grows_refl. Qed.

Lemma keeps_bind {A B} (m : M A) (k : A -> M B) :
  keeps P m -> (forall a, keeps P (k a)) -> keeps P (bind m k).
Proof.
  intros Hm Hk w. unfold bind. specialize (Hm w).
  destruct (m w) as [[a|e] w1]; simpl in *; [|done].
  eapply grows_trans; [exact Hm|apply Hk].
Qed.

Lemma keeps_try_except {A} (m : M A) h :
  keeps P m -> (forall e, keeps P (h e)) -> keeps P (try_except m h).
Proof.
  intros Hm Hh w. unfold try_except. specialize (Hm w).
  destruct (m w) as [[a|e] w1]; simpl in *; [done|].
  eapply grows_trans; [exact Hm|apply Hh].
Qed.

Lemma keeps_try_except_of {A} cs (m : M A) h :
  keeps P m -> (forall e, keeps P (h e)) -> keeps P (try_except_of cs m h).
Proof.
  intros Hm Hh w. unfold try_except_of. specialize (Hm w).
  destruct (m w) as [[a|e] w1]; simpl in *; [done|].
  case_bool_decide; simpl; [|done].
  eapply grows_trans; [exact Hm|apply Hh].
Qed.

Lemma keeps_emit e : P e -> keeps P (emit e).
Proof.
  intros He w. split; [done|]. exists [e]. split; [done|]. by constructor.
Qed.

Lemma keeps_hasattr {A} (o : outcome A) : keeps P (hasattr o).
Proof. intros w. destruct o; simpl; [|case_bool_decide]; apply grows_refl. Qed.

Lemma keeps_getattr_default {A} (o : outcome A) d : keeps P (getattr_default o d).
Proof. intros w. destruct o; simpl; [|case_bool_decide]; apply grows_refl. Qed.

Lemma keeps_py_in s v : keeps P (py_in s v).
Proof. intros w. destruct v; apply grows_refl. Qed.

Lemma keeps_py_get v k d : keeps P (py_get v k d).
Proof. intros w. destruct v; apply grows_refl. Qed.

Lemma keeps_py_getitem v k : keeps P (py_getitem v k).
Proof.
  intros w. destruct v; try apply grows_refl.
  simpl. destruct (dict_lookup k items); apply grows_refl.
Qed.

End Keeps.

Lemma keeps_weaken {A} (P Q : event -> Prop) (m : M A) :
  (forall e, P e -> Q e) -> keeps P m -> keeps Q m.
Proof. intros HPQ Hm w. eapply grows_weaken; eauto. Qed.

Lemma is_log_quiet e : is_log e -> quiet e.
Proof. by destruct e. Qed.

(** One step of a proof that a computation keeps the session. *)
Ltac keeps_step :=
  lazymatch goal with
  | |- keeps _ (bind _ _) => apply keeps_bind; [|intros ?]
  | |- keeps _ (try_except _ _) => apply keeps_try_except; [|intros ?]
  | |- keeps _ (try_except_of _ _ _) => apply keeps_try_except_of; [|intros ?]
  | |- keeps _ (mret _) => apply keeps_ret
  | |- keeps _ (ret _) => apply keeps_ret'
  | |- keeps _ (raise _) => apply keeps_raise
  | |- keeps _ (lift _) => apply keeps_lift
  | |- keeps _ (log _) => apply keeps_emit; exact I
  | |- keeps _ (emit (EvGenerate _)) => apply keeps_emit; exact I
  | |- keeps _ (hasattr _) => apply keeps_hasattr
  | |- keeps _ (getattr_default _ _) => apply keeps_getattr_default
  | |- keeps _ (py_in _ _) => apply keeps_py_in
  | |- keeps _ (py_get _ _ _) => apply keeps_py_get
  | |- keeps _ (py_getitem _ _) => apply keeps_py_getitem
  | |- keeps _ (match ?x with _ => _ end) => destruct x
  | |- keeps _ (let _ := _ in _) => cbv zeta
  end.

Section BackendFacts.

Variable E : Env.

Lemma keeps_generate r : keeps quiet (generate E r).
Proof. unfold generate. repeat keeps_step. Qed.

Lemma keeps_preprocess_image img : keeps is_log (preprocess_image E img).
Proof. unfold preprocess_image. repeat keeps_step. Qed.

Lemma keeps_extract_text_from_image p : keeps is_log (extract_text_from_image E p).
Proof.
  unfold extract_text_from_image, extract_text_from_image_body.
  repeat first [apply keeps_preprocess_image | keeps_step].
Qed.

Lemma keeps_extract_text_body p : keeps is_log (extract_text_body E p).
Proof.
  unfold extract_text_body.
  repeat first [apply keeps_extract_text_from_image | keeps_step].
Qed.

Lemma keeps_extract_text p : keeps is_log (extract_text E p).
Proof.
  unfold extract_text.
  repeat first [apply keeps_extract_text_body | keeps_step].
Qed.

Lemma silent_world {A} (m : M A) w : silent m -> (m w).2 = w.
Proof.
  intros H. destruct (H w) as [Hs (evs & Ht & Hf)].
  destruct evs as [|e evs]; [|by inversion Hf].
  rewrite app_nil_r in Ht. destruct (m w).2, w; simpl in *; congruence.
Qed.

Lemma silent_parse_text_reply s : silent (parse_text_reply E s).
Proof. unfold silent, parse_text_reply. repeat keeps_step. Qed.

Lemma silent_text_response_result r : silent (text_response_result E r).
Proof.
  unfold silent, text_response_result.
  repeat first [apply silent_parse_text_reply | keeps_step].
Qed.

Lemma silent_parse_image_reply s : silent (parse_image_reply E s).
Proof. unfold silent, parse_image_reply. repeat keeps_step. Qed.

Lemma silent_image_response_result r : silent (image_response_result E r).
Proof.
  unfold silent, image_response_result.
  repeat first [apply silent_parse_image_reply | keeps_step].
Qed.

Lemma silent_keeps {A} P (m : M A) : silent m -> keeps P m.
Proof. apply keeps_weaken. intros e []. Qed.

Lemma keeps_analyze_text text : keeps quiet (analyze_text_with_gemini E text).
Proof.
  unfold analyze_text_with_gemini.
  repeat first [apply keeps_generate
               | apply silent_keeps, silent_text_response_result | keeps_step].
Qed.

Lemma keeps_analyze_image data : keeps quiet (analyze_image_with_gemini E data).
Proof.
  unfold analyze_image_with_gemini.
  repeat first [apply keeps_generate
               | apply silent_keeps, silent_image_response_result | keeps_step].
Qed.

Lemma silent_chat_response_result r : silent (chat_response_result r).
Proof. unfold silent, chat_response_result. repeat keeps_step. Qed.

(** A handler that only returns makes the whole [try] return. *)
Lemma returns_try_except {A} (m : M A) h :
  (forall e, returns (h e)) -> returns (try_except m h).
Proof.
  intros Hh w. unfold try_except. destruct (m w) as [[a|e] w1]; [by exists a|].
  apply Hh.
Qed.

Lemma returns_ret {A} (a : A) : returns (mret a).
Proof. intros w. by exists a. Qed.

Lemma returns_analyze_text text : returns (analyze_text_with_gemini E text).
Proof. apply returns_try_except. intros e. apply returns_ret. Qed.

Lemma returns_analyze_image data : returns (analyze_image_with_gemini E data).
Proof. apply returns_try_except. intros e. apply returns_ret. Qed.

Lemma returns_extract_text p : returns (extract_text E p).
Proof.
  intros w. unfold extract_text, bind, try_except.
  destruct (extract_text_body E p w) as [[[v|t]|e] w1]; simpl; eauto.
Qed.

End BackendFacts.

Arguments text_prompt_head : simpl never.
Arguments text_prompt_tail : simpl never.
Arguments image_prompt : simpl never.
Arguments chat_prompt_1 : simpl never.
Arguments chat_prompt_2 : simpl never.
Arguments chat_prompt_3 : simpl never.
Arguments chat_prompt_4 : simpl never.
Arguments chat_prompt_5 : simpl never.
Arguments general_prompt_1 : simpl never.
Arguments general_prompt_2 : simpl never.
Arguments json_pattern : simpl never.
Arguments re_search : simpl never.
Arguments strip : simpl never.
Arguments slice_to : simpl never.
Arguments len : simpl never.
Arguments text_prompt : simpl never.
Arguments chat_prompt : simpl never.
Arguments truncation_marker : simpl never.


(** Running the pieces of a computation. *)
Lemma run_bind {A B} (m : M A) (k : A -> M B) w :
  bind m k w = match m w with
               | (Ret a, w') => k a w'
               | (Raise e, w') => (Raise e, w')
               end.
Proof. reflexivity. Qed.

Lemma run_try_except {A} (m : M A) h w :
  try_except m h w = match m w with
                     | (Ret a, w') => (Ret a, w')
                     | (Raise e, w') => h e w'
                     end.
Proof. reflexivity. Qed.

Lemma run_log r w : log r w = (Ret tt, World (session w) (trace w ++ [EvLog r])).
Proof. reflexivity. Qed.

Lemma run_mret {A} (a : A) w : (mret a : M A) w = (Ret a, w).
Proof. reflexivity. Qed.

Lemma run_generate E r w :
  generate E r w
  = (generate_content E r, World (session w) (trace w ++ [EvGenerate r])).
Proof. reflexivity. Qed.

Lemma run_session_get k w : session_get k w = (Ret (session w !! k), w).
Proof. reflexivity. Qed.

Lemma run_try_except_of {A} cs (m : M A) h w :
  try_except_of cs m h w
  = match m w with
    | (Ret a, w') => (Ret a, w')
    | (Raise e, w') => if bool_decide (exn_cls e ∈ cs) then h e w' else (Raise e, w')
    end.
Proof. reflexivity. Qed.

Lemma run_lift {A} (o : outcome A) w : lift o w = (o, w).
Proof. reflexivity. Qed.


(* ================================================================== *)
(** ** Results that do not depend on the world *)

Lemma same_result_ret {A} (a : A) : same_result (mret a).
Proof. done. Qed.

Lemma same_result_lift {A} (o : outcome A) : same_result (lift o).
Proof. done. Qed.

Lemma same_result_emit e : same_result (emit e).
Proof. done. Qed.

Lemma same_result_bind {A B} (m : M A) (k : A -> M B) :
  same_result m -> (forall a, same_result (k a)) -> same_result (bind m k).
Proof.
  intros Hm Hk w w'. unfold bind. specialize (Hm w w').
  destruct (m w) as [[a|e] w1], (m w') as [[a'|e'] w1']; simpl in *;
    try congruence.
  injection Hm as <-. apply Hk.
Qed.

Lemma same_result_try_except {A} (m : M A) h :
  same_result m -> (forall e, same_result (h e)) -> same_result (try_except m h).
Proof.
  intros Hm Hh w w'. unfold try_except. specialize (Hm w w').
  destruct (m w) as [[a|e] w1], (m w') as [[a'|e'] w1']; simpl in *;
    try congruence.
  injection Hm as <-. apply Hh.
Qed.

Lemma same_result_try_except_of {A} cs (m : M A) h :
  same_result m -> (forall e, same_result (h e)) -> same_result (try_except_of cs m h).
Proof.
  intros Hm Hh w w'. unfold try_except_of. specialize (Hm w w').
  destruct (m w) as [[a|e] w1], (m w') as [[a'|e'] w1']; simpl in *;
    try congruence.
  injection Hm as <-. case_bool_decide; [apply Hh|done].
Qed.

Lemma same_result_hasattr {A} (o : outcome A) : same_result (hasattr o).
Proof. destruct o; simpl; [|case_bool_decide]; done. Qed.

Lemma same_result_getattr_default {A} (o : outcome A) d :
  same_result (getattr_default o d).
Proof. destruct o; simpl; [|case_bool_decide]; done. Qed.

Ltac same_step :=
  lazymatch goal with
  | |- same_result (bind _ _) => apply same_result_bind; [|intros ?]
  | |- same_result (try_except _ _) => apply same_result_try_except; [|intros ?]
  | |- same_result (try_except_of _ _ _) => apply same_result_try_except_of; [|intros ?]
  | |- same_result (mret _) => apply same_result_ret
  | |- same_result (lift _) => apply same_result_lift
  | |- same_result (log _) => apply same_result_emit
  | |- same_result (emit _) => apply same_result_emit
  | |- same_result (generate _ _) => unfold generate
  | |- same_result (hasattr _) => apply same_result_hasattr
  | |- same_result (getattr_default _ _) => apply same_result_getattr_default
  | |- same_result (match ?x with _ => _ end) => destruct x
  | |- same_result (let _ := _ in _) => cbv zeta
  end.

Lemma same_result_extract_text E p : same_result (extract_text E p).
Proof.
  unfold extract_text, extract_text_body, extract_text_from_image,
    extract_text_from_image_body, preprocess_image.
  repeat same_step.
Qed.

Lemma same_result_analyze_text E text : same_result (analyze_text_with_gemini E text).
Proof.
  unfold analyze_text_with_gemini, text_response_result, parse_text_reply.
  repeat same_step.
Qed.

Lemma same_result_analyze_image E data : same_result (analyze_image_with_gemini E data).
Proof.
  unfold analyze_image_with_gemini, image_response_result, parse_image_reply.
  repeat same_step.
Qed.

(* ================================================================== *)
(** ** [strip] gives a stripped string *)

Lemma lstrip_no_lead s : no_lead (lstrip s).
Proof.
  induction s as [|c s IH]; simpl; [done|].
  destruct (isspace c) eqn:Hc; [done|]. simpl. done.
Qed.

Lemma lstrip_id s : no_lead s -> lstrip s = s.
Proof. destruct s as [|c s]; simpl; [done|]. by intros ->. Qed.

Lemma lstrip_suffix s : lstrip s `suffix_of` s.
Proof.
  induction s as [|c s IH]; simpl; [done|].
  destruct (isspace c); [by apply suffix_cons_r|done].
Qed.

Lemma rstrip_prefix s : rstrip s `prefix_of` s.
Proof.
  unfold rstrip. destruct (lstrip_suffix (rev s)) as [k Hk].
  exists (rev k). apply (f_equal (@rev N)) in Hk.
  rewrite rev_involutive, rev_app_distr in Hk. done.
Qed.

Lemma prefix_no_lead s t : s `prefix_of` t -> no_lead t -> no_lead s.
Proof. intros [k ->]. by destruct s. Qed.

Lemma strip_idemp s : strip (strip s) = strip s.
Proof.
  unfold strip at 1.
  rewrite lstrip_id.
  - unfold rstrip at 1. rewrite lstrip_id.
    + apply rev_involutive.
    + unfold strip, rstrip. rewrite rev_involutive. apply lstrip_no_lead.
  - eapply prefix_no_lead; [apply rstrip_prefix|apply lstrip_no_lead].
Qed.

Lemma strip_nil : strip [] = [].
Proof. reflexivity. Qed.

Lemma gives_ret {A} (Q : A -> Prop) a : Q a -> gives Q (mret a).
Proof. intros H w a' w' [= <- _]. done. Qed.

Lemma gives_bind {A B} (Q : B -> Prop) (m : M A) (k : A -> M B) :
  (forall a, gives Q (k a)) -> gives Q (bind m k).
Proof.
  intros Hk w b w'. unfold bind. destruct (m w) as [[a|e] w1]; [|done]. apply Hk.
Qed.

Lemma gives_try_except {A} (Q : A -> Prop) (m : M A) h :
  gives Q m -> (forall e, gives Q (h e)) -> gives Q (try_except m h).
Proof.
  intros Hm Hh w a w'. unfold try_except.
  destruct (m w) as [[a'|e] w1] eqn:Hmw.
  - intros [= <- <-]. eapply Hm, Hmw.
  - apply Hh.
Qed.

Lemma extract_text_body_returns_empty E p :
  gives returned_is_empty (extract_text_body E p).
Proof.
  unfold extract_text_body. cbv zeta.
  repeat lazymatch goal with
    | |- gives _ (if ?b then _ else _) => destruct b
    | |- gives _ (bind _ _) => apply gives_bind; intros ?
    | |- gives _ (mret _) => apply gives_ret; done
    end.
Qed.

(** The text [extract_text] returns is stripped. *)
Lemma extract_text_stripped E p w t :
  (extract_text E p w).1 = Ret t -> strip t = t.
Proof.
  unfold extract_text. cbv zeta. rewrite run_bind, run_try_except.
  destruct (extract_text_body E p w) as [[[v|x]|e] w1] eqn:Hb; simpl.
  - apply extract_text_body_returns_empty in Hb. simpl in Hb. subst.
    by intros [= <-].
  - intros [= <-]. apply strip_idemp.
  - by intros [= <-].
Qed.
(* ================================================================== *)
(** ** Text extraction *)

Lemma pystr_eqb_refl a : pystr_eqb a a = true.
Proof. unfold pystr_eqb. by apply bool_decide_eq_true_2. Qed.

Lemma pystr_eqb_neq a b : a <> b -> pystr_eqb a b = false.
Proof. unfold pystr_eqb. by apply bool_decide_eq_false_2. Qed.

Lemma pystr_eqb_eq a b : pystr_eqb a b = true -> a = b.
Proof. unfold pystr_eqb. by intros ?%bool_decide_eq_true_1. Qed.





Lemma world_eta w : World (session w) (trace w ++ []) = w.
Proof. destruct w. by rewrite app_nil_r. Qed.

(** C4. For a PDF, [extract_text] takes the text of the primary library
    (PyMuPDF); when that attempt raises, the text of the secondary one
    (pdfplumber); when both raise, the empty text.  What it returns is that
    text, stripped, whatever its length: below 50 characters the only
    effect is the warning in the log, and no other strategy is tried. *)
Theorem pdf_primary_then_secondary (E : Env) (p : pystr) (w : world) :
  path_suffix_lower E p = py ".pdf" ->
  extract_text E p w
  = (Ret (strip (pdf_text_spec E p)),
     World (session w) (trace w ++ pdf_flag E p))
  /\ (raises (fitz_page_texts E p) -> raises (pdfplumber_page_texts E p) ->
      pdf_text_spec E p = []).
Proof.
  intros Hext. split.
  - unfold extract_text, extract_text_body, pdf_text_spec, pdf_flag, pdf_text_spec.
    rewrite Hext, pystr_eqb_refl.
    unfold bind, try_except, lift, log, emit. simpl.
    destruct (fitz_page_texts E p) as [pages|e1]; simpl.
    + destruct (len _ <? 50)%Z; simpl; by rewrite ?world_eta.
    + destruct (pdfplumber_page_texts E p) as [pages|e2]; simpl.
      * destruct (len _ <? 50)%Z; simpl; by rewrite ?world_eta.
      * done.
  - intros [e1 H1] [e2 H2]. unfold pdf_text_spec. by rewrite H1, H2.
Qed.

(** C4, on an instance: PyMuPDF raises, pdfplumber reads one short page;
    the page is returned and flagged, nothing else happens. *)
Lemma pdf_primary_then_secondary_witness :
  extract_text
    (mock_env (answers []) [] unavailable (Ret [Some (py " Patient: A. ")]) true)
    (py "uploads/report.pdf") w0
  = (Ret (py "Patient: A."),
     World ∅ [EvLog (WarnPdfMinimalText (py "report.pdf"))]).
Proof.
  apply (pdf_primary_then_secondary
           (mock_env (answers []) [] unavailable (Ret [Some (py " Patient: A. ")]) true)
           (py "uploads/report.pdf") w0).
  vm_compute. reflexivity.
Defined.

(* ================================================================== *)
(** ** What the pattern captures *)

Lemma star_greedy_Some cl k s m :
  star_greedy cl k s = Some m -> exists s', s' `suffix_of` s /\ k s' = Some m.
Proof.
  induction s as [|c s IH]; simpl.
  - intros H. exists []. done.
  - destruct (cmatch cl c).
    + destruct (star_greedy cl k s) as [m'|] eqn:Hs.
      * intros [= <-]. destruct (IH eq_refl) as (s' & Hsuf & Hk).
        exists s'. split; [by apply suffix_cons_r|done].
      * intros H. by exists (c :: s).
    + intros H. by exists (c :: s).
Qed.

Lemma star_lazy_Some cl k s m :
  star_lazy cl k s = Some m -> exists s', s' `suffix_of` s /\ k s' = Some m.
Proof.
  induction s as [|c s IH]; simpl.
  - destruct (k []) eqn:Hk; [|done]. intros [= <-]. by exists [].
  - destruct (k (c :: s)) eqn:Hk.
    + intros [= <-]. by exists (c :: s).
    + destruct (cmatch cl c); [|done]. intros H.
      destruct (IH H) as (s' & Hsuf & Hk'). exists s'.
      split; [by apply suffix_cons_r|done].
Qed.

Lemma is_prefix_cons c s : is_prefix [c] s = true -> exists s', s = c :: s'.
Proof.
  destruct s as [|x s]; simpl; [done|]. rewrite andb_true_r.
  intros ->%N.eqb_eq. eauto.
Qed.

(** A match of [\{.*?\}] starts at a brace and goes on after a later
    closing brace. *)
Lemma braces_Some s c k m :
  rmatch braces s c k = Some m ->
  exists s1 s2, s = 123 :: s1 /\ (125 :: s2) `suffix_of` s1 /\ k s2 c = Some m.
Proof.
  unfold braces. cbn [rmatch]. change (py "{") with [123]. change (py "}") with [125].
  destruct (is_prefix [123] s) eqn:Hp; [|done].
  apply is_prefix_cons in Hp as [s1 ->]. cbn [length drop].
  intros H. apply star_lazy_Some in H as (s' & Hsuf & H).
  destruct (is_prefix [125] s') eqn:Hp; [|done].
  apply is_prefix_cons in Hp as [s2 ->]. cbn [length drop] in H.
  by exists s1, s2.
Qed.

(** The group a match of [(\{.*?\})] at [s] records is not empty. *)
Lemma group_braces_Some n s c k m :
  rmatch (RGroup n braces) s c k = Some m ->
  exists g s2, g <> [] /\ k s2 (<[n := g]> c) = Some m.
Proof.
  cbn [rmatch]. intros H. apply braces_Some in H as (s1 & s2 & -> & Hsuf & H).
  eexists _, s2. split; [|exact H].
  apply suffix_length in Hsuf. cbn [length] in *.
  destruct (S (length s1) - length s2)%nat eqn:Hd; [lia|]. done.
Qed.

Lemma rmatch_seq r1 r2 s c k :
  rmatch (RSeq r1 r2) s c k = rmatch r1 s c (fun s' c' => rmatch r2 s' c' k).
Proof. reflexivity. Qed.

Lemma rmatch_lit l s c k :
  rmatch (RLit l) s c k = if is_prefix l s then k (drop (length l) s) c else None.
Proof. reflexivity. Qed.

Lemma rmatch_star cl s c k :
  rmatch (RStar cl) s c k = star_greedy cl (fun s' => k s' c) s.
Proof. reflexivity. Qed.

Lemma rmatch_alt r1 r2 s c k :
  rmatch (RAlt r1 r2) s c k
  = match rmatch r1 s c k with Some m => Some m | None => rmatch r2 s c k end.
Proof. reflexivity. Qed.

Lemma json_pattern_match s m :
  rmatch json_pattern s ∅ (fun _ c => Some c) = Some m ->
  exists g, g <> [] /\ (m = <[1%nat := g]> ∅ \/ m = <[2%nat := g]> ∅).
Proof.
  unfold json_pattern. rewrite rmatch_alt.
  destruct (rmatch (RSeq _ _) s ∅ _) as [m1|] eqn:H1.
  - intros [= <-]. rewrite rmatch_seq, rmatch_lit in H1.
    destruct (is_prefix _ s); [|done].
    rewrite rmatch_seq, rmatch_star in H1.
    apply star_greedy_Some in H1 as (s' & _ & H1).
    rewrite rmatch_seq in H1.
    apply group_braces_Some in H1 as (g & s2 & Hg & H1).
    rewrite rmatch_seq, rmatch_star in H1.
    apply star_greedy_Some in H1 as (s3 & _ & H1).
    rewrite rmatch_lit in H1.
    destruct (is_prefix _ s3); [|done]. injection H1 as <-. eauto.
  - intros H. apply group_braces_Some in H as (g & s2 & Hg & [= <-]). eauto.
Qed.

Lemma re_search_json_pattern s m :
  re_search json_pattern s = Some m ->
  exists g, g <> [] /\ (m = <[1%nat := g]> ∅ \/ m = <[2%nat := g]> ∅).
Proof.
  induction s as [|c s IH]; unfold re_search; fold re_search.
  - destruct (rmatch json_pattern [] ∅ _) eqn:H; [|done].
    intros [= <-]. by apply json_pattern_match in H.
  - destruct (rmatch json_pattern (c :: s) ∅ _) eqn:H.
    + intros [= <-]. by apply json_pattern_match in H.
    + apply IH.
Qed.

(** Whenever the pattern matches, [group(2) or group(1)] is a non-empty
    string: the branch "Regex matched but failed to extract JSON content"
    of the analyzers is never taken. *)
Lemma matched_json_string s m :
  re_search json_pattern s = Some m ->
  exists c g, group2_or_group1 m = Some (c :: g).
Proof.
  intros H. apply re_search_json_pattern in H as (g & Hg & [-> | ->]);
    destruct g as [|c g]; try done; exists c, g; reflexivity.
Qed.

(* ================================================================== *)
(** ** The analyzers *)

Lemma new_events_same {A} (m : M A) w : (m w).2 = w -> new_events m w = [].
Proof. intros H. unfold new_events. rewrite H. by rewrite drop_all. Qed.

(** C6. When PIL cannot decode the image bytes ([Image.open] raises, or
    the conversion or the re-encoding of what it opened does),
    [analyze_image_with_gemini] returns the error record
    "Failed to process image data: ..." at once: the world is as before, so
    no call to [generate_content] was made. *)
Theorem corrupt_image_no_ai_call (E : Env) (data : bytes) (w : world) (e : exn) :
  prepared_jpeg E data = Raise e ->
  analyze_image_with_gemini E data w
  = (Ret (error_record (py "Failed to process image data: " ++ exn_str e)), w)
  /\ new_events (analyze_image_with_gemini E data) w = [].
Proof.
  intros H.
  assert (analyze_image_with_gemini E data w
          = (Ret (error_record (py "Failed to process image data: " ++ exn_str e)), w)) as Heq.
  { unfold analyze_image_with_gemini, prepared_jpeg in *. cbv zeta.
    rewrite run_try_except, run_bind, run_try_except, run_bind, run_lift.
    destruct (Image_open E data) as [image|e1]; [|by injection H as ->].
    cbv beta iota. rewrite run_bind.
    destruct (negb (pystr_eqb (image_mode E image) (py "RGB"))).
    - rewrite run_lift.
      destruct (image_convert_rgb E image) as [image'|e2]; [|by injection H as ->].
      cbv beta iota. by rewrite run_bind, run_lift, H.
    - rewrite run_mret. cbv beta iota. by rewrite run_bind, run_lift, H. }
  split; [done|]. apply new_events_same. by rewrite Heq.
Qed.

(** C6, on an instance: bytes PIL rejects. *)
Lemma corrupt_image_no_ai_call_witness :
  analyze_image_with_gemini
    (mock_env (answers []) [] unavailable unavailable false) [Byte.x00; Byte.xff] w0
  = (Ret (error_record (py "Failed to process image data: cannot identify image file")), w0)
  /\ new_events
       (analyze_image_with_gemini
          (mock_env (answers []) [] unavailable unavailable false) [Byte.x00; Byte.xff])
       w0 = [].
Proof.
  apply (corrupt_image_no_ai_call
           (mock_env (answers []) [] unavailable unavailable false)
           [Byte.x00; Byte.xff] w0
           (Exn OtherError (py "cannot identify image file"))).
  reflexivity.
Defined.

Lemma len_slice_to n s : (0 <= n)%Z -> (n < len s)%Z -> len (slice_to n s) = n.
Proof.
  intros Hn Hs. unfold len, slice_to in *. rewrite length_take. lia.
Qed.

Lemma analyze_text_sends (E : Env) (text : pystr) (w : world) :
  (100000 < len text)%Z ->
  exists evs,
    trace (analyze_text_with_gemini E text w).2
    = trace w ++ EvLog (WarnTruncatingText (len text) 100000)
        :: EvGenerate (ReqText (text_prompt_head ++ slice_to 100000 text ++ text_prompt_tail))
        :: evs
    /\ Forall is_log evs.
Proof.
  intros Hlen.
  pose proof (keeps_analyze_text E text w) as Hk.
  unfold analyze_text_with_gemini in *. cbv zeta in *.
  apply Z.ltb_lt in Hlen. rewrite Hlen in *.
Abort.






(* ================================================================== *)
(** ** The parse tiers *)

(** [json.loads] under [except json.JSONDecodeError]. *)
Lemma loads_guarded E js (v : json) w :
  try_except_of [JSONDecodeError] (lift (json_loads E js)) (fun _ => mret v) w
  = match json_loads E js with
    | Ret a => (Ret a, w)
    | Raise e => if bool_decide (exn_cls e = JSONDecodeError) then (Ret v, w)
                 else (Raise e, w)
    end.
Proof.
  rewrite run_try_except_of, run_lift. destruct (json_loads E js) as [a|e]; [done|].
  destruct (exn_cls e); reflexivity.
Qed.

(** The parse tiers in one equation: [json.loads] on the candidate, and
    the error record of the tier on a decode error. *)
Lemma parse_text_reply_run E s w :
  parse_text_reply E s w
  = match json_loads E (json_candidate s) with
    | Ret v => (Ret v, w)
    | Raise e =>
        if bool_decide (exn_cls e = JSONDecodeError)
        then (Ret (error_with_raw (text_parse_error s) s), w)
        else (Raise e, w)
    end.
Proof.
  unfold parse_text_reply, json_candidate, text_parse_error.
  destruct (re_search json_pattern s) as [m|] eqn:Hm.
  - destruct (matched_json_string s m Hm) as (c & g & ->). apply loads_guarded.
  - apply loads_guarded.
Qed.

Lemma parse_image_reply_run E s w :
  parse_image_reply E s w
  = match json_loads E (json_candidate s) with
    | Ret v => (Ret v, w)
    | Raise e =>
        if bool_decide (exn_cls e = JSONDecodeError)
        then (Ret (error_with_raw (image_parse_error s) (py "See logs for raw text")), w)
        else (Raise e, w)
    end.
Proof.
  unfold parse_image_reply, json_candidate, image_parse_error.
  destruct (re_search json_pattern s) as [m|] eqn:Hm.
  - destruct (matched_json_string s m Hm) as (c & g & ->). apply loads_guarded.
  - apply loads_guarded.
Qed.



(** The analyzers once the reply text is read. *)
Lemma analyze_text_reads_reply E text w response reply :
  generate_content E (ReqText (text_prompt (capped text))) = Ret response ->
  resp_text response = Ret reply ->
  exists w',
    analyze_text_with_gemini E text w
    = match parse_text_reply E (strip reply) w' with
      | (Ret v, w'') => (Ret v, w'')
      | (Raise e, w'') =>
          (Ret (error_record (py "Unexpected AI text processing error: " ++ exn_str e)), w'')
      end.
Proof.
  intros Hg Ht. unfold analyze_text_with_gemini, capped in *. cbv zeta.
  rewrite run_try_except, run_bind.
  destruct (100000 <? len text)%Z.
  - rewrite run_bind, run_log, run_mret. cbv beta iota.
    rewrite run_bind, run_generate, Hg.
    unfold text_response_result. rewrite run_bind, Ht. cbn [hasattr].
    rewrite run_mret. cbv beta iota. rewrite run_bind, run_lift.
    eexists. reflexivity.
  - rewrite run_mret. cbv beta iota.
    rewrite run_bind, run_generate, Hg.
    unfold text_response_result. rewrite run_bind, Ht. cbn [hasattr].
    rewrite run_mret. cbv beta iota. rewrite run_bind, run_lift.
    eexists. reflexivity.
Qed.

Lemma analyze_image_reads_reply E data w jpeg response cand rest reply :
  prepared_jpeg E data = Ret jpeg ->
  generate_content E (ReqParts (py "image/jpeg") jpeg image_prompt) = Ret response ->
  resp_candidates response = Ret (cand :: rest) ->
  cand_text cand = Ret reply ->
  exists w',
    analyze_image_with_gemini E data w
    = match parse_image_reply E (strip reply) w' with
      | (Ret v, w'') => (Ret v, w'')
      | (Raise e, w'') =>
          (Ret (error_record (py "Gemini API communication error: " ++ exn_str e)), w'')
      end.
Proof.
  intros Hp Hg Hc Ht. unfold analyze_image_with_gemini, prepared_jpeg in *. cbv zeta.
  rewrite run_try_except, run_bind, run_try_except, run_bind, run_lift.
  destruct (Image_open E data) as [image|e]; [|done]. cbv beta iota.
  rewrite run_bind.
  destruct (negb (pystr_eqb (image_mode E image) (py "RGB"))).
  - rewrite run_lift. destruct (image_convert_rgb E image) as [image'|e]; [|done].
    cbv beta iota. rewrite run_bind, run_lift, Hp, run_mret. cbv beta iota.
    rewrite run_try_except, run_bind, run_generate, Hg.
    unfold image_response_result. rewrite run_bind, run_lift, Hc. cbv beta iota.
    rewrite run_bind, run_try_except_of, run_bind, run_lift, Ht, run_mret.
    cbv beta iota.
    match goal with |- context [parse_image_reply E (strip reply) ?w1] =>
      exists w1; destruct (parse_image_reply E (strip reply) w1) as [[v|e] w2]
    end; reflexivity.
  - rewrite run_mret. cbv beta iota. rewrite run_bind, run_lift, Hp, run_mret.
    cbv beta iota.
    rewrite run_try_except, run_bind, run_generate, Hg.
    unfold image_response_result. rewrite run_bind, run_lift, Hc. cbv beta iota.
    rewrite run_bind, run_try_except_of, run_bind, run_lift, Ht, run_mret.
    cbv beta iota.
    match goal with |- context [parse_image_reply E (strip reply) ?w1] =>
      exists w1; destruct (parse_image_reply E (strip reply) w1) as [[v|e] w2]
    end; reflexivity.
Qed.

(** C1, as the code has it.  Neither analyzer ever raises.  Once the reply
    text is read, [analyze_text_with_gemini] returns a value [json.loads]
    gave (any JSON value) or an error record; when every parse tier failed
    the record holds the stripped reply as its raw text, and for a reply
    in which the pattern finds nothing it is
    [{error: "No valid JSON found in AI response", raw_text: reply}].
    The error records of [analyze_image_with_gemini] hold the fixed string
    "See logs for raw text" instead of the reply. *)
Theorem analyzers_never_raise (E : Env) :
  (forall text w, exists v, (analyze_text_with_gemini E text w).1 = Ret v)
  /\ (forall data w, exists v, (analyze_image_with_gemini E data w).1 = Ret v)
  /\ (forall text w response reply,
         generate_content E (ReqText (text_prompt (capped text))) = Ret response ->
         resp_text response = Ret reply ->
         exists v,
           (analyze_text_with_gemini E text w).1 = Ret v
           /\ text_outcome E (strip reply) v
           /\ (re_search json_pattern (strip reply) = None ->
               decode_error (json_loads E (strip reply)) ->
               v = error_with_raw (py "No valid JSON found in AI response")
                     (strip reply)))
  /\ (forall data w jpeg response cand rest reply,
         prepared_jpeg E data = Ret jpeg ->
         generate_content E (ReqParts (py "image/jpeg") jpeg image_prompt)
         = Ret response ->
         resp_candidates response = Ret (cand :: rest) ->
         cand_text cand = Ret reply ->
         exists v,
           (analyze_image_with_gemini E data w).1 = Ret v
           /\ image_outcome E (strip reply) v).
Proof.
  split; [apply returns_analyze_text|].
  split; [apply returns_analyze_image|].
  split.
  - intros text w response reply Hg Ht.
    destruct (analyze_text_reads_reply E text w response reply Hg Ht) as (w' & ->).
    rewrite parse_text_reply_run. unfold text_outcome, unparsable, decode_error.
    destruct (json_loads E (json_candidate (strip reply))) as [v|e] eqn:Hj.
    + exists v. split; [done|]. split; [by left|].
      intros Hn (e & He & _). unfold json_candidate in Hj. rewrite Hn in Hj. congruence.
    + case_bool_decide as Hc.
      * eexists. split; [done|]. split; [right; left; eauto|].
        intros Hn _. unfold text_parse_error. by rewrite Hn.
      * eexists. split; [done|]. split; [right; right; eauto|].
        intros Hn (e' & He & Hc'). unfold json_candidate in Hj. rewrite Hn in Hj.
        congruence.
  - intros data w jpeg response cand rest reply Hp Hg Hc Ht.
    destruct (analyze_image_reads_reply E data w jpeg response cand rest reply Hp Hg Hc Ht)
      as (w' & ->).
    rewrite parse_image_reply_run. unfold image_outcome, unparsable, decode_error.
    destruct (json_loads E (json_candidate (strip reply))) as [v|e] eqn:Hj.
    + exists v. split; [done|]. by left.
    + case_bool_decide as Hcl.
      * eexists. split; [done|]. right; left; eauto.
      * eexists. split; [done|]. right; right; eauto.
Qed.

(** C1, on an instance: the reply "Sorry, I cannot help." to the text
    analyzer. *)
Lemma analyzers_never_raise_witness :
  exists v,
    (analyze_text_with_gemini
       (mock_env (answers (py "Sorry, I cannot help.")) [] unavailable unavailable true)
       (py "Patient has mild hypertension.") w0).1 = Ret v
    /\ v = error_with_raw (py "No valid JSON found in AI response")
             (py "Sorry, I cannot help.").
Proof.
  destruct (analyzers_never_raise
              (mock_env (answers (py "Sorry, I cannot help.")) [] unavailable unavailable true))
    as (_ & _ & H & _).
  destruct (H (py "Patient has mild hypertension.") w0
              (text_reply (py "Sorry, I cannot help.")) (py "Sorry, I cannot help.")
              eq_refl eq_refl) as (v & Hv & _ & Hs).
  exists v. split; [exact Hv|].
  apply Hs; [vm_compute; reflexivity|].
  eexists. split; vm_compute; reflexivity.
Defined.

(** C1 does not hold of [analyze_image_with_gemini]: for the reply
    "Sorry, I cannot help." its error record holds "See logs for raw text"
    where the reply should be. *)
Lemma image_error_record_drops_reply :
  (analyze_image_with_gemini
     (mock_env (answers (py "Sorry, I cannot help.")) [] unavailable unavailable true)
     [] w0).1
  = Ret (JDict [(py "error", JStr (py "No valid JSON found in AI image response"));
                (py "raw_text", JStr (py "See logs for raw text"))])
  /\ py "See logs for raw text" <> py "Sorry, I cannot help.".
Proof. split; [vm_compute; reflexivity | discriminate]. Qed.

(* ================================================================== *)
(** ** The routes, step by step *)

Arguments cleared : simpl never.
Arguments stored : simpl never.

Lemma analyze_report_missing E fp fn w :
  match fp with
  | Some ((_ :: _) as p) => path_exists E p = false
  | _ => True
  end ->
  analyze_report E fp fn w
  = (Ret (Http (error_record (py "File not found on server")) 400), w).
Proof.
  destruct fp as [[|c p]|]; try done. intros H. unfold analyze_report. by rewrite H.
Qed.

Lemma analyze_report_text E p fn w :
  p <> [] -> path_exists E p = true -> path_suffix_lower E p ∉ image_exts ->
  analyze_report E (Some p) fn w
  = match extract_text E p (cleared w) with
    | (Raise e, w1) => (Raise e, w1)
    | (Ret t, w1) =>
        if negb (truthy t) || negb (truthy (strip t)) then
          (Ret (Http (error_record
                        (py "No readable text could be extracted from the document."))
                  400), w1)
        else
          match analyze_text_with_gemini E t (stored t (request_filename E p fn) w1) with
          | (Ret v, w2) => analysis_response v w2
          | (Raise e, w2) => (Raise e, w2)
          end
    end.
Proof.
  intros Hp He Hi. destruct p as [|c p]; [done|]. unfold analyze_report.
  rewrite He. cbn [negb]. cbv zeta. rewrite bool_decide_eq_false_2 by done.
  unfold bind, session_pop, session_set, cleared, stored, request_filename.
  cbn [fst snd session trace].
  destruct (extract_text E (c :: p) _) as [[t|e] w1]; [|done].
  destruct (negb (truthy t) || negb (truthy (strip t))); [done|].
  cbn [fst snd session trace].
  destruct (analyze_text_with_gemini E t _) as [[v|e] w2]; done.
Qed.

Lemma trace_cleared w :
  trace (cleared w) = trace w ++ [EvSessionPop k_text; EvSessionPop k_filename].
Proof. unfold cleared. cbn [trace]. by rewrite <- app_assoc. Qed.

Lemma trace_stored t fn w :
  trace (stored t fn w) = trace w ++ [EvSessionSet k_text t; EvSessionSet k_filename fn].
Proof. unfold stored. cbn [trace]. by rewrite <- app_assoc. Qed.

Lemma analyze_report_image E p fn w :
  p <> [] -> path_exists E p = true -> path_suffix_lower E p ∈ image_exts ->
  analyze_report E (Some p) fn w
  = match read_binary E p with
    | Raise e =>
        (Ret (Http (error_record (py "Image analysis failed: " ++ exn_str e)) 500),
         cleared w)
    | Ret image_data =>
        match analyze_image_with_gemini E image_data (cleared w) with
        | (Ret v, w1) => analysis_response v w1
        | (Raise e, w1) =>
            (Ret (Http (error_record (py "Image analysis failed: " ++ exn_str e)) 500),
             w1)
        end
    end.
Proof.
  intros Hp He Hi. destruct p as [|c p]; [done|]. unfold analyze_report.
  rewrite He. cbn [negb]. cbv zeta. rewrite bool_decide_eq_true_2 by done.
  unfold bind, try_except, session_pop, cleared, lift.
  cbn [fst snd session trace].
  destruct (read_binary E (c :: p)) as [data|e]; [|done].
  destruct (analyze_image_with_gemini E data _) as [[v|e] w1]; done.
Qed.

Lemma keeps_analysis_response v : keeps is_log (analysis_response v).
Proof. unfold analysis_response. repeat keeps_step. Qed.




Lemma truthy_cons (s : pystr) : s <> [] -> truthy s = true.
Proof. by destruct s. Qed.




(* ================================================================== *)
(** ** The session document context *)

Arguments capped : simpl never.
Arguments chat_context : simpl never.

(** Every run of [analyze_text_with_gemini] makes exactly one call. *)
Lemma analyze_text_world (E : Env) (text : pystr) (w : world) :
  exists logs,
    trace (analyze_text_with_gemini E text w).2
    = trace w ++ logs ++ [EvGenerate (ReqText (text_prompt (capped text)))]
    /\ Forall is_log logs.
Proof.
  unfold analyze_text_with_gemini, capped. cbv zeta.
  rewrite run_try_except, run_bind.
  destruct (100000 <? len text)%Z.
  - rewrite run_bind, run_log, run_mret. cbv beta iota.
    rewrite run_bind, run_generate. cbn [session trace].
    exists [EvLog (WarnTruncatingText (len text) 100000)].
    split; [|by repeat constructor].
    destruct (generate_content E _) as [response|e];
      [|cbn [snd trace]; by rewrite <- app_assoc].
    match goal with |- context [text_response_result E response ?w1] =>
      pose proof (silent_world (text_response_result E response) w1
                    (silent_text_response_result E response)) as Hw;
      destruct (text_response_result E response w1) as [[v|e] w2]
    end; simpl in *; subst; cbn [trace]; by rewrite <- app_assoc.
  - rewrite run_mret. cbv beta iota.
    rewrite run_bind, run_generate. cbn [session trace].
    exists []. split; [|by constructor].
    destruct (generate_content E _) as [response|e]; [|done].
    match goal with |- context [text_response_result E response ?w1] =>
      pose proof (silent_world (text_response_result E response) w1
                    (silent_text_response_result E response)) as Hw;
      destruct (text_response_result E response w1) as [[v|e] w2]
    end; simpl in *; by subst.
Qed.

(** With a document in the session, the one call [chat_api] makes carries
    the file name, the document text and the message. *)
Lemma chat_with_document (E : Env) (message text filename : pystr) (w : world) :
  message <> [] -> filename <> [] -> text <> [] ->
  session w !! k_text = Some text ->
  session w !! k_filename = Some filename ->
  exists logs,
    new_events (chat_api E (Some message)) w
    = logs ++ [EvGenerate (ReqText (chat_prompt filename (chat_context text) message))]
    /\ Forall is_log logs.
Proof.
  intros Hm Hf Hx Ht Hn. unfold new_events, chat_api, chat_context.
  destruct message as [|c message]; [done|].
  destruct filename as [|c' filename]; [done|].
  destruct text as [|c2 d2]; [done|].
  cbv zeta. rewrite run_bind, run_session_get, Ht.
  rewrite run_bind, run_session_get, Hn.
  generalize (len (c2 :: d2)) (slice_to 50000 (c2 :: d2)). intros n cut.
  rewrite run_try_except, run_bind.
  destruct (50000 <? n)%Z.
  - rewrite !run_bind, run_log, !run_mret. cbv beta iota.
    rewrite run_bind, run_generate. cbn [session trace].
    exists [EvLog (WarnTruncatingChat n 50000)].
    split; [|by repeat constructor].
    destruct (generate_content E _) as [response|e].
    + match goal with |- context [chat_response_result response ?w1] =>
        pose proof (silent_world (chat_response_result response) w1
                      (silent_chat_response_result response)) as Hw;
        destruct (chat_response_result response w1) as [[v|e] w2]
      end; simpl in *; subst; cbn [trace].
      all: rewrite <- (app_assoc (trace w)). 
      all: by rewrite drop_app_length.
    + rewrite run_mret. cbn [snd trace].
      by rewrite <- (app_assoc (trace w)), drop_app_length.
  - rewrite !run_bind, !run_mret. cbv beta iota.
    rewrite run_bind, run_generate. cbn [session trace].
    exists []. split; [|by constructor].
    destruct (generate_content E _) as [response|e].
    + match goal with |- context [chat_response_result response ?w1] =>
        pose proof (silent_world (chat_response_result response) w1
                      (silent_chat_response_result response)) as Hw;
        destruct (chat_response_result response w1) as [[v|e] w2]
      end; simpl in *; subst; cbn [trace]; by rewrite drop_app_length.
    + rewrite run_mret. cbn [snd trace]. by rewrite drop_app_length.
Qed.

(** The world after an analysis that got to the extracted text [t]. *)
Lemma analyze_report_text_world E p fn w t :
  p <> [] -> path_exists E p = true -> path_suffix_lower E p ∉ image_exts ->
  (extract_text E p w).1 = Ret t -> t <> [] ->
  exists logs rest,
    session (analyze_report E (Some p) fn w).2
    = <[k_filename := request_filename E p fn]>
        (<[k_text := t]> (delete k_filename (delete k_text (session w))))
    /\ trace (analyze_report E (Some p) fn w).2
       = trace w ++ [EvSessionPop k_text; EvSessionPop k_filename] ++ logs
           ++ [EvSessionSet k_text t; EvSessionSet k_filename (request_filename E p fn)]
           ++ rest
    /\ Forall is_log logs /\ Forall quiet rest
    /\ EvGenerate (ReqText (text_prompt (capped t))) ∈ rest.
Proof.
  intros Hp He Hi Ht Hne. rewrite analyze_report_text by done.
  pose proof (same_result_extract_text E p (cleared w) w) as Hs. rewrite Ht in Hs.
  pose proof (extract_text_stripped E p w t Ht) as Hst.
  destruct (keeps_extract_text E p (cleared w)) as [Hs1 (logs & Ht1 & Hl1)].
  destruct (extract_text E p (cleared w)) as [o w1]. simpl in Hs, Hs1, Ht1. subst o.
  rewrite Hst, (truthy_cons t Hne). cbn [negb orb].
  set (fn' := request_filename E p fn).
  destruct (analyze_text_world E t (stored t fn' w1)) as (l2 & Ht2 & Hl2).
  destruct (keeps_analyze_text E t (stored t fn' w1)) as [Hs2 _].
  destruct (analyze_text_with_gemini E t (stored t fn' w1)) as [[v|e] w2];
    simpl in Hs2, Ht2.
  - destruct (keeps_analysis_response v w2) as [Hs3 (l3 & Ht3 & Hl3)].
    exists logs, (l2 ++ [EvGenerate (ReqText (text_prompt (capped t)))] ++ l3).
    split; [by rewrite Hs3, Hs2, Hs1|].
    split.
    { rewrite Ht3, Ht2, Ht1. rewrite <- !app_assoc. reflexivity. }
    split; [done|]. split.
    { apply Forall_app. split; [by eapply Forall_impl; [|apply is_log_quiet]|].
      constructor; [exact I|]. by eapply Forall_impl; [|apply is_log_quiet]. }
    set_solver.
  - exists logs, (l2 ++ [EvGenerate (ReqText (text_prompt (capped t)))]).
    split; [by cbn [snd]; rewrite Hs2, Hs1|].
    split.
    { cbn [snd]. rewrite Ht2, Ht1. rewrite <- !app_assoc. reflexivity. }
    split; [done|]. split.
    { apply Forall_app. split; [by eapply Forall_impl; [|apply is_log_quiet]|].
      by repeat constructor. }
    set_solver.
Qed.



(* ================================================================== *)
(** ** Every request, and the reachable sessions *)

Lemma quiet_no_set e : quiet e -> no_set e.
Proof. by destruct e. Qed.

Lemma is_log_no_set e : is_log e -> no_set e.
Proof. by destruct e. Qed.

Lemma keeps_session_get {P} k : keeps P (session_get k).
Proof. intros w. apply grows_refl. Qed.

Lemma keeps_chat_api E message : keeps quiet (chat_api E message).
Proof.
  unfold chat_api.
  repeat first [apply keeps_generate | apply keeps_session_get
               | apply silent_keeps, silent_chat_response_result | keeps_step].
Qed.

(** What an upload does to the world: nothing, or the save and the two
    pops. *)
Lemma upload_file_world E file w :
  (upload_file E file w).2 = w
  \/ (exists name content,
         file = Some (name, content) /\ name <> []
         /\ file_save E (upload_path E name) content = Ret tt
         /\ (upload_file E file w).2
            = World (delete k_filename (delete k_text (session w)))
                (trace w ++ [EvSave (upload_path E name);
                             EvSessionPop k_text; EvSessionPop k_filename])).
Proof.
  unfold upload_file. destruct file as [[name content]|]; [|by left].
  destruct name as [|c name]; [by left|].
  rewrite pystr_eqb_neq by done. cbv zeta.
  rewrite run_try_except, run_bind, run_lift.
  destruct (file_save E _ content) as [[]|e] eqn:Hsave; [|by left].
  right. exists (c :: name), content. repeat (split; [done|]).
  unfold bind, emit, session_pop. cbn [fst snd session trace].
  by rewrite <- !app_assoc.
Qed.

(** What an analysis of an image does to the world. *)
Lemma analyze_report_image_world E p fn w :
  p <> [] -> path_exists E p = true -> path_suffix_lower E p ∈ image_exts ->
  exists rest,
    session (analyze_report E (Some p) fn w).2
    = delete k_filename (delete k_text (session w))
    /\ trace (analyze_report E (Some p) fn w).2
       = trace w ++ [EvSessionPop k_text; EvSessionPop k_filename] ++ rest
    /\ Forall quiet rest.
Proof.
  intros Hp He Hi. rewrite analyze_report_image by done.
  destruct (read_binary E p) as [data|e].
  - destruct (keeps_analyze_image E data (cleared w)) as [Hs1 (l1 & Ht1 & Hl1)].
    destruct (analyze_image_with_gemini E data (cleared w)) as [[v|e] w1];
      simpl in Hs1, Ht1.
    + destruct (keeps_analysis_response v w1) as [Hs2 (l2 & Ht2 & Hl2)].
      exists (l1 ++ l2). split; [by rewrite Hs2, Hs1|]. split.
      * rewrite Ht2, Ht1. by rewrite <- !app_assoc.
      * apply Forall_app. split; [done|]. by eapply Forall_impl; [|apply is_log_quiet].
    + exists l1. split; [done|]. split; [|done].
      cbn [snd]. rewrite Ht1. by rewrite <- !app_assoc.
  - exists []. split; [done|]. split; [|done]. cbn [snd]. by rewrite trace_cleared.
Qed.

(** What an analysis does when no text comes out of the document. *)
Lemma analyze_report_empty_world E p fn w :
  p <> [] -> path_exists E p = true -> path_suffix_lower E p ∉ image_exts ->
  (extract_text E p w).1 = Ret [] ->
  exists logs,
    session (analyze_report E (Some p) fn w).2
    = delete k_filename (delete k_text (session w))
    /\ trace (analyze_report E (Some p) fn w).2
       = trace w ++ [EvSessionPop k_text; EvSessionPop k_filename] ++ logs
    /\ Forall is_log logs.
Proof.
  intros Hp He Hi Ht. rewrite analyze_report_text by done.
  pose proof (same_result_extract_text E p (cleared w) w) as Hs. rewrite Ht in Hs.
  destruct (keeps_extract_text E p (cleared w)) as [Hs1 (logs & Ht1 & Hl1)].
  destruct (extract_text E p (cleared w)) as [o w1]. simpl in Hs, Hs1, Ht1. subst o.
  cbn [truthy negb orb snd]. exists logs. split; [done|]. split; [|done].
  rewrite Ht1. by rewrite <- !app_assoc.
Qed.

(** The three things a request can do to the session: leave it, clear the
    document context, or replace the context with the text extracted from
    a document that is not an image.  With it, the new events. *)
Lemma handle_world E c w :
  (session (handle E c w).2 = session w
   /\ exists evs, trace (handle E c w).2 = trace w ++ evs /\ Forall no_set evs)
  \/ (session (handle E c w).2 = delete k_filename (delete k_text (session w))
      /\ exists evs, trace (handle E c w).2 = trace w ++ evs /\ Forall no_set evs)
  \/ (exists p fn t logs rest,
         c = CallAnalyze (Some p) fn
         /\ (path_suffix_lower E p ∉ image_exts)
         /\ (extract_text E p w).1 = Ret t /\ t <> []
         /\ session (handle E c w).2
            = <[k_filename := request_filename E p fn]>
                (<[k_text := t]> (delete k_filename (delete k_text (session w))))
         /\ trace (handle E c w).2
            = trace w ++ [EvSessionPop k_text; EvSessionPop k_filename] ++ logs
                ++ [EvSessionSet k_text t;
                    EvSessionSet k_filename (request_filename E p fn)] ++ rest
         /\ Forall is_log logs /\ Forall quiet rest).
Proof.
  destruct c as [file | fp fn | message]; cbn [handle].
  - destruct (upload_file_world E file w) as [-> | (name & content & _ & _ & _ & ->)].
    + left. split; [done|]. exists []. by rewrite app_nil_r.
    + right; left. split; [done|]. eexists. split; [done|]. by repeat constructor.
  - assert (analyze_report E fp fn w
            = (Ret (Http (error_record (py "File not found on server")) 400), w)
            \/ exists p, fp = Some p /\ p <> [] /\ path_exists E p = true)
      as [-> | (p & -> & Hp & He)].
    { destruct fp as [[|c p]|]; try (left; by apply analyze_report_missing).
      destruct (path_exists E (c :: p)) eqn:He.
      - right. by exists (c :: p).
      - left. by apply analyze_report_missing. }
    + left. split; [done|]. exists []. by rewrite app_nil_r.
    + destruct (decide (path_suffix_lower E p ∈ image_exts)) as [Hi|Hi].
      * right; left.
        destruct (analyze_report_image_world E p fn w Hp He Hi) as (rest & Hs & Ht & Hq).
        split; [done|]. eexists. split; [exact Ht|].
        repeat constructor. by eapply Forall_impl; [|apply quiet_no_set].
      * destruct (returns_extract_text E p w) as [t Ht].
        destruct t as [|c t].
        -- right; left.
           destruct (analyze_report_empty_world E p fn w Hp He Hi Ht) as (logs & Hs & Htr & Hl).
           split; [done|]. eexists. split; [exact Htr|].
           repeat constructor. by eapply Forall_impl; [|apply is_log_no_set].
        -- right; right.
           destruct (analyze_report_text_world E p fn w (c :: t) Hp He Hi Ht)
             as (logs & rest & Hs & Htr & Hl & Hq & _); [done|].
           exists p, fn, (c :: t), logs, rest. done.
  - left. destruct (keeps_chat_api E message w) as [Hs (evs & Ht & Hq)].
    split; [done|]. exists evs. split; [done|].
    by eapply Forall_impl; [|apply quiet_no_set].
Qed.

Lemma new_events_app {A} (m : M A) w evs :
  trace (m w).2 = trace w ++ evs -> new_events m w = evs.
Proof. intros H. unfold new_events. by rewrite H, drop_app_length. Qed.

Lemma no_set_not_in evs k v : Forall no_set evs -> EvSessionSet k v ∉ evs.
Proof. intros H Hin. by apply (proj1 (Forall_forall _ _) H) in Hin. Qed.

(** C7. A request stores something in the session only when it is an
    analysis of a document that is not an image and the extracted text is
    not empty, and what it stores is that text and the file name; an
    analysis of an image stores nothing.  Hence in every reachable world a
    document text in the session is not empty, and it is the text that
    [extract_text] gave for the document of one of the analyses that led
    there, a document that is not an image; the file name in the session
    is the one of that analysis. *)
Theorem context_only_from_extracted_text :
  (forall E c w k v,
      EvSessionSet k v ∈ new_events (handle E c) w ->
      exists p fn t,
        c = CallAnalyze (Some p) fn
        /\ (path_suffix_lower E p ∉ image_exts)
        /\ (extract_text E p w).1 = Ret t /\ t <> []
        /\ (k = k_text /\ v = t \/ k = k_filename /\ v = request_filename E p fn))
  /\ (forall E p fn w k v,
        path_suffix_lower E p ∈ image_exts ->
        EvSessionSet k v ∉ new_events (analyze_report E (Some p) fn) w)
  /\ (forall h w, reachable h w ->
        forall t, session w !! k_text = Some t ->
                  t <> [] /\ exists r, r ∈ h /\ context_from (session w) t r).
Proof.
  assert (forall E c w k v,
             EvSessionSet k v ∈ new_events (handle E c) w ->
             exists p fn t,
               c = CallAnalyze (Some p) fn
               /\ (path_suffix_lower E p ∉ image_exts)
               /\ (extract_text E p w).1 = Ret t /\ t <> []
               /\ (k = k_text /\ v = t \/ k = k_filename /\ v = request_filename E p fn))
    as Hset.
  { intros E c w k v Hin.
    destruct (handle_world E c w)
      as [(_ & evs & Ht & Hn) | [(_ & evs & Ht & Hn)
          | (p & fn & t & logs & rest & -> & Hi & Hx & Hne & _ & Ht & Hl & Hq)]].
    + rewrite (new_events_app _ _ _ Ht) in Hin. by apply no_set_not_in in Hin.
    + rewrite (new_events_app _ _ _ Ht) in Hin. by apply no_set_not_in in Hin.
    + rewrite (new_events_app _ _ _ Ht) in Hin.
      exists p, fn, t. repeat (split; [done|]).
      apply elem_of_app in Hin as [Hin|Hin]; [set_solver|].
      apply elem_of_app in Hin as [Hin|Hin].
      { apply (proj1 (Forall_forall _ _) Hl) in Hin. done. }
      apply elem_of_app in Hin as [Hin|Hin].
      { set_solver. }
      apply (proj1 (Forall_forall _ _) Hq) in Hin. done. }
  split; [exact Hset|]. split.
  - intros E p fn w k v Hi Hin.
    destruct (Hset E (CallAnalyze (Some p) fn) w k v Hin)
      as (p' & fn' & t & [= <- <-] & Hni & _). done.
  - intros h w Hr. induction Hr as [|h E c w Hr IH]; intros t Hlook.
    + cbn [session] in Hlook. by rewrite lookup_empty in Hlook.
    + destruct (handle_world E c w)
        as [(Hs & _) | [(Hs & _)
            | (p & fn & t' & logs & rest & -> & Hi & Hx & Hne & Hs & _)]].
      * rewrite Hs in Hlook. destruct (IH t Hlook) as (Hne & r & Hin & Hc).
        split; [done|]. exists r. split; [set_solver|]. by rewrite Hs.
      * rewrite Hs in Hlook. rewrite lookup_delete_ne in Hlook by done.
        by rewrite lookup_delete_eq in Hlook.
      * rewrite Hs in Hlook. rewrite lookup_insert_ne in Hlook by done.
        rewrite lookup_insert_eq in Hlook. injection Hlook as <-.
        split; [done|]. exists (E, CallAnalyze (Some p) fn). split; [set_solver|].
        exists p, fn. cbn [fst snd]. split; [done|]. split; [done|]. split.
        -- intros w1. by rewrite (same_result_extract_text E p w1 w).
        -- rewrite Hs. apply lookup_insert_eq.
Qed.

(** C7, on an instance: the world after the analysis of a PDF report
    holds the report text, and it comes from that analysis. *)
Lemma context_only_from_extracted_text_witness :
  let E := mock_env (answers (py "{}")) [py "uploads/report.pdf"]
             (Ret [py "Patient has mild hypertension."]) unavailable true in
  let c := CallAnalyze (Some (py "uploads/report.pdf")) None in
  py "Patient has mild hypertension." <> []
  /\ exists r, r ∈ [(E, c)]
               /\ context_from (session (handle E c w0).2)
                    (py "Patient has mild hypertension.") r.
Proof.
  cbv zeta.
  apply (proj2 (proj2 context_only_from_extracted_text)
           [(mock_env (answers (py "{}")) [py "uploads/report.pdf"]
               (Ret [py "Patient has mild hypertension."]) unavailable true,
             CallAnalyze (Some (py "uploads/report.pdf")) None)]
           (handle
              (mock_env (answers (py "{}")) [py "uploads/report.pdf"]
                 (Ret [py "Patient has mild hypertension."]) unavailable true)
              (CallAnalyze (Some (py "uploads/report.pdf")) None) w0).2).
  - apply (reach_call [] _ _ w0 reach_start).
  - vm_compute. reflexivity.
Defined.




(* ================================================================== *)
(** ** Fenced and unfenced replies *)

(** *** Where C2 holds: objects with a single closing brace *)

Lemma star_lazy_to_brace k body rest :
  (125 ∉ body) ->
  star_lazy CAny (fun s' => if is_prefix [125] s' then k s' else None) (body ++ rest)
  = star_lazy CAny (fun s' => if is_prefix [125] s' then k s' else None) rest.
Proof.
  induction body as [|c body IH]; intros Hn; [done|].
  cbn [app star_lazy is_prefix cmatch].
  assert ((125 =? c) = false) as -> by (apply N.eqb_neq; set_solver).
  cbn [andb]. apply IH. set_solver.
Qed.

Lemma braces_flat body rest c k m :
  (125 ∉ body) -> k rest c = Some m ->
  rmatch braces (123 :: body ++ 125 :: rest) c k = Some m.
Proof.
  intros Hn Hk. unfold braces. rewrite rmatch_seq, rmatch_lit.
  change (is_prefix (py "{") (123 :: body ++ 125 :: rest)) with true.
  cbn [py length drop]. change (py "}") with [125].
  cbn [rmatch]. rewrite (star_lazy_to_brace _ body (125 :: rest) Hn).
  cbn [star_lazy is_prefix]. rewrite N.eqb_refl. cbn [andb length drop].
  by rewrite drop_0, Hk.
Qed.

Lemma strip_id s : no_lead s -> no_lead (rev s) -> strip s = s.
Proof.
  intros H1 H2. unfold strip, rstrip. rewrite (lstrip_id s H1), (lstrip_id _ H2).
  apply rev_involutive.
Qed.

Lemma flat_object_strip j : flat_object j -> strip j = j.
Proof.
  intros (body & -> & _). apply strip_id; [done|].
  change (123 :: body ++ [125]) with ([123] ++ body ++ [125]).
  rewrite !rev_app_distr. done.
Qed.

Lemma fenced_strip j : strip (fenced j) = fenced j.
Proof.
  apply strip_id; [done|]. unfold fenced. rewrite !rev_app_distr. done.
Qed.

Lemma take_app_length' {A} (l k : list A) n : n = length l -> take n (l ++ k) = l.
Proof. intros ->. apply take_app_length. Qed.

Lemma re_search_unfold r s :
  re_search r s
  = match rmatch r s ∅ (fun _ c => Some c) with
    | Some m => Some m
    | None => match s with [] => None | _ :: s' => re_search r s' end
    end.
Proof. by destruct s. Qed.

(** Alone, a flat object is what the second alternative captures. *)
Lemma json_candidate_flat j : flat_object j -> json_candidate j = j.
Proof.
  intros (body & -> & Hn). unfold json_candidate.
  assert (re_search json_pattern (123 :: body ++ [125])
          = Some (<[2%nat := 123 :: body ++ [125]]> ∅)) as ->; [|done].
  rewrite re_search_unfold.
  unfold json_pattern. rewrite rmatch_alt, rmatch_seq, rmatch_lit.
  change (is_prefix (py "```json") (123 :: _)) with false. cbv iota.
  cbn [rmatch].
  rewrite (braces_flat body [] ∅ _ (<[2%nat := 123 :: body ++ [125]]> ∅) Hn);
    [done|].
  cbn [length]. rewrite Nat.sub_0_r. by rewrite take_ge by (cbn [length]; lia).
Qed.

Lemma is_prefix_app p s : is_prefix p (p ++ s) = true.
Proof. induction p as [|c p IH]; [done|]. cbn [app is_prefix]. by rewrite N.eqb_refl. Qed.

Lemma rmatch_lit_app l s c k : rmatch (RLit l) (l ++ s) c k = k s c.
Proof. by rewrite rmatch_lit, is_prefix_app, drop_app_length. Qed.

Lemma fenced_shape j : fenced j = py "```json" ++ 10 :: j ++ 10 :: py "```".
Proof. reflexivity. Qed.

Lemma braces_flat' body rest c k m :
  (125 ∉ body) -> k rest c = Some m ->
  rmatch braces ((123 :: body ++ [125]) ++ rest) c k = Some m.
Proof.
  intros. cbn [app]. rewrite <- app_assoc. by apply braces_flat.
Qed.

(** In a fence, it is what the first alternative captures. *)
Lemma json_candidate_fenced_flat j : flat_object j -> json_candidate (fenced j) = j.
Proof.
  intros (body & -> & Hn). unfold json_candidate.
  assert (re_search json_pattern (fenced (123 :: body ++ [125]))
          = Some (<[1%nat := 123 :: body ++ [125]]> ∅)) as ->; [|done].
  rewrite fenced_shape, re_search_unfold.
  unfold json_pattern. rewrite rmatch_alt, rmatch_seq, rmatch_lit_app.
  rewrite rmatch_seq, rmatch_star.
  cbn [star_greedy cmatch app]. change (isspace 10) with true. change (isspace 123) with false.
  cbv iota. rewrite rmatch_seq. cbn [rmatch].
  rewrite (braces_flat' body (10 :: py "```") ∅ _ (<[1%nat := 123 :: body ++ [125]]> ∅) Hn);
    [done|].
  cbn [star_greedy cmatch]. change (isspace 10) with true.
  change (py "```") with [96; 96; 96].
  cbn [star_greedy cmatch]. change (isspace 96) with false. cbv iota.
  change (is_prefix [96; 96; 96] [96; 96; 96]) with true. cbv iota.
  f_equal. f_equal.
  apply (take_app_length' (123 :: body ++ [125]) [10; 96; 96; 96]).
  cbn [length]. rewrite !length_app. cbn [length]. lia.
Qed.

(** For a flat object the two replies are decoded alike: whatever
    [json.loads] gives for the object comes out of the parse tiers of
    both analyzers, fence or no fence. *)
Lemma fenced_flat_json_same (E : Env) (j : pystr) (w : world) (v : json) :
  flat_object j -> json_loads E j = Ret v ->
  parse_text_reply E (strip (fenced j)) w = (Ret v, w)
  /\ parse_text_reply E (strip j) w = (Ret v, w)
  /\ parse_image_reply E (strip (fenced j)) w = (Ret v, w)
  /\ parse_image_reply E (strip j) w = (Ret v, w).
Proof.
  intros Hf Hj. rewrite fenced_strip, (flat_object_strip j Hf).
  rewrite !parse_text_reply_run, !parse_image_reply_run.
  rewrite (json_candidate_flat j Hf), (json_candidate_fenced_flat j Hf), Hj. done.
Qed.

(** C2 fails on the code.  For the JSON object [nested_json], which has an
    object inside, the fenced reply is parsed to the object, by both
    analyzers; the unfenced reply, the same object, is not: the lazy
    [\{.*?\}] stops at the first closing brace, [json.loads] rejects the
    cut text, and the analyzers return an error record. *)
Theorem fenced_nested_json_differs :
  let parsed :=
    JDict [(py "summary", JStr (py "stable"));
           (py "vitals", JDict [(py "bp", JStr (py "120/80"))])] in
  let E := fun reply => mock_env (answers reply) [] unavailable unavailable true in
  py_json_loads nested_json = Ret parsed
  /\ (analyze_text_with_gemini (E (fenced nested_json)) (py "report") w0).1 = Ret parsed
  /\ (analyze_text_with_gemini (E nested_json) (py "report") w0).1
     = Ret (error_with_raw (py "AI response could not be parsed as JSON") nested_json)
  /\ (analyze_image_with_gemini (E (fenced nested_json)) [] w0).1 = Ret parsed
  /\ (analyze_image_with_gemini (E nested_json) [] w0).1
     = Ret (error_with_raw (py "AI image response contained invalid JSON structure")
              (py "See logs for raw text"))
  /\ group2_or_group1 <$> re_search json_pattern nested_json
     = Some (Some (py ("{" +:+ dq +:+ "summary" +:+ dq +:+ ": " +:+ dq +:+ "stable"
                       +:+ dq +:+ ", " +:+ dq +:+ "vitals" +:+ dq +:+ ": {" +:+ dq
                       +:+ "bp" +:+ dq +:+ ": " +:+ dq +:+ "120/80" +:+ dq +:+ "}"))).
Proof. cbv zeta. repeat split; vm_compute; reflexivity. Qed.

(* ================================================================== *)
(** * Beyond the specification: what else the code shows *)

(** ** Optical character recognition *)

Lemma preprocess_image_run (E : Env) (image : cv_image E) (w : world) :
  preprocess_image E image w
  = (Ret match threshold_chain E image with
         | Ret thresh => Some thresh
         | Raise _ =>
             match cv2_cvtColor_gray E image with
             | Ret gray => Some gray
             | Raise _ => None
             end
         end, w).
Proof.
  unfold preprocess_image, threshold_chain, try_except, bind, lift.
  destruct (cv2_cvtColor_gray E image) as [gray|e]; [|done].
  destruct (cv2_medianBlur E gray) as [blur|e]; [|done].
  destruct (cv2_threshold_otsu E blur) as [thresh|e]; [|done].
  destruct (cv2_dilate E thresh) as [dil|e]; [|done].
  destruct (cv2_erode E dil) as [ero|e]; done.
Qed.

(** X1. [preprocess_image] never raises.  It gives the image the five
    steps make; when one of them raises, the plain gray scale image; and
    [None] exactly when the gray scale conversion itself raises. *)
Theorem preprocess_image_falls_back (E : Env) (image : cv_image E) (w : world) :
  (exists r, (preprocess_image E image w).1 = Ret r)
  /\ (forall thresh, threshold_chain E image = Ret thresh ->
        (preprocess_image E image w).1 = Ret (Some thresh))
  /\ (forall gray, raises (threshold_chain E image) ->
        cv2_cvtColor_gray E image = Ret gray ->
        (preprocess_image E image w).1 = Ret (Some gray))
  /\ ((preprocess_image E image w).1 = Ret None <-> raises (cv2_cvtColor_gray E image)).
Proof.
  rewrite preprocess_image_run. cbn [fst].
  split; [eauto|]. split; [by intros thresh ->|]. split.
  - by intros gray [e ->] ->.
  - split.
    + destruct (threshold_chain E image) eqn:Hc; [done|].
      destruct (cv2_cvtColor_gray E image) as [gray|e0]; [done|]. by exists e0.
    + intros [e He]. unfold threshold_chain. by rewrite He.
Qed.

(** X1, on an instance: the median blur is broken, the gray scale image
    is what comes out. *)
Lemma preprocess_image_falls_back_witness :
  (preprocess_image
     (with_ocr ["blur"] unavailable unavailable
        (mock_env (answers []) [] unavailable unavailable true))
     [] w0).1
  = Ret (Some ["gray"]).
Proof.
  apply (proj1 (proj2 (proj2
           (preprocess_image_falls_back
              (with_ocr ["blur"] unavailable unavailable
                 (mock_env (answers []) [] unavailable unavailable true))
              [] w0)))).
  - eexists. vm_compute. reflexivity.
  - vm_compute. reflexivity.
Defined.

Lemma extract_text_from_image_run (E : Env) (p : pystr) (w : world) :
  (extract_text_from_image E p w).1
  = Ret match cv2_imread E p with
        | Ret (Some image) =>
            match (preprocess_image E image w).1 with
            | Ret (Some pre) =>
                match image_to_string E pre psm6 with
                | Ret first =>
                    if truthy (strip first) then strip first
                    else match image_to_string E pre psm3 with
                         | Ret second => strip second
                         | Raise _ => []
                         end
                | Raise _ => []
                end
            | _ => []
            end
        | _ => []
        end.
Proof.
  unfold extract_text_from_image, extract_text_from_image_body.
  rewrite run_try_except, run_bind, run_lift.
  destruct (cv2_imread E p) as [[image|]|e]; [|done..].
  rewrite run_bind, preprocess_image_run. cbn [fst].
  destruct (match threshold_chain E image with Ret _ => _ | Raise _ => _ end)
    as [pre|]; [|done].
  rewrite run_bind, run_lift. fold psm6. fold psm3.
  destruct (image_to_string E pre psm6) as [first|e]; [|done].
  cbv beta iota zeta.
  destruct (truthy (strip first)); cbn [negb]; [done|].
  rewrite run_bind, run_lift.
  by destruct (image_to_string E pre psm3).
Qed.

(** X2. [extract_text_from_image] never raises and gives a stripped
    text; it is empty when OpenCV cannot read the image.  The second
    Tesseract pass (page segmentation mode 3) counts only when the first
    (mode 6) gave a blank text: the text is the stripped first answer when
    that is not empty, otherwise the stripped second answer, or nothing when
    the second pass raises. *)
Theorem ocr_second_pass_only_when_blank (E : Env) (p : pystr) (w : world) :
  (exists t, (extract_text_from_image E p w).1 = Ret t /\ strip t = t)
  /\ (cv2_imread E p = Ret None -> (extract_text_from_image E p w).1 = Ret [])
  /\ (forall image pre first,
        cv2_imread E p = Ret (Some image) ->
        (preprocess_image E image w).1 = Ret (Some pre) ->
        image_to_string E pre psm6 = Ret first ->
        (extract_text_from_image E p w).1
        = Ret (if truthy (strip first) then strip first
               else match image_to_string E pre psm3 with
                    | Ret second => strip second
                    | Raise _ => []
                    end)).
Proof.
  rewrite extract_text_from_image_run. split; [|split].
  - eexists. split; [reflexivity|].
    repeat match goal with
      | |- strip (match ?x with _ => _ end) = _ => destruct x
      | |- strip (if ?x then _ else _) = _ => destruct x
      end; first [apply strip_idemp | apply strip_nil].
  - by intros ->.
  - by intros image pre first -> -> ->.
Qed.

(** X2, on an instance: the first pass sees only white space, the second
    reads the name. *)
Lemma ocr_second_pass_only_when_blank_witness :
  (extract_text_from_image
     (with_ocr [] (Ret (py "  ")) (Ret (py " Patient: A. "))
        (mock_env (answers []) [] unavailable unavailable true))
     (py "uploads/scan.png") w0).1
  = Ret (py "Patient: A.").
Proof.
  refine (eq_trans
            (proj2 (proj2
               (ocr_second_pass_only_when_blank
                  (with_ocr [] (Ret (py "  ")) (Ret (py " Patient: A. "))
                     (mock_env (answers []) [] unavailable unavailable true))
                  (py "uploads/scan.png") w0))
               [] ["gray"; "blur"; "otsu"; "dilate"; "erode"] (py "  ") _ _ _) _);
    vm_compute; reflexivity.
Defined.

(* ================================================================== *)
(** ** Office documents *)

Lemma extract_text_docx (E : Env) (p : pystr) (w : world) paragraphs :
  path_suffix_lower E p = py ".docx" ->
  docx_paragraphs E p = Ret paragraphs ->
  extract_text E p w = (Ret (strip (join (py nl) (List.filter truthy paragraphs))), w).
Proof.
  intros Hext Hd. unfold extract_text, extract_text_body. cbv zeta.
  rewrite Hext.
  rewrite (pystr_eqb_neq (py ".docx") (py ".pdf")) by done.
  rewrite pystr_eqb_refl.
  rewrite run_bind, run_try_except, run_bind, run_lift, Hd. done.
Qed.

Lemma extract_text_xlsx (E : Env) (p : pystr) (w : world) sheets :
  path_suffix_lower E p = py ".xlsx" ->
  read_excel_sheets E p = Ret sheets ->
  extract_text E p w
  = (Ret (strip (join (py (nl +:+ nl)) (map sheet_text sheets))), w).
Proof.
  intros Hext Hd. unfold extract_text, extract_text_body. cbv zeta.
  rewrite Hext.
  rewrite (pystr_eqb_neq (py ".xlsx") (py ".pdf")) by done.
  rewrite (pystr_eqb_neq (py ".xlsx") (py ".docx")) by done.
  rewrite pystr_eqb_refl.
  rewrite run_bind, run_try_except, run_bind, run_lift, Hd.
  cbv beta iota. rewrite run_mret. cbv beta iota. rewrite run_mret.
  do 4 f_equal. apply map_ext. intros [name table].
  unfold sheet_text, sheet_heading. cbn [fst snd]. by rewrite <- !app_assoc.
Qed.

(** In front of a text that starts without white space, [lstrip] removes
    only from what comes before. *)
Lemma lstrip_app_no_lead (x y : pystr) :
  y <> [] -> no_lead y -> exists x', lstrip (x ++ y) = x' ++ y.
Proof.
  intros Hy Hn. induction x as [|c x IH]; cbn [app lstrip].
  - exists []. by apply lstrip_id.
  - destruct (isspace c); [done|]. by exists (c :: x).
Qed.

(** A text that neither starts nor ends with white space survives at the
    head of what [strip] gives. *)
Lemma strip_keeps_head (a b : pystr) :
  a <> [] -> no_lead a -> no_lead (rev a) -> a `prefix_of` strip (a ++ b).
Proof.
  intros Ha Hl Hr. unfold strip.
  rewrite lstrip_id by (destruct a; [done|exact Hl]).
  unfold rstrip. rewrite rev_app_distr.
  destruct (lstrip_app_no_lead (rev b) (rev a)) as [x' Hx]; [|done|].
  { intros H. apply (f_equal (@rev N)) in H. by rewrite rev_involutive in H. }
  rewrite Hx, rev_app_distr, rev_involutive. by exists (rev x').
Qed.

Lemma join_cons_prefix sep (s : pystr) rest : s `prefix_of` join sep (s :: rest).
Proof.
  destruct rest as [|r rest]; cbn [join]; [done|]. by eexists.
Qed.

Lemma sheet_heading_kept (name : pystr) (b : pystr) :
  sheet_heading name `prefix_of` strip (sheet_heading name ++ b).
Proof.
  apply strip_keeps_head.
  - done.
  - done.
  - unfold sheet_heading. rewrite !rev_app_distr. done.
Qed.

(** X3. The text of an office document.  For a DOCX file it is the
    paragraphs that are not empty, one per line, stripped.  For an XLSX
    file it is, for every sheet, a heading with the sheet's name and the
    table under it, the sheets one blank line apart, stripped; so the text
    of a workbook with a sheet starts with the heading of its first sheet
    and is never empty. *)
Theorem office_document_text (E : Env) (p : pystr) (w : world) :
  (forall paragraphs,
      path_suffix_lower E p = py ".docx" ->
      docx_paragraphs E p = Ret paragraphs ->
      (extract_text E p w).1
      = Ret (strip (join (py nl) (List.filter truthy paragraphs))))
  /\ (forall sheets,
        path_suffix_lower E p = py ".xlsx" ->
        read_excel_sheets E p = Ret sheets ->
        exists t,
          (extract_text E p w).1 = Ret t
          /\ t = strip (join (py (nl +:+ nl)) (map sheet_text sheets))
          /\ (forall name table rest,
                sheets = (name, table) :: rest ->
                sheet_heading name `prefix_of` t /\ t <> [])).
Proof.
  split.
  - intros paragraphs Hext Hd. rewrite (extract_text_docx E p w paragraphs) by done.
    done.
  - intros sheets Hext Hd. rewrite (extract_text_xlsx E p w sheets) by done.
    eexists. split; [reflexivity|]. split; [reflexivity|].
    intros name table rest ->.
    assert (sheet_heading name
              `prefix_of` strip (join (py (nl +:+ nl)) (map sheet_text ((name, table) :: rest))))
      as Hpre.
    { cbn [map]. destruct (join_cons_prefix (py (nl +:+ nl)) (sheet_text (name, table))
                             (map sheet_text rest)) as [k ->].
      unfold sheet_text at 1. cbn [fst snd]. rewrite <- !app_assoc.
      apply sheet_heading_kept. }
    split; [done|]. intros H0. rewrite H0 in Hpre.
    by apply prefix_nil_inv in Hpre.
Qed.

(** X3, on an instance: a letter with an empty paragraph, and a workbook
    with one sheet. *)
Lemma office_document_text_witness :
  (extract_text
     (with_office (Ret [py "Dear colleague,"; []; py "  BP 120/80 "]) unavailable
        (mock_env (answers []) [] unavailable unavailable true))
     (py "uploads/letter.docx") w0).1
  = Ret (py ("Dear colleague," +:+ nl +:+ "  BP 120/80"))
  /\ (exists t,
        (extract_text
           (with_office unavailable (Ret [(py "Labs", py "   Hb  13.5")])
              (mock_env (answers []) [] unavailable unavailable true))
           (py "uploads/labs.xlsx") w0).1 = Ret t
        /\ sheet_heading (py "Labs") `prefix_of` t).
Proof.
  split.
  - refine (eq_trans
              (proj1 (office_document_text
                        (with_office (Ret [py "Dear colleague,"; []; py "  BP 120/80 "])
                           unavailable
                           (mock_env (answers []) [] unavailable unavailable true))
                        (py "uploads/letter.docx") w0)
                 [py "Dear colleague,"; []; py "  BP 120/80 "] _ _) _);
      vm_compute; reflexivity.
  - destruct (proj2 (office_document_text
                       (with_office unavailable (Ret [(py "Labs", py "   Hb  13.5")])
                          (mock_env (answers []) [] unavailable unavailable true))
                       (py "uploads/labs.xlsx") w0)
                [(py "Labs", py "   Hb  13.5")])
      as (t & Ht & _ & Hhead).
    + vm_compute; reflexivity.
    + vm_compute; reflexivity.
    + exists t. split; [exact Ht|]. exact (proj1 (Hhead _ _ _ eq_refl)).
Defined.

(* ================================================================== *)
(** ** The routes and OCR *)

Lemma extract_text_without_ocr (E : Env) (p : pystr) (w : world) :
  path_suffix_lower E p ∉ image_exts ->
  extract_text (without_ocr E) p w = extract_text E p w.
Proof.
  intros Hi. unfold extract_text, extract_text_body. cbv zeta.
  change (path_suffix_lower (without_ocr E) p) with (path_suffix_lower E p).
  change (path_basename (without_ocr E) p) with (path_basename E p).
  destruct (pystr_eqb (path_suffix_lower E p) (py ".pdf")); [reflexivity|].
  destruct (pystr_eqb (path_suffix_lower E p) (py ".docx")); [reflexivity|].
  destruct (pystr_eqb (path_suffix_lower E p) (py ".xlsx")); [reflexivity|].
  rewrite bool_decide_eq_false_2 by done. reflexivity.
Qed.

(** X4. No route runs OCR.  [analyze_report] sends a path with an image
    suffix to the image analyzer and every other path to [extract_text],
    which then never takes its image branch: each request is served the same
    way, with the same effects, when OpenCV and Tesseract are taken away. *)
Theorem routes_never_run_ocr (E : Env) (c : call) (w : world) :
  handle (without_ocr E) c w = handle E c w.
Proof.
  destruct c as [file | fp fn | message]; cbn [handle]; [reflexivity| |reflexivity].
  destruct fp as [[|ch p]|]; [reflexivity| |reflexivity].
  destruct (path_exists E (ch :: p)) eqn:He.
  - destruct (decide (path_suffix_lower E (ch :: p) ∈ image_exts)) as [Hi|Hi].
    + rewrite !analyze_report_image by done. reflexivity.
    + rewrite !analyze_report_text by done.
      rewrite extract_text_without_ocr by done. reflexivity.
  - rewrite !analyze_report_missing by done. reflexivity.
Qed.

(* ================================================================== *)
(** ** What is sent to Gemini *)

Lemma gemini_calls_app evs1 evs2 :
  gemini_calls (evs1 ++ evs2) = gemini_calls evs1 ++ gemini_calls evs2.
Proof. apply omap_app. Qed.

Lemma gemini_calls_no_call (P : event -> Prop) evs :
  (forall r, ~ P (EvGenerate r)) -> Forall P evs -> gemini_calls evs = [].
Proof.
  intros HP. induction 1 as [|e evs He _ IH]; [done|].
  destruct e as [l|r|path|k|k v]; try exact IH.
  exfalso. exact (HP r He).
Qed.

Lemma gemini_calls_logs evs : Forall is_log evs -> gemini_calls evs = [].
Proof. apply gemini_calls_no_call. intros r H. exact H. Qed.

(** The call of [analyze_image_with_gemini] and what it makes of the
    response: one event, and a value. *)
Lemma image_call_world (E : Env) (jpeg : bytes) (mime : pystr) (w : world) :
  exists v,
    try_except
      (response ← generate E (ReqParts mime jpeg image_prompt);
       image_response_result E response)
      (fun api_err =>
         mret (error_record (py "Gemini API communication error: " ++ exn_str api_err)))
      w
    = (Ret v, World (session w) (trace w ++ [EvGenerate (ReqParts mime jpeg image_prompt)])).
Proof.
  rewrite run_try_except, run_bind, run_generate.
  destruct (generate_content E _) as [response|e]; [|by eexists].
  match goal with |- context [image_response_result E response ?w2] =>
    pose proof (silent_world (image_response_result E response) w2
                  (silent_image_response_result E response)) as Hw;
    destruct (image_response_result E response w2) as [[v|e] w3]
  end; simpl in *; subst; by eexists.
Qed.

(** The one effect of [analyze_image_with_gemini]: the call, made when
    PIL prepared the JPEG. *)
Lemma analyze_image_world (E : Env) (data : bytes) (w : world) :
  (analyze_image_with_gemini E data w).2
  = match prepared_jpeg E data with
    | Ret jpeg =>
        World (session w)
          (trace w ++ [EvGenerate (ReqParts (py "image/jpeg") jpeg image_prompt)])
    | Raise _ => w
    end.
Proof.
  unfold analyze_image_with_gemini, prepared_jpeg. cbv zeta.
  rewrite run_try_except, run_bind, run_try_except, run_bind, run_lift.
  destruct (Image_open E data) as [image|e]; [|done]. cbv beta iota.
  rewrite run_bind.
  destruct (negb (pystr_eqb (image_mode E image) (py "RGB"))).
  - rewrite run_lift. destruct (image_convert_rgb E image) as [image'|e]; [|done].
    cbv beta iota. rewrite run_bind, run_lift.
    destruct (image_save_jpeg E image') as [jpeg|e]; [|done].
    rewrite run_mret. cbv beta iota.
    destruct (image_call_world E jpeg (py "image/jpeg") w) as [v ->]. done.
  - rewrite run_mret. cbv beta iota. rewrite run_bind, run_lift.
    destruct (image_save_jpeg E image) as [jpeg|e]; [|done].
    rewrite run_mret. cbv beta iota.
    destruct (image_call_world E jpeg (py "image/jpeg") w) as [v ->]. done.
Qed.

(** The call of [chat_api] and what it makes of the response: one event,
    and a response. *)
Lemma chat_call_world (E : Env) (prompt : pystr) (w : world) :
  exists v,
    try_except
      (prompt_for_gemini ← (mret prompt : M pystr);
       response ← generate E (ReqText prompt_for_gemini);
       chat_response_result response)
      (fun e =>
         mret (Http (error_record
                       (py "An unexpected error occurred during chat: " ++ exn_str e))
                 500))
      w
    = (Ret v, World (session w) (trace w ++ [EvGenerate (ReqText prompt)])).
Proof.
  rewrite run_try_except, run_bind, run_mret. cbv beta iota.
  rewrite run_bind, run_generate.
  destruct (generate_content E _) as [response|e]; [|by eexists].
  match goal with |- context [chat_response_result response ?w2] =>
    pose proof (silent_world (chat_response_result response) w2
                  (silent_chat_response_result response)) as Hw;
    destruct (chat_response_result response w2) as [[v|e] w3]
  end; simpl in *; subst; by eexists.
Qed.

(** Every chat with a message makes one call, with the prompt for the
    session as it is. *)
Lemma chat_api_events (E : Env) (message : pystr) (w : world) :
  message <> [] ->
  exists logs,
    new_events (chat_api E (Some message)) w
    = logs ++ [EvGenerate (ReqText (chat_prompt_in w message))]
    /\ Forall is_log logs.
Proof.
  intros Hm. unfold chat_prompt_in.
  destruct (session w !! k_text) as [[|c2 d2]|] eqn:Ht;
    destruct (session w !! k_filename) as [[|c3 d3]|] eqn:Hn;
    try (by apply chat_with_document).
  all: exists []; split; [|done]; cbn [app]; unfold new_events, chat_api.
  all: destruct message as [|c message]; [done|].
  all: cbv zeta; rewrite run_bind, run_session_get, Ht.
  all: rewrite run_bind, run_session_get; try rewrite Hn; cbv beta iota.
  all: destruct (chat_call_world E (general_prompt (c :: message)) w) as [v Hv].
  all: unfold general_prompt in Hv at 1; rewrite Hv; cbn [snd trace].
  all: by rewrite drop_app_length.
Qed.

Lemma saved_files_app evs1 evs2 :
  saved_files (evs1 ++ evs2) = saved_files evs1 ++ saved_files evs2.
Proof. apply omap_app. Qed.

Lemma saved_files_quiet evs : Forall quiet evs -> saved_files evs = [].
Proof.
  induction 1 as [|e evs He _ IH]; [done|].
  destruct e as [l|r|path|k|k v]; try exact IH; by destruct He.
Qed.

Lemma saved_files_logs evs : Forall is_log evs -> saved_files evs = [].
Proof. intros H. apply saved_files_quiet. by eapply Forall_impl; [|apply is_log_quiet]. Qed.

(** X5. The image analyzer sends Gemini the JPEG PIL made of the image,
    as [image/jpeg] and with the fixed prompt, in one call; when PIL made
    none, it sends nothing.  The bytes of the upload are never sent as they
    are, and the session is left alone. *)
Theorem image_sent_as_jpeg (E : Env) (data : bytes) (w : world) :
  gemini_calls (new_events (analyze_image_with_gemini E data) w)
  = match prepared_jpeg E data with
    | Ret jpeg => [ReqParts (py "image/jpeg") jpeg image_prompt]
    | Raise _ => []
    end
  /\ session (analyze_image_with_gemini E data w).2 = session w.
Proof.
  unfold new_events. rewrite analyze_image_world.
  destruct (prepared_jpeg E data) as [jpeg|e].
  - cbn [trace session]. by rewrite drop_app_length.
  - by rewrite drop_all.
Qed.

(** The calls of an analysis of a document with a text. *)
Lemma analyze_report_text_calls E p fn w t :
  p <> [] -> path_exists E p = true -> path_suffix_lower E p ∉ image_exts ->
  (extract_text E p w).1 = Ret t -> t <> [] ->
  gemini_calls (new_events (analyze_report E (Some p) fn) w)
  = [ReqText (text_prompt (capped t))]
  /\ saved_files (new_events (analyze_report E (Some p) fn) w) = [].
Proof.
  intros Hp He Hi Ht Hne. unfold new_events. rewrite analyze_report_text by done.
  pose proof (same_result_extract_text E p (cleared w) w) as Hs. rewrite Ht in Hs.
  pose proof (extract_text_stripped E p w t Ht) as Hst.
  destruct (keeps_extract_text E p (cleared w)) as [Hs1 (logs & Ht1 & Hl1)].
  destruct (extract_text E p (cleared w)) as [o w1]. simpl in Hs, Hs1, Ht1. subst o.
  rewrite Hst, (truthy_cons t Hne). cbn [negb orb].
  set (fn' := request_filename E p fn).
  destruct (analyze_text_world E t (stored t fn' w1)) as (l2 & Ht2 & Hl2).
  rewrite trace_stored, Ht1 in Ht2.
  assert (exists l3, trace
             match analyze_text_with_gemini E t (stored t fn' w1) with
             | (Ret v, w2) => analysis_response v w2
             | (Raise e, w2) => (Raise e, w2)
             end.2
           = trace (analyze_text_with_gemini E t (stored t fn' w1)).2 ++ l3
           /\ Forall is_log l3) as (l3 & Ht3 & Hl3).
  { destruct (analyze_text_with_gemini E t (stored t fn' w1)) as [[v|e] w2].
    - destruct (keeps_analysis_response v w2) as [_ (l3 & Ht3 & Hl3)]. by exists l3.
    - exists []. by rewrite app_nil_r. }
  rewrite Ht3, Ht2, <- !app_assoc, drop_app_length.
  rewrite !gemini_calls_app, !saved_files_app.
  rewrite (gemini_calls_logs logs), (gemini_calls_logs l2), (gemini_calls_logs l3) by done.
  rewrite (saved_files_logs logs), (saved_files_logs l2), (saved_files_logs l3) by done.
  done.
Qed.

(** X6. When no text comes out of a document, [analyze_report] answers
    400 "No readable text could be extracted from the document." without
    calling Gemini, and the session is left with no document context. *)
Theorem no_text_no_analysis (E : Env) (p : pystr) (fn : option pystr) (w : world) :
  p <> [] -> path_exists E p = true -> path_suffix_lower E p ∉ image_exts ->
  (extract_text E p w).1 = Ret [] ->
  (analyze_report E (Some p) fn w).1
  = Ret (Http (error_record
                 (py "No readable text could be extracted from the document.")) 400)
  /\ gemini_calls (new_events (analyze_report E (Some p) fn) w) = []
  /\ session (analyze_report E (Some p) fn w).2 !! k_text = None
  /\ session (analyze_report E (Some p) fn w).2 !! k_filename = None.
Proof.
  intros Hp He Hi Ht.
  destruct (analyze_report_empty_world E p fn w Hp He Hi Ht) as (logs & Hs & Htr & Hl).
  split; [|split; [|split]].
  - rewrite analyze_report_text by done.
    pose proof (same_result_extract_text E p (cleared w) w) as Hsame.
    rewrite Ht in Hsame.
    destruct (extract_text E p (cleared w)) as [o w1]. simpl in Hsame. by subst o.
  - rewrite (new_events_app _ _ _ Htr). rewrite gemini_calls_app.
    by rewrite (gemini_calls_logs logs).
  - rewrite Hs. rewrite lookup_delete_ne by done. apply lookup_delete_eq.
  - rewrite Hs. apply lookup_delete_eq.
Qed.

(** X6, on an instance: a PDF whose one page is blank. *)
Lemma no_text_no_analysis_witness :
  (analyze_report (clinic (py "{}") [py "uploads/blank.pdf"] (py "  "))
     (Some (py "uploads/blank.pdf")) None
     (with_document (py "old report text") (py "old.pdf"))).1
  = Ret (Http (error_record
                 (py "No readable text could be extracted from the document.")) 400).
Proof.
  apply (no_text_no_analysis (clinic (py "{}") [py "uploads/blank.pdf"] (py "  "))
           (py "uploads/blank.pdf") None
           (with_document (py "old report text") (py "old.pdf"))).
  - done.
  - vm_compute; reflexivity.
  - apply (bool_decide_unpack _). vm_compute. exact I.
  - vm_compute; reflexivity.
Defined.

(** The calls of each request: none, or the one of the analyzer or of the
    chat. *)
Lemma handle_calls (E : Env) (c : call) (w : world) :
  (exists r, gemini_calls (new_events (handle E c) w) = [r]
             /\ exists fp fn m, c = CallAnalyze fp fn \/ c = CallChat m)
  \/ gemini_calls (new_events (handle E c) w) = [].
Proof.
  destruct c as [file | fp fn | message]; cbn [handle].
  - right.
    destruct (upload_file_world E file w) as [Hw | (name & content & _ & _ & _ & Hw)].
    + by rewrite new_events_same.
    + unfold new_events. rewrite Hw. cbn [trace]. by rewrite drop_app_length.
  - assert (analyze_report E fp fn w
            = (Ret (Http (error_record (py "File not found on server")) 400), w)
            \/ exists p, fp = Some p /\ p <> [] /\ path_exists E p = true)
      as [Hm | (p & -> & Hp & He)].
    { destruct fp as [[|ch p]|]; try (left; by apply analyze_report_missing).
      destruct (path_exists E (ch :: p)) eqn:He.
      - right. by exists (ch :: p).
      - left. by apply analyze_report_missing. }
    { right. apply (f_equal snd) in Hm. by rewrite new_events_same. }
    destruct (decide (path_suffix_lower E p ∈ image_exts)) as [Hi|Hi].
    + unfold new_events. rewrite analyze_report_image by done.
      destruct (read_binary E p) as [data|e].
      * pose proof (analyze_image_world E data (cleared w)) as Hw.
        assert (exists l3, trace
                   match analyze_image_with_gemini E data (cleared w) with
                   | (Ret v, w1) => analysis_response v w1
                   | (Raise e, w1) =>
                       (Ret (Http (error_record
                                     (py "Image analysis failed: " ++ exn_str e)) 500), w1)
                   end.2
                 = trace (analyze_image_with_gemini E data (cleared w)).2 ++ l3
                 /\ Forall is_log l3) as (l3 & Ht3 & Hl3).
        { destruct (analyze_image_with_gemini E data (cleared w)) as [[v|e] w2].
          - destruct (keeps_analysis_response v w2) as [_ (l3 & Ht3 & Hl3)]. by exists l3.
          - exists []. by rewrite app_nil_r. }
        rewrite Ht3, Hw.
        destruct (prepared_jpeg E data) as [jpeg|e].
        -- left. eexists. split; [|by exists (Some p), fn, None; left].
           cbn [trace]. rewrite trace_cleared, <- !app_assoc, drop_app_length.
           rewrite !gemini_calls_app, (gemini_calls_logs l3) by done. reflexivity.
        -- right. rewrite trace_cleared, <- !app_assoc, drop_app_length.
           rewrite !gemini_calls_app, (gemini_calls_logs l3) by done. reflexivity.
      * right. cbn [snd]. rewrite trace_cleared, drop_app_length. reflexivity.
    + destruct (returns_extract_text E p w) as [t Ht].
      destruct t as [|ch t].
      * right.
        destruct (analyze_report_empty_world E p fn w Hp He Hi Ht) as (logs & _ & Htr & Hl).
        rewrite (new_events_app _ _ _ Htr), gemini_calls_app.
        by rewrite (gemini_calls_logs logs).
      * left. eexists. split; [|by exists (Some p), fn, None; left].
        by apply (analyze_report_text_calls E p fn w (ch :: t)).
  - destruct message as [[|ch m]|].
    + right. by rewrite new_events_same.
    + left. destruct (chat_api_events E (ch :: m) w) as (logs & Hev & Hl); [done|].
      eexists. split; [|by exists None, None, (Some (ch :: m)); right].
      rewrite Hev, gemini_calls_app, (gemini_calls_logs logs) by done. reflexivity.
    + right. by rewrite new_events_same.
Qed.

Lemma analyze_report_saves (E : Env) fp fn (w : world) :
  saved_files (new_events (analyze_report E fp fn) w) = [].
Proof.
  assert (analyze_report E fp fn w
          = (Ret (Http (error_record (py "File not found on server")) 400), w)
          \/ exists p, fp = Some p /\ p <> [] /\ path_exists E p = true)
    as [Hm | (p & -> & Hp & He)].
  { destruct fp as [[|ch p]|]; try (left; by apply analyze_report_missing).
    destruct (path_exists E (ch :: p)) eqn:He.
    - right. by exists (ch :: p).
    - left. by apply analyze_report_missing. }
  { apply (f_equal snd) in Hm. by rewrite new_events_same. }
  destruct (decide (path_suffix_lower E p ∈ image_exts)) as [Hi|Hi].
  - destruct (analyze_report_image_world E p fn w Hp He Hi) as (rest & _ & Ht & Hq).
    rewrite (new_events_app _ _ _ Ht), saved_files_app.
    by rewrite (saved_files_quiet rest).
  - destruct (returns_extract_text E p w) as [t Ht].
    destruct t as [|ch t].
    + destruct (analyze_report_empty_world E p fn w Hp He Hi Ht) as (logs & _ & Htr & Hl).
      rewrite (new_events_app _ _ _ Htr), saved_files_app.
      by rewrite (saved_files_logs logs).
    + by apply (analyze_report_text_calls E p fn w (ch :: t)).
Qed.

Lemma chat_api_saves (E : Env) message (w : world) :
  saved_files (new_events (chat_api E message) w) = [].
Proof.
  destruct (keeps_chat_api E message w) as [_ (evs & Ht & Hq)].
  rewrite (new_events_app _ _ _ Ht). by apply saved_files_quiet.
Qed.

(** X7. No request calls Gemini more than once, and an upload never
    does; no file is written by an analysis or by a chat. *)
Theorem one_gemini_call_per_request (E : Env) (w : world) :
  (forall c, (length (gemini_calls (new_events (handle E c) w)) <= 1)%nat)
  /\ (forall file, gemini_calls (new_events (upload_file E file) w) = [])
  /\ (forall file_path filename,
        saved_files (new_events (analyze_report E file_path filename) w) = [])
  /\ (forall message, saved_files (new_events (chat_api E message) w) = []).
Proof.
  split; [|split; [|split]].
  - intros c. destruct (handle_calls E c w) as [(r & -> & _) | ->]; cbn; lia.
  - intros file.
    destruct (handle_calls E (CallUpload file) w)
      as [(r & _ & fp & fn & m & [H|H]) | H]; done.
  - intros. apply analyze_report_saves.
  - intros. apply chat_api_saves.
Qed.

(* ================================================================== *)
(** ** The status of an analysis *)

Lemma is_prefix_app_r (n a b : pystr) :
  is_prefix n a = true -> is_prefix n (a ++ b) = true.
Proof.
  revert a. induction n as [|x n IH]; intros a; [done|].
  destruct a as [|y a]; [done|]. cbn [is_prefix app].
  intros [-> H]%andb_true_iff. by rewrite (IH a H).
Qed.

Lemma substring_in_app_l (n a b : pystr) :
  substring_in n a = true -> substring_in n (a ++ b) = true.
Proof.
  induction a as [|y a IH].
  - destruct n as [|x n]; [|done]. intros _. by destruct b.
  - cbn [substring_in app]. intros [H|H]%orb_true_iff.
    + pose proof (is_prefix_app_r _ _ b H) as H'. cbn [app] in H'. by rewrite H'.
    + rewrite (IH H). apply orb_true_r.
Qed.

Lemma ai_side_app_l (a b : pystr) : ai_side a = true -> ai_side (a ++ b) = true.
Proof.
  unfold ai_side. intros [H|H]%orb_true_iff.
  - by rewrite (substring_in_app_l _ _ b H).
  - rewrite (substring_in_app_l _ _ b H). apply orb_true_r.
Qed.

(** The end of [analyze_report] for a dict: 200 without the key "error";
    with a message, 500 or 400 by the test for "AI" and "Gemini", after the
    raw text is logged if there is one. *)
Lemma analysis_response_dict (d : list (pystr * json)) (w : world) :
  (dict_lookup (py "error") d = None ->
   analysis_response (JDict d) w = (Ret (Http (JDict d) 200), w))
  /\ (forall msg,
        dict_lookup (py "error") d = Some (JStr msg) ->
        analysis_response (JDict d) w
        = (Ret (Http (JDict d) (if ai_side msg then 500 else 400)%Z),
           match dict_lookup (py "raw_text") d with
           | Some raw => World (session w) (trace w ++ [EvLog (ErrorRawText raw)])
           | None => w
           end)).
Proof.
  split.
  - intros H. unfold analysis_response, bind, py_in. rewrite H.
    rewrite bool_decide_eq_false_2 by (by intros [x Hx]). done.
  - intros msg H. unfold analysis_response, bind, py_in, py_get, py_getitem. rewrite H.
    rewrite bool_decide_eq_true_2 by eauto. cbn [fst snd ret].
    unfold ai_side.
    destruct (substring_in (py "AI") msg); cbn [orb fst snd ret mret M_ret].
    + destruct (dict_lookup (py "raw_text") d) as [raw|] eqn:Hr.
      * rewrite bool_decide_eq_true_2 by eauto. done.
      * rewrite bool_decide_eq_false_2 by (by intros [x Hx]). done.
    + destruct (substring_in (py "Gemini") msg);
        (destruct (dict_lookup (py "raw_text") d) as [raw|] eqn:Hr;
         [rewrite bool_decide_eq_true_2 by eauto; done
         |rewrite bool_decide_eq_false_2 by (by intros [x Hx]); done]).
Qed.

(** With the analyzer's result [v], the response of [analyze_report] is
    what its last lines make of [v]. *)
Lemma analyze_report_analyzed (E : Env) (p : pystr) fn (w : world) (v : json) :
  p <> [] -> path_exists E p = true -> analyzed E p w v ->
  exists w1, analyze_report E (Some p) fn w = analysis_response v w1.
Proof.
  intros Hp He [[Hi (t & Ht & Hne & Hv)] | [Hi (data & Hd & Hv)]].
  - rewrite analyze_report_text by done.
    pose proof (same_result_extract_text E p (cleared w) w) as Hs. rewrite Ht in Hs.
    pose proof (extract_text_stripped E p w t Ht) as Hst.
    destruct (extract_text E p (cleared w)) as [o w1]. simpl in Hs. subst o.
    rewrite Hst, (truthy_cons t Hne). cbn [negb orb].
    pose proof (same_result_analyze_text E t
                  (stored t (request_filename E p fn) w1) w) as Hs.
    rewrite Hv in Hs.
    destruct (analyze_text_with_gemini E t (stored t (request_filename E p fn) w1))
      as [o w2]. simpl in Hs. subst o.
    by exists w2.
  - rewrite analyze_report_image by done. rewrite Hd.
    pose proof (same_result_analyze_image E data (cleared w) w) as Hs.
    rewrite Hv in Hs.
    destruct (analyze_image_with_gemini E data (cleared w)) as [o w2].
    simpl in Hs. subst o.
    by exists w2.
Qed.

(** X8. The status of an analysis follows the key "error" of the
    analyzer's result, whatever else the result holds.  An object without
    that key is answered as it is with 200, one with an error message with
    500 when the message contains "AI" or "Gemini" and with 400 otherwise;
    so a reply that was parsed well but has a key "error" is answered as
    an error. *)
Theorem status_follows_error_key
  (E : Env) (p : pystr) (fn : option pystr) (w : world) (d : list (pystr * json)) :
  p <> [] -> path_exists E p = true -> analyzed E p w (JDict d) ->
  (dict_lookup (py "error") d = None ->
   (analyze_report E (Some p) fn w).1 = Ret (Http (JDict d) 200))
  /\ (forall msg,
        dict_lookup (py "error") d = Some (JStr msg) ->
        (analyze_report E (Some p) fn w).1
        = Ret (Http (JDict d) (if ai_side msg then 500 else 400)%Z)).
Proof.
  intros Hp He Ha.
  destruct (analyze_report_analyzed E p fn w (JDict d) Hp He Ha) as [w1 ->].
  destruct (analysis_response_dict d w1) as [H1 H2]. split.
  - intros H. by rewrite H1.
  - intros msg H. by rewrite (H2 msg H).
Qed.

(** X8, on an instance: Gemini answers a PDF report with an object that
    has a key "error"; the object was parsed, and the status is 400. *)
Lemma status_follows_error_key_witness :
  (analyze_report
     (clinic (py ("{" +:+ dq +:+ "error" +:+ dq +:+ ": " +:+ dq +:+ "none found" +:+ dq +:+ "}"))
        [py "uploads/report.pdf"] (py "Patient has mild hypertension."))
     (Some (py "uploads/report.pdf")) None w0).1
  = Ret (Http (JDict [(py "error", JStr (py "none found"))]) 400).
Proof.
  refine (proj2 (status_follows_error_key
                   (clinic (py ("{" +:+ dq +:+ "error" +:+ dq +:+ ": " +:+ dq
                                +:+ "none found" +:+ dq +:+ "}"))
                      [py "uploads/report.pdf"] (py "Patient has mild hypertension."))
                   (py "uploads/report.pdf") None w0
                   [(py "error", JStr (py "none found"))] _ _ _)
            (py "none found") _).
  - done.
  - vm_compute; reflexivity.
  - left. split.
    + apply (bool_decide_unpack _). vm_compute. exact I.
    + exists (py "Patient has mild hypertension.").
      split; [vm_compute; reflexivity|]. split; [done|]. vm_compute; reflexivity.
  - vm_compute; reflexivity.
Defined.

Lemma py_in_scalar s v w :
  is_scalar v -> exists e, py_in s v w = (Raise e, w) /\ exn_cls e = TypeError.
Proof. destruct v; try done; intros _; eexists; split; reflexivity. Qed.

Lemma existsb_str_in (s : pystr) (items : list json) :
  existsb (fun x => match x with JStr t => pystr_eqb s t | _ => false end) items = true
  <-> JStr s ∈ items.
Proof.
  induction items as [|x items IH]; cbn [existsb].
  - split; [done|]. by intros H%elem_of_nil.
  - rewrite orb_true_iff, IH, elem_of_cons.
    assert (match x with JStr t => pystr_eqb s t | _ => false end = true
            <-> JStr s = x) as ->; [|done].
    destruct x as [| | |t| |]; try (split; [done|by intros [=]]).
    unfold pystr_eqb. rewrite bool_decide_eq_true. split; [by intros ->|by intros [=]].
Qed.

(** X9. A result that is not an object.  When the analyzer's result is a
    JSON number, boolean or null, [analyze_report] raises a TypeError
    instead of answering; a list or a string is answered as it is with 200
    unless it contains "error" (as an item, as a substring), and then the
    route raises an AttributeError. *)
Theorem non_object_result
  (E : Env) (p : pystr) (fn : option pystr) (w : world) (v : json) :
  p <> [] -> path_exists E p = true -> analyzed E p w v ->
  (is_scalar v ->
   exists e, (analyze_report E (Some p) fn w).1 = Raise e /\ exn_cls e = TypeError)
  /\ (forall items,
        v = JList items ->
        (JStr (py "error") ∈ items ->
         exists e, (analyze_report E (Some p) fn w).1 = Raise e
                   /\ exn_cls e = AttributeError)
        /\ (JStr (py "error") ∉ items ->
            (analyze_report E (Some p) fn w).1 = Ret (Http v 200)))
  /\ (forall s,
        v = JStr s ->
        if substring_in (py "error") s
        then exists e, (analyze_report E (Some p) fn w).1 = Raise e
                       /\ exn_cls e = AttributeError
        else (analyze_report E (Some p) fn w).1 = Ret (Http v 200)).
Proof.
  intros Hp He Ha.
  destruct (analyze_report_analyzed E p fn w v Hp He Ha) as [w1 ->].
  split; [|split].
  - intros Hs. unfold analysis_response. rewrite run_bind.
    destruct (py_in_scalar (py "error") v w1 Hs) as (e & -> & Hc). by exists e.
  - intros items ->. unfold analysis_response. rewrite run_bind. cbn [py_in].
    pose proof (existsb_str_in (py "error") items) as Hin.
    destruct (existsb _ items).
    + split; [intros _; eexists; split; reflexivity|].
      intros Hn. contradict Hn. by apply Hin.
    + split; [|intros _; reflexivity]. intros H%Hin. done.
  - intros s ->. unfold analysis_response. rewrite run_bind. cbn [py_in].
    destruct (substring_in (py "error") s).
    + eexists. split; reflexivity.
    + reflexivity.
Qed.

(** X9, on an instance: Gemini answers a PDF report with [42]. *)
Lemma non_object_result_witness :
  exists e,
    (analyze_report
       (clinic (py "42") [py "uploads/report.pdf"] (py "Patient has mild hypertension."))
       (Some (py "uploads/report.pdf")) None w0).1 = Raise e
    /\ exn_cls e = TypeError.
Proof.
  refine (proj1 (non_object_result
                   (clinic (py "42") [py "uploads/report.pdf"]
                      (py "Patient has mild hypertension."))
                   (py "uploads/report.pdf") None w0 (JNum (py "42")) _ _ _) _).
  - done.
  - vm_compute; reflexivity.
  - left. split.
    + apply (bool_decide_unpack _). vm_compute. exact I.
    + exists (py "Patient has mild hypertension.").
      split; [vm_compute; reflexivity|]. split; [done|]. vm_compute; reflexivity.
  - exact I.
Defined.

(* ================================================================== *)
(** ** The analyzers and the chat in one equation each *)

Lemma same_result_text_response_result E response :
  same_result (text_response_result E response).
Proof. unfold text_response_result, parse_text_reply. repeat same_step. Qed.

Lemma same_result_image_response_result E response :
  same_result (image_response_result E response).
Proof. unfold image_response_result, parse_image_reply. repeat same_step. Qed.

Lemma same_result_chat_response_result response :
  same_result (chat_response_result response).
Proof. unfold chat_response_result. repeat same_step. Qed.

Lemma analyze_text_run (E : Env) (text : pystr) (w : world) :
  (analyze_text_with_gemini E text w).1
  = match generate_content E (ReqText (text_prompt (capped text))) with
    | Raise e =>
        Ret (error_record (py "Unexpected AI text processing error: " ++ exn_str e))
    | Ret response =>
        match (text_response_result E response w).1 with
        | Ret v => Ret v
        | Raise e =>
            Ret (error_record (py "Unexpected AI text processing error: " ++ exn_str e))
        end
    end.
Proof.
  unfold analyze_text_with_gemini, capped. cbv zeta.
  rewrite run_try_except, run_bind.
  destruct (100000 <? len text)%Z.
  - rewrite run_bind, run_log, run_mret. cbv beta iota.
    rewrite run_bind, run_generate.
    destruct (generate_content E _) as [response|e]; [|done].
    match goal with |- context [text_response_result E response ?w1] =>
      rewrite (same_result_text_response_result E response w w1);
      destruct (text_response_result E response w1) as [[v|e] w2]
    end; done.
  - rewrite run_mret. cbv beta iota. rewrite run_bind, run_generate.
    destruct (generate_content E _) as [response|e]; [|done].
    match goal with |- context [text_response_result E response ?w1] =>
      rewrite (same_result_text_response_result E response w w1);
      destruct (text_response_result E response w1) as [[v|e] w2]
    end; done.
Qed.

Lemma analyze_image_run (E : Env) (data : bytes) (w : world) :
  (analyze_image_with_gemini E data w).1
  = match prepared_jpeg E data with
    | Raise e => Ret (error_record (py "Failed to process image data: " ++ exn_str e))
    | Ret jpeg =>
        match generate_content E (ReqParts (py "image/jpeg") jpeg image_prompt) with
        | Raise e =>
            Ret (error_record (py "Gemini API communication error: " ++ exn_str e))
        | Ret response =>
            match (image_response_result E response w).1 with
            | Ret v => Ret v
            | Raise e =>
                Ret (error_record (py "Gemini API communication error: " ++ exn_str e))
            end
        end
    end.
Proof.
  assert (forall jpeg,
    (try_except
       (response ← generate E (ReqParts (py "image/jpeg") jpeg image_prompt);
        image_response_result E response)
       (fun api_err =>
          mret (error_record (py "Gemini API communication error: " ++ exn_str api_err)))
       w).1
    = match generate_content E (ReqParts (py "image/jpeg") jpeg image_prompt) with
      | Raise e =>
          Ret (error_record (py "Gemini API communication error: " ++ exn_str e))
      | Ret response =>
          match (image_response_result E response w).1 with
          | Ret v => Ret v
          | Raise e =>
              Ret (error_record (py "Gemini API communication error: " ++ exn_str e))
          end
      end) as Hcall.
  { intros jpeg. rewrite run_try_except, run_bind, run_generate.
    destruct (generate_content E _) as [response|e]; [|done].
    match goal with |- context [image_response_result E response ?w1] =>
      rewrite (same_result_image_response_result E response w w1);
      destruct (image_response_result E response w1) as [[v|e] w2]
    end; done. }
  unfold analyze_image_with_gemini, prepared_jpeg. cbv zeta.
  rewrite run_try_except, run_bind, run_try_except, run_bind, run_lift.
  destruct (Image_open E data) as [image|e]; [|done]. cbv beta iota.
  rewrite run_bind.
  destruct (negb (pystr_eqb (image_mode E image) (py "RGB"))).
  - rewrite run_lift. destruct (image_convert_rgb E image) as [image'|e]; [|done].
    cbv beta iota. rewrite run_bind, run_lift.
    destruct (image_save_jpeg E image') as [jpeg|e]; [|done].
    rewrite run_mret. cbv beta iota. rewrite <- Hcall.
    destruct (image_call_world E jpeg (py "image/jpeg") w) as [v ->]. done.
  - rewrite run_mret. cbv beta iota. rewrite run_bind, run_lift.
    destruct (image_save_jpeg E image) as [jpeg|e]; [|done].
    rewrite run_mret. cbv beta iota. rewrite <- Hcall.
    destruct (image_call_world E jpeg (py "image/jpeg") w) as [v ->]. done.
Qed.

Lemma chat_api_run (E : Env) (message : pystr) (w : world) :
  message <> [] ->
  (chat_api E (Some message) w).1
  = match generate_content E (ReqText (chat_prompt_in w message)) with
    | Raise e =>
        Ret (Http (error_record
                     (py "An unexpected error occurred during chat: " ++ exn_str e)) 500)
    | Ret response =>
        match (chat_response_result response w).1 with
        | Ret r => Ret r
        | Raise e =>
            Ret (Http (error_record
                         (py "An unexpected error occurred during chat: " ++ exn_str e))
                   500)
        end
    end.
Proof.
  assert (forall logs prompt,
    (let (o, w') :=
       bind (generate E (ReqText prompt)) (fun response => chat_response_result response)
         (World (session w) (trace w ++ logs)) in
     match o with
     | Ret a => (Ret a, w')
     | Raise e =>
         (Ret (Http (error_record
                       (py "An unexpected error occurred during chat: " ++ exn_str e))
                 500), w')
     end).1
    = match generate_content E (ReqText prompt) with
      | Raise e =>
          Ret (Http (error_record
                       (py "An unexpected error occurred during chat: " ++ exn_str e)) 500)
      | Ret response =>
          match (chat_response_result response w).1 with
          | Ret r => Ret r
          | Raise e =>
              Ret (Http (error_record
                           (py "An unexpected error occurred during chat: " ++ exn_str e))
                     500)
          end
      end) as Hcall.
  { intros logs prompt. rewrite run_bind, run_generate.
    destruct (generate_content E _) as [response|e]; [|done].
    match goal with |- context [chat_response_result response ?w1] =>
      rewrite (same_result_chat_response_result response w w1);
      destruct (chat_response_result response w1) as [[v|e] w2]
    end; done. }
  intros Hm. destruct message as [|c message]; [done|].
  unfold chat_api, chat_prompt_in, chat_context. cbv zeta.
  rewrite run_bind, run_session_get, run_bind, run_session_get.
  destruct (session w !! k_text) as [[|c2 d2]|];
    destruct (session w !! k_filename) as [[|c3 d3]|]; cbv beta iota.
  all: rewrite run_try_except, run_bind.
  all: try (rewrite run_mret; cbv beta iota;
            rewrite <- (Hcall [] (general_prompt (c :: message)));
            rewrite app_nil_r; by destruct w).
  generalize (len (c2 :: d2)) (slice_to 50000 (c2 :: d2)). intros n cut.
  destruct (50000 <? n)%Z.
  - rewrite !run_bind, run_log, !run_mret. cbv beta iota.
    by rewrite <- (Hcall [EvLog (WarnTruncatingChat n 50000)]).
  - rewrite !run_bind, !run_mret. cbv beta iota.
    rewrite <- (Hcall []). rewrite app_nil_r. by destruct w.
Qed.

(* ================================================================== *)
(** ** Replies without a text, and calls that fail *)

Lemma ai_error_record (a b : pystr) : ai_side a = true -> ai_error (error_record (a ++ b)).
Proof. intros H. exists (a ++ b). split; [by apply ai_side_app_l|by left]. Qed.

Lemma ai_error_500 (v : json) (w : world) :
  ai_error v -> analysis_response v w = (Ret (Http v 500), w).
Proof.
  intros (msg & Hai & [-> | [ratings ->]]).
  - destruct (analysis_response_dict [(py "error", JStr msg)] w) as [_ H].
    unfold error_record. rewrite (H msg) by done. by rewrite Hai.
  - destruct (analysis_response_dict
                [(py "error", JStr msg); (py "safety_ratings", ratings)] w) as [_ H].
    unfold error_with_safety. rewrite (H msg) by done. by rewrite Hai.
Qed.

(** Without a top-level text, what [analyze_text_with_gemini] makes of
    the response is an error record of the AI side, or an exception. *)
Lemma text_response_no_text (E : Env) (response : Response) (e : exn) (w : world) :
  resp_text response = Raise e ->
  match (text_response_result E response w).1 with
  | Ret v => ai_error v
  | Raise _ => True
  end.
Proof.
  intros Ht. unfold text_response_result. rewrite run_bind, Ht. cbn [hasattr].
  destruct (bool_decide (exn_cls e = AttributeError)); [|done].
  unfold ret. cbv beta iota. rewrite run_bind.
  destruct (resp_candidates response) as [cands|e2]; cbn [hasattr].
  - unfold ret. cbv beta iota. rewrite run_bind, run_lift.
    destruct cands as [|cand cands].
    + cbv beta iota. rewrite run_mret. cbn [fst].
      by apply (ai_error_record
                  (py "Unknown error or empty response from Gemini for summary.") []).
    + cbv beta iota. rewrite run_bind, run_lift.
      destruct (cand_finish_reason cand) as [fr|e3]; [|done].
      destruct (negb (pystr_eqb fr (py "STOP"))).
      * rewrite run_bind.
        destruct (cand_safety_ratings cand) as [sr|e4]; cbn [getattr_default].
        -- unfold ret. rewrite run_mret. cbn [fst]. eexists. split; [|right; eauto].
           by apply ai_side_app_l.
        -- destruct (bool_decide (exn_cls e4 = AttributeError)); [|done].
           unfold ret. rewrite run_mret. cbn [fst]. eexists. split; [|right; eauto].
           by apply ai_side_app_l.
      * rewrite run_try_except_of, run_bind, run_lift.
        destruct (cand_text cand) as [s|e5].
        -- cbv beta iota zeta. rewrite run_mret. cbn [fst].
           by apply (ai_error_record
                       (py "AI response structure unexpected, text found but parsing needs check.") []).
        -- destruct (bool_decide (exn_cls e5 ∈ [AttributeError; IndexError])); [|done].
           rewrite run_mret. cbn [fst].
           by apply (ai_error_record
                       (py "No text content received from Gemini for summary.") []).
  - destruct (bool_decide (exn_cls e2 = AttributeError)); [|done].
    unfold ret. cbv beta iota. rewrite run_bind, run_mret. cbv beta iota.
    rewrite run_mret. cbn [fst].
    by apply (ai_error_record
                (py "Unknown error or empty response from Gemini for summary.") []).
Qed.

(** X10. A response without a top-level text is never parsed by the
    text analyzer, whatever its candidates hold: when reading
    [response.text] raises, [analyze_text_with_gemini] returns an error
    record whose message contains "AI" or "Gemini", and [analyze_report]
    answers it with status 500. *)
Theorem reply_without_text_is_an_error
  (E : Env) (p : pystr) (fn : option pystr) (w : world) (t : pystr)
  (response : Response) (e : exn) :
  p <> [] -> path_exists E p = true -> path_suffix_lower E p ∉ image_exts ->
  (extract_text E p w).1 = Ret t -> t <> [] ->
  generate_content E (ReqText (text_prompt (capped t))) = Ret response ->
  resp_text response = Raise e ->
  exists v,
    (analyze_text_with_gemini E t w).1 = Ret v
    /\ ai_error v
    /\ (analyze_report E (Some p) fn w).1 = Ret (Http v 500).
Proof.
  intros Hp He Hi Ht Hne Hg Hr.
  assert (exists v, (analyze_text_with_gemini E t w).1 = Ret v /\ ai_error v)
    as (v & Hv & Hai).
  { rewrite analyze_text_run, Hg.
    pose proof (text_response_no_text E response e w Hr) as H.
    destruct (text_response_result E response w).1 as [v|e1]; [by exists v|].
    eexists. split; [reflexivity|]. by apply ai_error_record. }
  exists v. split; [done|]. split; [done|].
  destruct (analyze_report_analyzed E p fn w v Hp He) as [w1 ->].
  { left. split; [done|]. by exists t. }
  by rewrite ai_error_500.
Qed.

(** X10, on an instance: the one candidate of the response holds the
    JSON object [{}], and reading [response.text] raises. *)
Lemma reply_without_text_is_an_error_witness :
  (analyze_report
     (mock_env (fun _ => Ret (candidate_reply (Exn AttributeError (py "text")) (py "{}")))
        [py "uploads/report.pdf"] (Ret [py "Patient has mild hypertension."])
        unavailable true)
     (Some (py "uploads/report.pdf")) None w0).1
  = Ret (Http (error_record
                 (py "AI response structure unexpected, text found but parsing needs check."))
           500).
Proof.
  destruct (reply_without_text_is_an_error
              (mock_env
                 (fun _ => Ret (candidate_reply (Exn AttributeError (py "text")) (py "{}")))
                 [py "uploads/report.pdf"] (Ret [py "Patient has mild hypertension."])
                 unavailable true)
              (py "uploads/report.pdf") None w0 (py "Patient has mild hypertension.")
              (candidate_reply (Exn AttributeError (py "text")) (py "{}"))
              (Exn AttributeError (py "text")))
    as (v & Hv & _ & Hr).
  - done.
  - vm_compute; reflexivity.
  - apply (bool_decide_unpack _). vm_compute. exact I.
  - vm_compute; reflexivity.
  - done.
  - reflexivity.
  - reflexivity.
  - rewrite Hr. f_equal. f_equal.
    assert (Ret v = Ret (error_record
                      (py "AI response structure unexpected, text found but parsing needs check.")))
      as Heq; [|by injection Heq].
    rewrite <- Hv. vm_compute. reflexivity.
Defined.

(** X11. When the call to Gemini itself raises, no route raises: the
    analysis of a document answers 500 with "Unexpected AI text processing
    error: ...", the analysis of an image 500 with "Gemini API
    communication error: ...", the chat 500 with "An unexpected error
    occurred during chat: ...", each with the text of the exception. *)
Theorem gemini_failure_is_500 (E : Env) (w : world) (e : exn) :
  (forall p fn t,
      p <> [] -> path_exists E p = true -> path_suffix_lower E p ∉ image_exts ->
      (extract_text E p w).1 = Ret t -> t <> [] ->
      generate_content E (ReqText (text_prompt (capped t))) = Raise e ->
      (analyze_report E (Some p) fn w).1
      = Ret (Http (error_record
                     (py "Unexpected AI text processing error: " ++ exn_str e)) 500))
  /\ (forall p fn data jpeg,
        p <> [] -> path_exists E p = true -> path_suffix_lower E p ∈ image_exts ->
        read_binary E p = Ret data -> prepared_jpeg E data = Ret jpeg ->
        generate_content E (ReqParts (py "image/jpeg") jpeg image_prompt) = Raise e ->
        (analyze_report E (Some p) fn w).1
        = Ret (Http (error_record
                       (py "Gemini API communication error: " ++ exn_str e)) 500))
  /\ (forall message,
        message <> [] ->
        generate_content E (ReqText (chat_prompt_in w message)) = Raise e ->
        (chat_api E (Some message) w).1
        = Ret (Http (error_record
                       (py "An unexpected error occurred during chat: " ++ exn_str e))
                 500)).
Proof.
  split; [|split].
  - intros p fn t Hp He Hi Ht Hne Hg.
    destruct (analyze_report_analyzed E p fn w
                (error_record (py "Unexpected AI text processing error: " ++ exn_str e))
                Hp He) as [w1 ->].
    { left. split; [done|]. exists t. split; [done|]. split; [done|].
      by rewrite analyze_text_run, Hg. }
    rewrite ai_error_500; [done|]. by apply ai_error_record.
  - intros p fn data jpeg Hp He Hi Hd Hj Hg.
    destruct (analyze_report_analyzed E p fn w
                (error_record (py "Gemini API communication error: " ++ exn_str e))
                Hp He) as [w1 ->].
    { right. split; [done|]. exists data. split; [done|].
      by rewrite analyze_image_run, Hj, Hg. }
    rewrite ai_error_500; [done|]. by apply ai_error_record.
  - intros message Hm Hg. by rewrite chat_api_run, Hg.
Qed.

(** X11, on an instance: Gemini cannot be reached, for a report, a scan
    and a question. *)
Lemma gemini_failure_is_500_witness :
  let E := mock_env (fun _ => unavailable) [py "uploads/report.pdf"; py "uploads/scan.png"]
             (Ret [py "Patient has mild hypertension."]) unavailable true in
  (analyze_report E (Some (py "uploads/report.pdf")) None w0).1
  = Ret (Http (error_record (py "Unexpected AI text processing error: unavailable")) 500)
  /\ (analyze_report E (Some (py "uploads/scan.png")) None w0).1
     = Ret (Http (error_record (py "Gemini API communication error: unavailable")) 500)
  /\ (chat_api E (Some (py "what was found?")) w0).1
     = Ret (Http (error_record
                    (py "An unexpected error occurred during chat: unavailable")) 500).
Proof.
  intros E.
  destruct (gemini_failure_is_500 E w0 (Exn OtherError (py "unavailable")))
    as (Hdoc & Himg & Hchat).
  split; [|split].
  - apply (Hdoc (py "uploads/report.pdf") None (py "Patient has mild hypertension.")).
    + done.
    + vm_compute; reflexivity.
    + apply (bool_decide_unpack _). vm_compute. exact I.
    + vm_compute; reflexivity.
    + done.
    + reflexivity.
  - apply (Himg (py "uploads/scan.png") None [] []).
    + done.
    + vm_compute; reflexivity.
    + apply (bool_decide_unpack _). vm_compute. exact I.
    + reflexivity.
    + reflexivity.
    + reflexivity.
  - apply (Hchat (py "what was found?")).
    + done.
    + reflexivity.
Defined.

(* ================================================================== *)
(** ** A blocked image *)

Lemma ai_side_after (b : pystr) :
  ai_side (py "Image analysis failed. Reason: " ++ b) = ai_side b.
Proof.
  unfold ai_side.
  assert (forall n, n = py "AI" \/ n = py "Gemini" ->
            substring_in n (py "Image analysis failed. Reason: " ++ b) = substring_in n b)
    as H.
  { intros n [-> | ->]; vm_compute py; cbn [app substring_in is_prefix N.eqb Pos.eqb andb orb];
      reflexivity. }
  by rewrite !H by auto.
Qed.

(** X12. An image Gemini gives no candidate for.  When the prompt
    feedback cannot be read, [analyze_report] answers 400 with "Image
    analysis failed (No candidates received)."; when it can, it answers with
    "Image analysis failed. Reason: " and the block reason, together with
    the safety ratings, and the status is 400 unless the block reason
    itself contains "AI" or "Gemini". *)
Theorem blocked_image_is_400
  (E : Env) (p : pystr) (fn : option pystr) (w : world)
  (data jpeg : bytes) (response : Response) :
  p <> [] -> path_exists E p = true -> path_suffix_lower E p ∈ image_exts ->
  read_binary E p = Ret data -> prepared_jpeg E data = Ret jpeg ->
  generate_content E (ReqParts (py "image/jpeg") jpeg image_prompt) = Ret response ->
  resp_candidates response = Ret [] ->
  (raises (resp_prompt_feedback response) ->
   (analyze_report E (Some p) fn w).1
   = Ret (Http (error_record (py "Image analysis failed (No candidates received).")) 400))
  /\ (forall feedback reason ratings,
        resp_prompt_feedback response = Ret feedback ->
        fb_block_reason feedback = Ret reason ->
        fb_safety_ratings feedback = Ret ratings ->
        (analyze_report E (Some p) fn w).1
        = Ret (Http (error_with_safety (py "Image analysis failed. Reason: " ++ reason)
                       ratings)
                 (if ai_side reason then 500 else 400)%Z)).
Proof.
  intros Hp He Hi Hd Hj Hg Hc. split.
  - intros [e Hf].
    destruct (analyze_report_analyzed E p fn w
                (error_record (py "Image analysis failed (No candidates received)."))
                Hp He) as [w1 ->].
    { right. split; [done|]. exists data. split; [done|].
      rewrite analyze_image_run, Hj, Hg. unfold image_response_result.
      by rewrite run_bind, run_lift, Hc, run_try_except, run_bind, run_lift, Hf. }
    destruct (analysis_response_dict
                [(py "error", JStr (py "Image analysis failed (No candidates received)."))]
                w1) as [_ H].
    unfold error_record. by rewrite (H _ eq_refl).
  - intros feedback reason ratings Hf Hr Hs.
    destruct (analyze_report_analyzed E p fn w
                (error_with_safety (py "Image analysis failed. Reason: " ++ reason) ratings)
                Hp He) as [w1 ->].
    { right. split; [done|]. exists data. split; [done|].
      rewrite analyze_image_run, Hj, Hg. unfold image_response_result.
      rewrite run_bind, run_lift, Hc, run_try_except, run_bind, run_lift, Hf.
      cbv beta iota. rewrite run_bind, Hr. cbn [getattr_default]. unfold ret.
      cbv beta iota. by rewrite run_bind, Hs. }
    destruct (analysis_response_dict
                [(py "error", JStr (py "Image analysis failed. Reason: " ++ reason));
                 (py "safety_ratings", ratings)] w1) as [_ H].
    unfold error_with_safety. rewrite (H _ eq_refl). by rewrite ai_side_after.
Qed.

(** X12, on an instance: a scan blocked for safety. *)
Lemma blocked_image_is_400_witness :
  (analyze_report
     (mock_env
        (fun _ => Ret (blocked_reply
                         (Ret {| fb_block_reason := Ret (py "SAFETY");
                                 fb_safety_ratings := Ret JNull |})))
        [py "uploads/scan.png"] unavailable unavailable true)
     (Some (py "uploads/scan.png")) None w0).1
  = Ret (Http (error_with_safety (py "Image analysis failed. Reason: SAFETY") JNull) 400).
Proof.
  apply (proj2 (blocked_image_is_400
                  (mock_env
                     (fun _ => Ret (blocked_reply
                                      (Ret {| fb_block_reason := Ret (py "SAFETY");
                                              fb_safety_ratings := Ret JNull |})))
                     [py "uploads/scan.png"] unavailable unavailable true)
                  (py "uploads/scan.png") None w0 [] []
                  (blocked_reply (Ret {| fb_block_reason := Ret (py "SAFETY");
                                          fb_safety_ratings := Ret JNull |}))
                  ltac:(done) ltac:(vm_compute; reflexivity)
                  ltac:(apply (bool_decide_unpack _); vm_compute; exact I)
                  eq_refl eq_refl eq_refl eq_refl)
           {| fb_block_reason := Ret (py "SAFETY"); fb_safety_ratings := Ret JNull |}
           (py "SAFETY") JNull eq_refl eq_refl eq_refl).
Defined.

(* ================================================================== *)
(** ** Requests that are turned down or fail on the disk *)

(** X13. An upload that does not get as far as a saved file changes
    nothing.  Without a file part it is answered 400 "No file part", with
    an empty file name 400 "No selected file", and when saving raises 500
    "Failed to save file: ..." with the text of the exception; in each case
    the session, with the document context of an earlier analysis, is as
    before, and nothing is recorded as saved. *)
Theorem failed_upload_changes_nothing (E : Env) (w : world) :
  upload_file E None w = (Ret (Http (error_record (py "No file part")) 400), w)
  /\ (forall content,
        upload_file E (Some ([], content)) w
        = (Ret (Http (error_record (py "No selected file")) 400), w))
  /\ (forall name content e,
        name <> [] -> file_save E (upload_path E name) content = Raise e ->
        upload_file E (Some (name, content)) w
        = (Ret (Http (error_record (py "Failed to save file: " ++ exn_str e)) 500), w)).
Proof.
  split; [done|]. split; [done|].
  intros name content e Hn Hs. unfold upload_file.
  rewrite pystr_eqb_neq by done. cbv zeta.
  by rewrite run_try_except, run_bind, run_lift, Hs.
Qed.

(** X13, on an instance: the disk is full, and the session still holds
    the old report. *)
Lemma failed_upload_changes_nothing_witness :
  upload_file
    (with_disk (Raise (Exn OtherError (py "No space left on device"))) unavailable
       (mock_env (answers []) [] unavailable unavailable true))
    (Some (py "new.pdf", [])) (with_document (py "old report text") (py "old.pdf"))
  = (Ret (Http (error_record (py "Failed to save file: No space left on device")) 500),
     with_document (py "old report text") (py "old.pdf")).
Proof.
  apply (proj2 (proj2 (failed_upload_changes_nothing
                         (with_disk (Raise (Exn OtherError (py "No space left on device")))
                            unavailable
                            (mock_env (answers []) [] unavailable unavailable true))
                         (with_document (py "old report text") (py "old.pdf"))))
           (py "new.pdf") [] (Exn OtherError (py "No space left on device"))).
  - done.
  - reflexivity.
Defined.

(** X14. When the image file cannot be read, [analyze_report] answers
    500 with "Image analysis failed: ..." and the text of the exception,
    without calling Gemini; the document context was cleared before. *)
Theorem unreadable_image_is_500
  (E : Env) (p : pystr) (fn : option pystr) (w : world) (e : exn) :
  p <> [] -> path_exists E p = true -> path_suffix_lower E p ∈ image_exts ->
  read_binary E p = Raise e ->
  (analyze_report E (Some p) fn w).1
  = Ret (Http (error_record (py "Image analysis failed: " ++ exn_str e)) 500)
  /\ gemini_calls (new_events (analyze_report E (Some p) fn) w) = []
  /\ session (analyze_report E (Some p) fn w).2 !! k_text = None
  /\ session (analyze_report E (Some p) fn w).2 !! k_filename = None.
Proof.
  intros Hp He Hi Hr. unfold new_events.
  rewrite analyze_report_image by done. rewrite Hr. cbn [fst snd].
  split; [done|]. split.
  - by rewrite trace_cleared, drop_app_length.
  - unfold cleared. cbn [session].
    split; [rewrite lookup_delete_ne by done|]; apply lookup_delete_eq.
Qed.

(** X14, on an instance: the scan was removed while the session held an
    old report. *)
Lemma unreadable_image_is_500_witness :
  (analyze_report
     (with_disk (Ret tt) (Raise (Exn OtherError (py "Permission denied")))
        (mock_env (answers (py "{}")) [py "uploads/scan.png"] unavailable unavailable true))
     (Some (py "uploads/scan.png")) None
     (with_document (py "old report text") (py "old.pdf"))).1
  = Ret (Http (error_record (py "Image analysis failed: Permission denied")) 500).
Proof.
  apply (unreadable_image_is_500
           (with_disk (Ret tt) (Raise (Exn OtherError (py "Permission denied")))
              (mock_env (answers (py "{}")) [py "uploads/scan.png"]
                 unavailable unavailable true))
           (py "uploads/scan.png") None
           (with_document (py "old report text") (py "old.pdf"))
           (Exn OtherError (py "Permission denied"))).
  - done.
  - vm_compute; reflexivity.
  - apply (bool_decide_unpack _). vm_compute. exact I.
  - reflexivity.
Defined.

(* ================================================================== *)
(** ** The chat *)

Lemma gives_try_except_of {A} (Q : A -> Prop) cs (m : M A) h :
  gives Q m -> (forall e, gives Q (h e)) -> gives Q (try_except_of cs m h).
Proof.
  intros Hm Hh w a w'. unfold try_except_of.
  destruct (m w) as [[a'|e] w1] eqn:Hmw.
  - intros [= <- <-]. eapply Hm, Hmw.
  - destruct (bool_decide _); [apply Hh|done].
Qed.

(** What [chat_api] makes of a response has status 200 or 500. *)
Lemma chat_response_status (response : Response) :
  gives (fun r => status r = 200%Z \/ status r = 500%Z) (chat_response_result response).
Proof.
  unfold chat_response_result.
  repeat lazymatch goal with
    | |- gives _ (if ?b then _ else _) => destruct b
    | |- gives _ (match ?x with _ => _ end) => destruct x
    | |- gives _ (bind _ _) => apply gives_bind; intros ?
    | |- gives _ (try_except_of _ _ _) => apply gives_try_except_of; [|intros ?]
    | |- gives _ (mret _) => apply gives_ret; cbn [status]; auto
    end.
Qed.

(** X15. [chat_api] never raises and never changes the session.  Its
    status is 400 exactly when the message is missing or empty, and then
    Gemini is not called; otherwise it is 200 or 500. *)
Theorem chat_always_answers (E : Env) (message : option pystr) (w : world) :
  session (chat_api E message w).2 = session w
  /\ exists r,
       (chat_api E message w).1 = Ret r
       /\ (status r = 200%Z \/ status r = 400%Z \/ status r = 500%Z)
       /\ (status r = 400%Z <-> message = None \/ message = Some [])
       /\ (status r = 400%Z -> new_events (chat_api E message) w = []).
Proof.
  split; [apply (keeps_chat_api E message w)|].
  destruct message as [[|c m]|].
  - eexists. split; [reflexivity|]. cbn [status].
    split; [auto|]. split; [split; auto|]. intros _. by apply new_events_same.
  - assert (exists r, (chat_api E (Some (c :: m)) w).1 = Ret r
                      /\ (status r = 200%Z \/ status r = 500%Z)) as (r & Hr & Hst).
    { rewrite chat_api_run by done.
      destruct (generate_content E _) as [response|e]; [|eexists; split; [done|by right]].
      destruct (chat_response_result response w) as [[r|e] w1] eqn:Hc; cbn [fst].
      - exists r. split; [done|]. by apply (chat_response_status response w r w1).
      - eexists. split; [done|]. by right. }
    exists r. split; [done|]. split; [tauto|]. split; [|lia].
    split; [lia|]. by intros [|].
  - eexists. split; [reflexivity|]. cbn [status].
    split; [auto|]. split; [split; auto|]. intros _. by apply new_events_same.
Qed.

(** X16. The answer of the chat.  The text of Gemini's reply is answered
    as it is, white space included, with status 200.  When the response has
    no top-level text, the text of its first candidate is answered,
    stripped, if that candidate finished with STOP. *)
Theorem chat_answers_reply_text
  (E : Env) (message : pystr) (w : world) (response : Response) :
  message <> [] ->
  generate_content E (ReqText (chat_prompt_in w message)) = Ret response ->
  (forall text,
      resp_text response = Ret text ->
      (chat_api E (Some message) w).1
      = Ret (Http (JDict [(py "response", JStr text)]) 200))
  /\ (forall e candidate rest text,
        resp_text response = Raise e -> exn_cls e = AttributeError ->
        resp_candidates response = Ret (candidate :: rest) ->
        cand_finish_reason candidate = Ret (py "STOP") ->
        cand_text candidate = Ret text ->
        (chat_api E (Some message) w).1
        = Ret (Http (JDict [(py "response", JStr (strip text))]) 200)).
Proof.
  intros Hm Hg. rewrite chat_api_run, Hg by done. split.
  - intros text Ht. unfold chat_response_result. by rewrite run_bind, Ht.
  - intros e candidate rest text Ht Hc Hcs Hf Htx. unfold chat_response_result.
    rewrite run_bind, Ht. cbn [hasattr]. rewrite bool_decide_eq_true_2 by done.
    unfold ret. cbv beta iota. rewrite run_bind, Hcs. cbn [hasattr]. unfold ret.
    cbv beta iota. rewrite run_bind, run_lift. cbv beta iota.
    rewrite run_bind, run_lift, Hf. cbv beta iota.
    rewrite pystr_eqb_refl. cbn [negb].
    by rewrite run_try_except_of, run_bind, run_lift, Htx.
Qed.

(** X16, on an instance: a reply that ends with a line feed, as a text
    and as the text of a candidate. *)
Lemma chat_answers_reply_text_witness :
  (chat_api (mock_env (answers (py ("Rest." +:+ nl))) [] unavailable unavailable true)
     (Some (py "what now?")) w0).1
  = Ret (Http (JDict [(py "response", JStr (py ("Rest." +:+ nl)))]) 200)
  /\ (chat_api
        (mock_env
           (fun _ => Ret (candidate_reply (Exn AttributeError (py "text"))
                            (py ("Rest." +:+ nl))))
           [] unavailable unavailable true)
        (Some (py "what now?")) w0).1
     = Ret (Http (JDict [(py "response", JStr (py "Rest."))]) 200).
Proof.
  split.
  - apply (proj1 (chat_answers_reply_text
                    (mock_env (answers (py ("Rest." +:+ nl))) [] unavailable unavailable true)
                    (py "what now?") w0 (text_reply (py ("Rest." +:+ nl)))
                    ltac:(done) eq_refl)
             (py ("Rest." +:+ nl)) eq_refl).
  - apply (proj2 (chat_answers_reply_text
                    (mock_env
                       (fun _ => Ret (candidate_reply (Exn AttributeError (py "text"))
                                        (py ("Rest." +:+ nl))))
                       [] unavailable unavailable true)
                    (py "what now?") w0
                    (candidate_reply (Exn AttributeError (py "text")) (py ("Rest." +:+ nl)))
                    ltac:(done) eq_refl)
             (Exn AttributeError (py "text")) _ [] (py ("Rest." +:+ nl))
             eq_refl eq_refl eq_refl eq_refl eq_refl).
Defined.

(** X15, on an instance: a chat without a message, while the session
    holds a report. *)
Lemma chat_always_answers_witness :
  new_events
    (chat_api (mock_env (answers (py "ok")) [] unavailable unavailable true) None)
    (with_document (py "old report text") (py "old.pdf")) = [].
Proof.
  destruct (chat_always_answers
              (mock_env (answers (py "ok")) [] unavailable unavailable true) None
              (with_document (py "old report text") (py "old.pdf")))
    as (_ & r & _ & _ & Hiff & Hnone).
  apply Hnone, Hiff. by left.
Defined.

(* ================================================================== *)
(** ** The document context between requests *)

Lemma upload_file_saved (E : Env) (name : pystr) (content : bytes) (w : world) :
  name <> [] -> file_save E (upload_path E name) content = Ret tt ->
  session (upload_file E (Some (name, content)) w).2
  = delete k_filename (delete k_text (session w)).
Proof.
  intros Hn Hs. unfold upload_file. rewrite pystr_eqb_neq by done. cbv zeta.
  rewrite run_try_except, run_bind, run_lift, Hs. reflexivity.
Qed.

Lemma clears_session (E : Env) (c : call) (w : world) :
  clears E c w ->
  session (handle E c w).2 = delete k_filename (delete k_text (session w)).
Proof.
  destruct c as [[[name content]|] | [p|] fn | message]; try done; cbn [handle clears].
  - intros [Hn Hs]. by apply upload_file_saved.
  - intros (Hp & He & [Hi | Ht]).
    + by destruct (analyze_report_image_world E p fn w Hp He Hi) as (rest & Hs & _).
    + destruct (decide (path_suffix_lower E p ∈ image_exts)) as [Hi|Hi].
      * by destruct (analyze_report_image_world E p fn w Hp He Hi) as (rest & Hs & _).
      * by destruct (analyze_report_empty_world E p fn w Hp He Hi Ht) as (logs & Hs & _).
Qed.

(** X17. After a request that clears the document context (an upload
    that is saved, an analysis of an image, an analysis of a document
    without text), the next chat knows no document: its one call to Gemini
    carries the general prompt with the message, whatever the session held
    before. *)
Theorem chat_after_clearing_is_general
  (E E' : Env) (c : call) (w : world) (message : pystr) :
  clears E c w -> message <> [] ->
  gemini_calls (new_events (chat_api E' (Some message)) (handle E c w).2)
  = [ReqText (general_prompt message)].
Proof.
  intros Hc Hm.
  destruct (chat_api_events E' message (handle E c w).2 Hm) as (logs & -> & Hl).
  rewrite gemini_calls_app, (gemini_calls_logs logs) by done.
  unfold chat_prompt_in. rewrite (clears_session E c w Hc).
  rewrite lookup_delete_ne by done. by rewrite lookup_delete_eq.
Qed.

(** X17, on an instance: a new file is uploaded while the session holds
    an old report, and a question follows. *)
Lemma chat_after_clearing_is_general_witness :
  let E := mock_env (answers (py "ok")) [] unavailable unavailable true in
  gemini_calls
    (new_events (chat_api E (Some (py "what was found?")))
       (handle E (CallUpload (Some (py "new.pdf", [])))
          (with_document (py "old report text") (py "old.pdf"))).2)
  = [ReqText (general_prompt (py "what was found?"))].
Proof.
  intros E.
  apply (chat_after_clearing_is_general E E (CallUpload (Some (py "new.pdf", [])))
           (with_document (py "old report text") (py "old.pdf"))
           (py "what was found?")).
  - split; [done|reflexivity].
  - done.
Defined.

(** X18. In every reachable world the session holds nothing but the
    document context, and its two keys go together: the text is there
    exactly when the file name is. *)
Theorem context_keys_go_together (h : list (Env * call)) (w : world) :
  reachable h w ->
  (is_Some (session w !! k_text) <-> is_Some (session w !! k_filename))
  /\ (forall k, is_Some (session w !! k) -> k = k_text \/ k = k_filename).
Proof.
  induction 1 as [|h E c w Hr [IH1 IH2]].
  - cbn [session]. split.
    + rewrite !lookup_empty. split; by intros [x Hx].
    + intros k. rewrite lookup_empty. by intros [x Hx].
  - destruct (handle_world E c w)
      as [[-> _] | [[-> _] | (p & fn & t & logs & rest & _ & _ & _ & _ & -> & _)]].
    + done.
    + split.
      * rewrite lookup_delete_ne by done. rewrite !lookup_delete_eq.
        split; by intros [x Hx].
      * intros k Hk.
        destruct (decide (k = k_filename)) as [->|Hf]; [by right|].
        destruct (decide (k = k_text)) as [->|Ht]; [by left|].
        rewrite !lookup_delete_ne in Hk by done. by apply IH2.
    + split.
      * rewrite lookup_insert_ne by done. rewrite !lookup_insert_eq.
        split; intros _; eauto.
      * intros k Hk.
        destruct (decide (k = k_filename)) as [->|Hf]; [by right|].
        destruct (decide (k = k_text)) as [->|Ht]; [by left|].
        rewrite !lookup_insert_ne, !lookup_delete_ne in Hk by done. by apply IH2.
Qed.

(** X18, on an instance: the world after the analysis of a PDF report. *)
Lemma context_keys_go_together_witness :
  let E := clinic (py "{}") [py "uploads/report.pdf"] (py "Patient has mild hypertension.") in
  let c := CallAnalyze (Some (py "uploads/report.pdf")) None in
  is_Some (session (handle E c w0).2 !! k_text)
  <-> is_Some (session (handle E c w0).2 !! k_filename).
Proof.
  intros E c.
  exact (proj1 (context_keys_go_together ([] ++ [(E, c)]) (handle E c w0).2
                  (reach_call [] E c w0 reach_start))).
Defined.
